(** * ProxiBase: the request pipeline of a mirroring reverse proxy

    A shallow embedding of the Python sources under [backend/app] and the
    properties of the specification that are stated about them.

    Conventions.
    - A Python [str] is a [string]; its characters are the code points
      below 256.  String concatenation is written [+:+].
    - A Python function that may raise returns a [result]; [try/except]
      is a match on it.
    - Library functions whose body is not part of the repository but whose
      behaviour is fixed by CPython ([str] methods, [urllib.parse.urlparse],
      [ipaddress]) are transcribed in the modules [Py], [urllib] and
      [ipaddress]; so is what Starlette makes of the arguments of a
      [Response] ([render], [init_headers]).  Functions that depend on
      the environment or are too large to transcribe ([urljoin],
      [re.sub], DNS resolution, the HTTP client, the HTML parser and
      printer, the text of a [Set-Cookie] header) are arguments of the
      definitions that call them. *)

From Stdlib Require Import ZArith QArith Qround String Ascii List Bool Lia Lqa.
From Stdlib Require Import DecimalString.
From stdpp Require Import base gmap strings list.


(* ===================================================================== *)
(** * Part I: definitions                                                  *)
(* ===================================================================== *)

(** ** Exceptions *)

Inductive exn : Type :=
| ValueError (msg : string)
| TypeError (msg : string)
| gaierror (msg : string)
| OtherError (msg : string).

(** [str(e)]. *)
Definition exn_str (e : exn) : string :=
  match e with
  | ValueError m | TypeError m | gaierror m | OtherError m => m
  end.

Inductive result (A : Type) : Type :=
| Ok (a : A)
| Raise (e : exn).
Arguments Ok {A} a.
Arguments Raise {A} e.

Definition rbind {A B : Type} (c : result A) (k : A -> result B) : result B :=
  match c with
  | Ok a => k a
  | Raise e => Raise e
  end.

Notation "x <-r c ;; k" := (rbind c (fun x => k))
  (at level 100, c at next level, right associativity).

(** ** Python built-ins on [str] *)

Module Py.

(** Truth value of a string: [bool(s)]. *)
Definition truthy (s : string) : bool :=
match s with
| EmptyString => false
| String _ _ => true
end.

(** [c in s] for a one-character string [c]. *)
Fixpoint contains_char (c : ascii) (s : string) : bool :=
match s with
| EmptyString => false
| String d s' => Ascii.eqb d c || contains_char c s'
end.

(** [s.startswith(p)]. *)
Definition startswith (s p : string) : bool := String.prefix p s.

(** [s.endswith(p)]. *)
Fixpoint endswith (s p : string) : bool :=
String.eqb s p ||
match s with
| EmptyString => false
| String _ s' => endswith s' p
end.

(** [p in s] for a substring [p]. *)
Fixpoint contains (p s : string) : bool :=
String.prefix p s ||
match s with
| EmptyString => false
| String _ s' => contains p s'
end.

(** [s[:n]] and [s[n:]] for [n >= 0]. *)
Fixpoint take (n : nat) (s : string) : string :=
match n, s with
| S n', String c s' => String c (take n' s')
| _, _ => EmptyString
end.

Fixpoint drop (n : nat) (s : string) : string :=
match n, s with
| S n', String _ s' => drop n' s'
| _, _ => s
end.

(** [s[:-n]]; Python reads [s[:-0]] as [s[:0]]. *)
Definition drop_last (n : nat) (s : string) : string :=
match n with
| O => EmptyString
| S _ => take (String.length s - n) s
end.

(** [s.lstrip(chars)]. *)
Fixpoint lstrip (chars : string) (s : string) : string :=
match s with
| EmptyString => EmptyString
| String c s' => if contains_char c chars then lstrip chars s' else s
end.

(** [s.split(sep, 1)] for a one-character [sep]: a list of one or two
strings, written as the first and the optional second. *)
Fixpoint split1 (sep : ascii) (s : string) : string * option string :=
match s with
| EmptyString => (EmptyString, None)
| String c s' =>
if Ascii.eqb c sep then (EmptyString, Some s')
else let '(a, b) := split1 sep s' in (String c a, b)
end.

(** [s.rsplit(sep, 1)] for a one-character [sep] that occurs in [s]:
[None] stands for the one-element list returned when it does not. *)
Fixpoint rsplit1 (sep : ascii) (s : string) : option (string * string) :=
match s with
| EmptyString => None
| String c s' =>
match rsplit1 sep s' with
| Some (a, b) => Some (String c a, b)
| None => if Ascii.eqb c sep then Some (EmptyString, s') else None
end
end.

(** [s.replace(c, "")] for each [c] of [chars]. *)
Fixpoint remove_chars (chars : string) (s : string) : string :=
match s with
| EmptyString => EmptyString
| String c s' =>
if contains_char c chars then remove_chars chars s'
else String c (remove_chars chars s')
end.

Definition code (c : ascii) : nat := nat_of_ascii c.

Definition between (lo hi : nat) (c : ascii) : bool :=
(lo <=? code c)%nat && (code c <=? hi)%nat.

(** [c.lower()]: the letters A-Z and the upper-case letters of Latin-1. *)
Definition lower_char (c : ascii) : ascii :=
if between 65 90 c || (between 192 222 c && negb (code c =? 215)%nat)
then ascii_of_nat (code c + 32)
else c.

Fixpoint lower (s : string) : string :=
match s with
| EmptyString => EmptyString
| String c s' => String (lower_char c) (lower s')
end.

(** [c.isspace()] on the code points below 256. *)
Definition isspace (c : ascii) : bool :=
between 9 13 c || between 28 32 c || (code c =? 133)%nat || (code c =? 160)%nat.

Fixpoint lstrip_space (s : string) : string :=
match s with
| EmptyString => EmptyString
| String c s' => if isspace c then lstrip_space s' else s
end.

Fixpoint rstrip_space (s : string) : string :=
match s with
| EmptyString => EmptyString
| String c s' =>
match rstrip_space s' with
| EmptyString => if isspace c then EmptyString else String c EmptyString
| r => String c r
end
end.

(** [s.strip()]. *)
Definition strip (s : string) : string := rstrip_space (lstrip_space s).

(** [all(p(c) for c in s)]. *)
Fixpoint forall_chars (p : ascii -> bool) (s : string) : bool :=
match s with
| EmptyString => true
| String c s' => p c && forall_chars p s'
end.

(** The longest prefix whose characters all satisfy [p], and the rest. *)
Fixpoint span (p : ascii -> bool) (s : string) : string * string :=
match s with
| EmptyString => (EmptyString, EmptyString)
| String c s' =>
if p c then let '(a, b) := span p s' in (String c a, b)
else (EmptyString, s)
end.

(** [s.split(sep)] for a one-character [sep]. *)
Fixpoint split (sep : ascii) (s : string) : list string :=
match s with
| EmptyString => [EmptyString]
| String c s' =>
if Ascii.eqb c sep then EmptyString :: split sep s'
else match split sep s' with
     | h :: t => String c h :: t
     | [] => [String c EmptyString]
     end
end.

(** [sep.join(parts)]. *)
Definition join (sep : string) (parts : list string) : string :=
String.concat sep parts.

(** [s.replace(old, new)] for a non-empty [old]: [skip] counts the
characters of a match that are still to be passed over. *)
Fixpoint replace_from (old new : string) (skip : nat) (s : string) : string :=
match s with
| EmptyString => EmptyString
| String c s' =>
match skip with
| S k => replace_from old new k s'
| O =>
    if String.prefix old s
    then new +:+ replace_from old new (String.length old - 1) s'
    else String c (replace_from old new 0 s')
end
end.

Definition replace (s old new : string) : string := replace_from old new 0 s.

(** The double and the single quote. *)
Definition dq : ascii := "034"%char.
Definition sq : ascii := "039"%char.

(** [any(p in s for p in patterns)]. *)
Definition any_in (patterns : list string) (s : string) : bool :=
existsb (fun p => contains p s) patterns.

(** The hexadecimal digits [0-9a-fA-F]. *)
Definition is_hex_digit (c : ascii) : bool :=
between 48 57 c || between 65 70 c || between 97 102 c.

(** The lower-case hexadecimal digit of a value below 16. *)
Definition hex_char (d : nat) : ascii :=
nth d (list_ascii_of_string "0123456789abcdef") "0"%char.

(** [c.isprintable()] on the code points below 256. *)
Definition isprintable (c : ascii) : bool :=
between 32 126 c || (between 161 255 c && negb (code c =? 173)%nat).

(** One character of [repr(s)] between the quotes [quote]. *)
Definition repr_char (quote c : ascii) : string :=
if Ascii.eqb c quote || Ascii.eqb c "\" then String "\" (String c EmptyString)
else if (code c =? 9)%nat then "\t"
else if (code c =? 10)%nat then "\n"
else if (code c =? 13)%nat then "\r"
else if isprintable c then String c EmptyString
else String "\" (String "x" (String (hex_char (code c / 16))
                            (String (hex_char (code c mod 16)) EmptyString))).

Fixpoint repr_chars (quote : ascii) (s : string) : string :=
match s with
| EmptyString => EmptyString
| String c s' => repr_char quote c +:+ repr_chars quote s'
end.

(** [repr(s)]: single quotes, unless the text holds a single and no
double quote. *)
Definition repr (s : string) : string :=
let quote := if contains_char sq s && negb (contains_char dq s) then dq else sq in
String quote (repr_chars quote s +:+ String quote EmptyString).

(** [str(n)] of an [int]. *)
Definition str_int (n : Z) : string := NilZero.string_of_int (Z.to_int n).

End Py.

(** ** [ipaddress] (CPython 3.12.4 and later)

    [socket.gethostbyname] returns dotted-quad IPv4 text, so
    [ip_address] and the address classes are modelled on that form; an
    address is its 32-bit value.  Of [IPv6Address] only the test that a
    text is an IPv6 address is needed, by [urllib.parse]. *)

Module ipaddress.

Local Open Scope Z_scope.

Definition of_octets (a b c d : Z) : Z := ((a * 256 + b) * 256 + c) * 256 + d.

(** [IPv4Network('a.b.c.d/len')]. *)
Definition IPv4Network (a b c d len : Z) : Z * Z := (of_octets a b c d, len).

(** [ip in IPv4Network(net/len)]. *)
Definition in_network (ip : Z) (net : Z * Z) : bool :=
Z.shiftr ip (32 - snd net) =? Z.shiftr (fst net) (32 - snd net).

Definition digit_value (c : ascii) : option Z :=
if Py.between 48 57 c then Some (Z.of_nat (Py.code c) - 48) else None.

Fixpoint parse_decimal (acc : Z) (s : string) : option Z :=
match s with
| EmptyString => Some acc
| String c s' =>
match digit_value c with
| Some d => parse_decimal (acc * 10 + d) s'
| None => None
end
end.

(** [_parse_octet]: one to three decimal digits, no leading zero on
more than one digit, at most 255. *)
Definition parse_octet (s : string) : option Z :=
if negb (Py.truthy s) then None
else if (3 <? String.length s)%nat then None
else if Py.startswith s "0" && (1 <? String.length s)%nat then None
else match parse_decimal 0 s with
 | Some n => if n <=? 255 then Some n else None
 | None => None
 end.

Definition ip_address (s : string) : result Z :=
match List.map parse_octet (Py.split "." s) with
| [Some a; Some b; Some c; Some d] => Ok (of_octets a b c d)
| _ => Raise (ValueError (Py.repr s +:+ " does not appear to be an IPv4 or IPv6 address"))
end.

(** [_parse_hextet] returns: one to four hexadecimal digits. *)
Definition parse_hextet (hextet_str : string) : bool :=
Py.forall_chars Py.is_hex_digit hextet_str
&& (String.length hextet_str <=? 4)%nat && Py.truthy hextet_str.

(** ['%x' % n] for [0 <= n < 65536]. *)
Definition format_x (n : Z) : string :=
let digit k := Py.hex_char (Z.to_nat (Z.land (Z.shiftr n (4 * k)) 15)) in
Py.lstrip "0" (String (digit 3) (String (digit 2) (String (digit 1) EmptyString)))
+:+ String (digit 0) EmptyString.

(** [_split_scope_id]: the address without its zone, when the zone is
well formed. *)
Definition split_scope_id (ip_str : string) : option string :=
match Py.split1 "%" ip_str with
| (addr, None) => Some addr
| (addr, Some scope_id) =>
if negb (Py.truthy scope_id) || Py.contains_char "%" scope_id then None
else Some addr
end.

(** The parts of [_ip_int_from_string] of an IPv6 text, an IPv4-style
suffix replaced by its two hextets. *)
Definition ipv6_parts (ip_str : string) : option (list string) :=
if negb (Py.truthy ip_str) then None
else
let parts := Py.split ":" ip_str in
if (length parts <? 3)%nat then None
else
let last_part := List.last parts EmptyString in
if Py.contains_char "." last_part then
match ip_address last_part with
| Ok ipv4_int =>
  Some (removelast parts
          ++ [format_x (Z.land (Z.shiftr ipv4_int 16) 65535);
              format_x (Z.land ipv4_int 65535)])
| Raise _ => None
end
else Some parts.

(** The rest of [_ip_int_from_string]: at most nine parts, at most one
empty part between the ends (the [::]), an empty end only next to it,
eight parts without it, and every part that is read a hextet. *)
Definition ipv6_parts_ok (parts : list string) : bool :=
let n := length parts in
let is_empty i := negb (Py.truthy (nth i parts EmptyString)) in
if (9 <? n)%nat then false
else
match List.filter is_empty (seq 1 (n - 2)) with
| [] =>
(n =? 8)%nat && negb (is_empty 0%nat) && negb (is_empty (n - 1)%nat)
&& forallb parse_hextet parts
| [skip_index] =>
let parts_hi := skip_index in
let parts_lo := (n - skip_index - 1)%nat in
let parts_hi := if is_empty 0%nat then (parts_hi - 1)%nat else parts_hi in
let parts_lo := if is_empty (n - 1)%nat then (parts_lo - 1)%nat else parts_lo in
negb (is_empty 0%nat && negb (parts_hi =? 0)%nat)
&& negb (is_empty (n - 1)%nat && negb (parts_lo =? 0)%nat)
&& (parts_hi + parts_lo <? 8)%nat
&& forallb parse_hextet (firstn parts_hi parts)
&& forallb parse_hextet (skipn (n - parts_lo) parts)
| _ => false
end.

(** [IPv6Address(address)] does not raise. *)
Definition is_ipv6 (address : string) : bool :=
if Py.contains_char "/" address then false
else
match split_scope_id address with
| Some addr_str =>
match ipv6_parts addr_str with
| Some parts => ipv6_parts_ok parts
| None => false
end
| None => false
end.

Definition private_networks : list (Z * Z) :=
[IPv4Network 0 0 0 0 8; IPv4Network 10 0 0 0 8; IPv4Network 127 0 0 0 8;
IPv4Network 169 254 0 0 16; IPv4Network 172 16 0 0 12;
IPv4Network 192 0 0 0 24; IPv4Network 192 0 0 170 31;
IPv4Network 192 0 2 0 24; IPv4Network 192 168 0 0 16;
IPv4Network 198 18 0 0 15; IPv4Network 198 51 100 0 24;
IPv4Network 203 0 113 0 24; IPv4Network 240 0 0 0 4;
IPv4Network 255 255 255 255 32].

Definition private_networks_exceptions : list (Z * Z) :=
[IPv4Network 192 0 0 9 32; IPv4Network 192 0 0 10 32].

Definition is_private (ip : Z) : bool :=
existsb (in_network ip) private_networks &&
forallb (fun net => negb (in_network ip net)) private_networks_exceptions.

Definition is_loopback (ip : Z) : bool := in_network ip (IPv4Network 127 0 0 0 8).
Definition is_reserved (ip : Z) : bool := in_network ip (IPv4Network 240 0 0 0 4).
Definition is_link_local (ip : Z) : bool := in_network ip (IPv4Network 169 254 0 0 16).

End ipaddress.

(** ** [urllib.parse] (CPython 3.12)

    [urlsplit], [urlparse] and the [hostname] property, on the code points
    below 256 (so [_checknetloc], which only looks at non-ASCII netlocs
    under NFKC, has nothing to do). *)

Module urllib.

Record ParseResult : Type := mkParseResult {
scheme : string;
netloc : string;
path : string;
params : string;
query : string;
fragment : string
}.

Definition tab : ascii := "009"%char.
Definition lf : ascii := "010"%char.
Definition cr : ascii := "013"%char.

(** [_WHATWG_C0_CONTROL_OR_SPACE]: the code points 0 to 32. *)
Definition c0_control_or_space : string :=
string_of_list_ascii (List.map ascii_of_nat (seq 0 33)).

(** [_UNSAFE_URL_BYTES_TO_REMOVE]. *)
Definition unsafe_url_bytes : string :=
String tab (String cr (String lf EmptyString)).

Definition ascii_alpha (c : ascii) : bool :=
Py.between 65 90 c || Py.between 97 122 c.

Definition scheme_char (c : ascii) : bool :=
ascii_alpha c || Py.between 48 57 c || Py.contains_char c "+-.".

Definition uses_params : list string :=
[EmptyString; "ftp"; "hdl"; "prospero"; "http"; "imap"; "https"; "shttp"; "rtsp";
"rtspu"; "sip"; "sips"; "mms"; "sftp"; "tel"].

(** The scheme test of [urlsplit]: [i = url.find(':')], [i > 0], the
first character an ASCII letter and [url[:i]] made of scheme
characters. *)
Definition split_scheme (url : string) : string * string :=
match Py.split1 ":" url, url with
| (s, Some rest), String c0 _ =>
if Py.truthy s && ascii_alpha c0 && Py.forall_chars scheme_char s
then (Py.lower s, rest)
else (EmptyString, url)
| _, _ => (EmptyString, url)
end.

(** [_splitnetloc(url, 2)] applied after the two slashes. *)
Definition splitnetloc (url : string) : string * string :=
Py.span (fun c => negb (Py.contains_char c "/?#")) url.

Definition split_or_empty (sep : ascii) (url : string) : string * string :=
match Py.split1 sep url with
| (u, Some r) => (u, r)
| (u, None) => (u, EmptyString)
end.

Definition bad_brackets (netloc : string) : bool :=
(Py.contains_char "[" netloc && negb (Py.contains_char "]" netloc)) ||
(Py.contains_char "]" netloc && negb (Py.contains_char "[" netloc)).

(** The pattern [\Av[a-fA-F0-9]+\..+\Z] of an IPvFuture address. *)
Definition ipvfuture (hostname : string) : bool :=
match hostname with
| String "v" rest =>
match Py.span Py.is_hex_digit rest with
| (String _ _, String "." more) =>
  Py.truthy more && negb (Py.contains_char lf more)
| _ => false
end
| _ => false
end.

Definition check_bracketed_host (hostname : string) : result unit :=
if Py.startswith hostname "v" then
if ipvfuture hostname then Ok tt
else Raise (ValueError "IPvFuture address is invalid")
else
match ipaddress.ip_address hostname with
| Ok _ => Raise (ValueError "An IPv4 address cannot be in brackets")
| Raise e => if ipaddress.is_ipv6 hostname then Ok tt else Raise e
end.

(** [netloc.rpartition('@')[2]]. *)
Definition after_last (sep : ascii) (s : string) : string :=
match Py.rsplit1 sep s with
| Some (_, b) => b
| None => s
end.

Definition check_bracketed_netloc (netloc : string) : result unit :=
let hostname_and_port := after_last "@" netloc in
match Py.split1 "[" hostname_and_port with
| (before_bracket, Some bracketed) =>
if Py.truthy before_bracket then Raise (ValueError "Invalid IPv6 URL")
else
match Py.split1 "]" bracketed with
| (hostname, Some port) =>
  if Py.truthy port && negb (Py.startswith port ":")
  then Raise (ValueError "Invalid IPv6 URL")
  else check_bracketed_host hostname
| (hostname, None) => check_bracketed_host hostname
end
| (_, None) => check_bracketed_host (fst (Py.split1 ":" hostname_and_port))
end.

Definition urlsplit (url : string) : result ParseResult :=
let url := Py.lstrip c0_control_or_space url in
let url := Py.remove_chars unsafe_url_bytes url in
let '(scheme, url) := split_scheme url in
let '(netloc, url) :=
if Py.startswith url "//" then splitnetloc (Py.drop 2 url)
else (EmptyString, url) in
if bad_brackets netloc then Raise (ValueError "Invalid IPv6 URL")
else
_ <-r (if Py.contains_char "[" netloc && Py.contains_char "]" netloc
     then check_bracketed_netloc netloc else Ok tt) ;;
let '(url, fragment) := split_or_empty "#" url in
let '(url, query) := split_or_empty "?" url in
Ok (mkParseResult scheme netloc url EmptyString query fragment).

(** [_splitparams]: called when [';' in url]. *)
Definition splitparams (url : string) : string * string :=
match Py.rsplit1 "/" url with
| Some (dir, last) =>
match Py.split1 ";" last with
| (l, Some p) => (dir +:+ "/" +:+ l, p)
| (_, None) => (url, EmptyString)
end
| None => split_or_empty ";" url
end.

Definition urlparse (url : string) : result ParseResult :=
r <-r urlsplit url ;;
if existsb (String.eqb (scheme r)) uses_params && Py.contains_char ";" (path r)
then
let '(p, ps) := splitparams (path r) in
Ok (mkParseResult (scheme r) (netloc r) p ps (query r) (fragment r))
else Ok r.

(** The first component of [_hostinfo]. *)
Definition hostinfo_host (netloc : string) : string :=
let hostinfo := after_last "@" netloc in
match Py.split1 "[" hostinfo with
| (_, Some bracketed) => fst (Py.split1 "]" bracketed)
| (_, None) => fst (Py.split1 ":" hostinfo)
end.

(** The [hostname] property: [None] when empty, else lower-cased up to
a zone separator. *)
Definition hostname (r : ParseResult) : option string :=
let h := hostinfo_host (netloc r) in
if Py.truthy h then
match Py.split1 "%" h with
| (a, Some zone) => Some (Py.lower a +:+ "%" +:+ zone)
| (a, None) => Some (Py.lower a)
end
else None.

End urllib.

(** ** core/domain_mapping.py *)

Module domain_mapping.

Definition map_mirror_host_to_origin_host
(mirror_host mirror_root source_root : string) : string :=
if String.eqb mirror_host mirror_root then source_root
else
let suffix := "." +:+ mirror_root in
if Py.endswith mirror_host suffix then
let subdomain := Py.drop_last (String.length suffix) mirror_host in
subdomain +:+ "." +:+ source_root
else mirror_host.

End domain_mapping.

(** ** core/url_utils.py *)

Module url_utils.

Definition is_encoded_external_domain (path_segment : string) : bool :=
Py.contains_char "." path_segment && negb (Py.contains_char " " path_segment).

(** [mirror_root] defaults to [None]; [if mirror_root:] asks for a
non-empty string. *)
Definition origin_host_for
(mirror_host site_source_root : string) (mirror_root : option string) : string :=
match mirror_root with
| Some r =>
if Py.truthy r
then domain_mapping.map_mirror_host_to_origin_host mirror_host r site_source_root
else site_source_root
| None => site_source_root
end.

Definition build_origin_url
(mirror_host mirror_path site_source_root : string)
(mirror_root : option string) : string :=
let mirror_path :=
if negb (Py.startswith mirror_path "/") then "/" +:+ mirror_path
else mirror_path in
let path_parts := Py.split1 "/" (Py.lstrip "/" mirror_path) in
if negb (Py.truthy (fst path_parts)) then
"https://" +:+ origin_host_for mirror_host site_source_root mirror_root +:+ "/"
else
let first_segment := fst path_parts in
let remaining_path :=
match snd path_parts with
| Some rest => "/" +:+ rest
| None => "/"
end in
if is_encoded_external_domain first_segment then
if String.eqb remaining_path "/" then "https://" +:+ first_segment +:+ "/"
else "https://" +:+ first_segment +:+ remaining_path
else
"https://" +:+ origin_host_for mirror_host site_source_root mirror_root
  +:+ mirror_path.

Definition encode_external_url_for_mirror
(mirror_root external_host external_path : string) : string :=
let external_path :=
if negb (Py.startswith external_path "/") then "/" +:+ external_path
else external_path in
"/" +:+ external_host +:+ external_path.

End url_utils.

(** ** Configuration values

    The effective configuration is a Python [dict] from option names to
    booleans, strings or [None]; the code reads it with [dict.get]. *)

Inductive pyval : Type :=
| PyNone
| PyBool (b : bool)
| PyStr (s : string).

Definition pyval_truthy (v : pyval) : bool :=
  match v with
  | PyNone => false
  | PyBool b => b
  | PyStr s => Py.truthy s
  end.

Definition pyval_is_str (v : pyval) (s : string) : bool :=
  match v with
  | PyStr s' => String.eqb s' s
  | _ => false
  end.

Abbreviation config := (gmap string pyval).

(** [d.get(key, dflt)]. *)
Definition dict_get (d : config) (key : string) (dflt : pyval) : pyval :=
  default dflt (d !! key).

(** ** models/site.py *)

Record Site : Type := mkSite {
  site_id : Z;
  mirror_root : string;
  source_root : string;
  enabled : bool;
  site_overrides : config
}.

(** ** proxy/rewriter.py: URL rewriting *)

Module rewriter.

Definition MEDIA_EXTENSIONS : list string :=
[".jpg"; ".jpeg"; ".png"; ".gif"; ".webp"; ".svg"; ".ico"; ".bmp";
".mp4"; ".mkv"; ".avi"; ".mov"; ".m3u8"; ".webm"; ".flv"; ".wmv";
".mp3"; ".wav"; ".ogg"; ".aac"; ".flac"; ".m4a";
".zip"; ".rar"; ".7z"; ".tar"; ".gz"; ".bz2";
".pdf"; ".doc"; ".docx"; ".xls"; ".xlsx"; ".ppt"; ".pptx";
".apk"; ".exe"; ".dmg"; ".deb"; ".rpm";
".ttf"; ".woff"; ".woff2"; ".eot"; ".otf"].

Definition is_media_url (url : string) : result bool :=
if negb (Py.truthy url) then Ok false
else
parsed <-r urllib.urlparse url ;;
let path := Py.lower (urllib.path parsed) in
Ok (existsb (fun ext => Py.endswith path ext) MEDIA_EXTENSIONS).

(** [not url or url.startswith('data:') or ...]. *)
Definition is_special_url (url : string) : bool :=
negb (Py.truthy url) || Py.startswith url "data:" ||
Py.startswith url "javascript:" || Py.startswith url "mailto:" ||
Py.startswith url "#".

Section with_urljoin.
(** [urllib.parse.urljoin(base, url)]. *)
Variable urljoin : string -> string -> result string.

Definition make_absolute_url (url base_url : string) : result string :=
if is_special_url url then Ok url
else if Py.startswith url "http://" || Py.startswith url "https://"
|| Py.startswith url "//" then
if Py.startswith url "//" then
parsed_base <-r urllib.urlparse base_url ;;
Ok (urllib.scheme parsed_base +:+ ":" +:+ url)
else Ok url
else urljoin base_url url.

Definition url_belongs_to_domain (url domain : string) : result bool :=
parsed <-r urllib.urlparse url ;;
match urllib.hostname parsed with
| None => Ok false
| Some hostname =>
if String.eqb hostname domain then Ok true
else if Py.endswith hostname ("." +:+ domain) then Ok true
else Ok false
end.

Definition map_origin_host_to_mirror_host
(origin_host source_root mirror_root : string) : string :=
if String.eqb origin_host source_root then mirror_root
else if Py.endswith origin_host ("." +:+ source_root) then
let subdomain_prefix :=
Py.drop_last (String.length source_root + 1) origin_host in
subdomain_prefix +:+ "." +:+ mirror_root
else origin_host.

Definition encode_external_url_path (external_host external_path : string) : string :=
let external_path :=
if negb (Py.startswith external_path "/") then "/" +:+ external_path
else external_path in
"/" +:+ external_host +:+ external_path.

(** [path + ('?' + query if query) + ('#' + fragment if fragment)]. *)
Definition add_query_fragment (p query fragment : string) : string :=
let p := if Py.truthy query then p +:+ "?" +:+ query else p in
if Py.truthy fragment then p +:+ "#" +:+ fragment else p.

Definition rewrite_url
(url current_page_origin_url mirror_host mirror_root site_source_root : string)
(effective_config : config) : result string :=
if is_special_url url then Ok url
else
absolute_url <-r make_absolute_url url current_page_origin_url ;;
media <-r is_media_url absolute_url ;;
if media && pyval_is_str
      (dict_get effective_config "media_policy" (PyStr "proxy"))
      "bypass"
then Ok absolute_url
else
parsed <-r urllib.urlparse absolute_url ;;
let origin_path :=
if Py.truthy (urllib.path parsed) then urllib.path parsed else "/" in
let query := urllib.query parsed in
let fragment := urllib.fragment parsed in
match urllib.hostname parsed with
| None => Ok url
| Some origin_host =>
is_same_domain <-r url_belongs_to_domain absolute_url site_source_root ;;
if is_same_domain then
let new_mirror_host :=
  map_origin_host_to_mirror_host origin_host site_source_root mirror_root in
Ok ("https" +:+ "://" +:+ new_mirror_host
      +:+ add_query_fragment origin_path query fragment)
else
let proxy_external :=
  dict_get effective_config "proxy_external_domains" (PyBool true) in
if negb (pyval_truthy proxy_external) then Ok absolute_url
else
  let encoded_path := encode_external_url_path origin_host origin_path in
  Ok ("https" +:+ "://" +:+ mirror_root
        +:+ add_query_fragment encoded_path query fragment)
end.

End with_urljoin.

End rewriter.

(** ** The document tree of BeautifulSoup

    A node is a [NavigableString] (text, and also comments and the like,
    which are its subclasses) or a [Tag] with its name, its attribute
    dictionary in insertion order and its contents.  A document is the
    list of the top-level nodes. *)

Module bs4.

Inductive node : Type :=
| NavigableString (s : string)
| Tag (name : string) (attrs : list (string * string)) (contents : list node).

Abbreviation soup := (list node).

(** [tag.get(key)]. *)
Fixpoint get (attrs : list (string * string)) (key : string) : option string :=
match attrs with
| [] => None
| (k, v) :: rest => if String.eqb k key then Some v else get rest key
end.

(** [key in tag.attrs], the test behind [find_all(..., key=True)]. *)
Definition has_attr (attrs : list (string * string)) (key : string) : bool :=
match get attrs key with
| Some _ => true
| None => false
end.

(** [tag[key] = value]: a known key keeps its place, a new one goes last. *)
Fixpoint set (attrs : list (string * string)) (key value : string)
: list (string * string) :=
match attrs with
| [] => [(key, value)]
| (k, v) :: rest =>
if String.eqb k key then (k, value) :: rest
else (k, v) :: set rest key value
end.

(** The [.string] property. *)
Fixpoint node_string (n : node) : option string :=
match n with
| NavigableString s => Some s
| Tag _ _ [c] => node_string c
| Tag _ _ _ => None
end.

Definition tag_string (contents : list node) : option string :=
match contents with
| [c] => node_string c
| _ => None
end.

(** A loop [for tag in soup.find_all(...)] whose body changes the
attributes of the tag or sets its [.string], run over the document in
document order.  [body name attrs contents] returns the new attributes
and, when [.string] is set, the new string. *)
Section visit.
Variable body : string -> list (string * string) -> list node ->
    result (list (string * string) * option string).

Fixpoint visit_node (n : node) : result node :=
match n with
| NavigableString s => Ok n
| Tag name attrs contents =>
r <-r body name attrs contents ;;
match snd r with
| Some s => Ok (Tag name (fst r) [NavigableString s])
| None =>
contents' <-r
(fix visit_list (l : list node) : result (list node) :=
   match l with
   | [] => Ok []
   | c :: l' =>
       c' <-r visit_node c ;;
       l'' <-r visit_list l' ;;
       Ok (c' :: l'')
   end) contents ;;
Ok (Tag name (fst r) contents')
end
end.

Fixpoint visit (l : soup) : result soup :=
match l with
| [] => Ok []
| c :: l' =>
c' <-r visit_node c ;;
l'' <-r visit l' ;;
Ok (c' :: l'')
end.

End visit.

(** A loop [for tag in soup.find_all(...)] whose body may call
[tag.decompose()], run over the document in document order.
[listed name attrs] is the filter of [find_all] and
[doomed name attrs contents] the test of the body.  [find_all] makes
its list before the loop starts, and [decompose] also destroys the
descendants of the tag: when one of them is in the list too, the body
later reads the attributes of a destroyed tag, which raises
[AttributeError]. *)
Section decompose.
Variable listed : string -> list (string * string) -> bool.
Variable doomed : string -> list (string * string) -> list node -> bool.

Fixpoint any_listed (n : node) : bool :=
match n with
| NavigableString _ => false
| Tag name attrs contents => listed name attrs || existsb any_listed contents
end.

Fixpoint prune_node (n : node) : result (option node) :=
match n with
| NavigableString s => Ok (Some n)
| Tag name attrs contents =>
if listed name attrs && doomed name attrs contents then
if existsb any_listed contents
then Raise (OtherError "'NoneType' object has no attribute 'get'")
else Ok None
else
contents' <-r
  (fix prune_list (l : list node) : result (list node) :=
     match l with
     | [] => Ok []
     | c :: l' =>
         c' <-r prune_node c ;;
         l'' <-r prune_list l' ;;
         Ok (match c' with Some k => k :: l'' | None => l'' end)
     end) contents ;;
Ok (Some (Tag name attrs contents'))
end.

Fixpoint prune (l : soup) : result soup :=
match l with
| [] => Ok []
| c :: l' =>
c' <-r prune_node c ;;
l'' <-r prune l' ;;
Ok (match c' with Some k => k :: l'' | None => l'' end)
end.

End decompose.

(** [soup.find(name)]: the first element of that name in document
    order. *)
Section find.
Variable name : string.

Fixpoint find_node (n : node) : option node :=
  match n with
  | NavigableString _ => None
  | Tag tag_name attrs contents =>
      if String.eqb tag_name name then Some n
      else
        (fix find_list (l : list node) : option node :=
           match l with
           | [] => None
           | c :: l' =>
               match find_node c with
               | Some found => Some found
               | None => find_list l'
               end
           end) contents
  end.

Fixpoint find (l : soup) : option node :=
  match l with
  | [] => None
  | c :: l' =>
      match find_node c with
      | Some found => Some found
      | None => find l'
      end
  end.

End find.

(** [soup.find(name).append(x)] for each [x] of [new], in place: the
    document with the new children at the end of that element, or [None]
    when there is no such element. *)
Section append.
Variable name : string.
Variable new : list node.

Fixpoint append_in_node (n : node) : option node :=
  match n with
  | NavigableString _ => None
  | Tag tag_name attrs contents =>
      if String.eqb tag_name name then Some (Tag tag_name attrs (contents ++ new))
      else
        match
          (fix append_in_list (l : list node) : option (list node) :=
             match l with
             | [] => None
             | c :: l' =>
                 match append_in_node c with
                 | Some c' => Some (c' :: l')
                 | None =>
                     match append_in_list l' with
                     | Some l'' => Some (c :: l'')
                     | None => None
                     end
                 end
             end) contents
        with
        | Some contents' => Some (Tag tag_name attrs contents')
        | None => None
        end
  end.

Fixpoint append_in (l : soup) : option soup :=
  match l with
  | [] => None
  | c :: l' =>
      match append_in_node c with
      | Some c' => Some (c' :: l')
      | None =>
          match append_in l' with
          | Some l'' => Some (c :: l'')
          | None => None
          end
      end
  end.

End append.

Definition append_to (name : string) (new : list node) (l : soup) : soup :=
  default l (append_in name new l).

End bs4.

(** ** proxy/rewriter.py: the HTML rewriter *)

Module html_rewriter.

Record re_match : Type := mk_match { group0 : string; group1 : string }.

Section with_libraries.
Variable urljoin : string -> string -> result string.
(** [re.sub(pattern, repl, text)] with a function [repl]. *)
Variable re_sub : string -> (re_match -> result string) -> string -> result string.
(** [BeautifulSoup(html, 'lxml')] and [str(soup)]. *)
Variable BeautifulSoup : string -> bs4.soup.
Variable str_soup : bs4.soup -> string.

Variables mirror_host mirror_root site_source_root : string.
Variable effective_config : config.
Variable current_page_origin_url : string.

Definition rewrite (url : string) : result string :=
rewriter.rewrite_url urljoin url current_page_origin_url mirror_host
mirror_root site_source_root effective_config.

Definition quoted : string := String Py.dq (String "\" (String Py.sq EmptyString)).

(** The four patterns of [rewrite_js_redirects]. *)
Definition pattern1 : string :=
"window\.location\.href\s*=\s*[" +:+ quoted +:+ "]([^" +:+ quoted +:+ "]+)["
+:+ quoted +:+ "]".
Definition pattern2 : string :=
"(?<!window\.)location\.href\s*=\s*[" +:+ quoted +:+ "]([^" +:+ quoted +:+ "]+)["
+:+ quoted +:+ "]".
Definition pattern3 : string :=
"location\.replace\s*\(\s*[" +:+ quoted +:+ "]([^" +:+ quoted +:+ "]+)["
+:+ quoted +:+ "]\s*\)".
Definition pattern4 : string :=
"(?<!window\.)location\s*=\s*[" +:+ quoted +:+ "]([^" +:+ quoted +:+ "]+)["
+:+ quoted +:+ "]".

Definition replace_url (m : re_match) : result string :=
let original_url := group1 m in
rewritten_url <-r rewrite original_url ;;
Ok (Py.replace (group0 m) original_url rewritten_url).

Definition rewrite_js_redirects (js_content : string) : result string :=
if negb (Py.truthy js_content) then Ok js_content
else
js_content <-r re_sub pattern1 replace_url js_content ;;
js_content <-r re_sub pattern2 replace_url js_content ;;
js_content <-r re_sub pattern3 replace_url js_content ;;
re_sub pattern4 replace_url js_content.

Definition css_pattern : string :=
"url\s*\(\s*[" +:+ quoted +:+ "]?([^" +:+ quoted +:+ ")]+)[" +:+ quoted
+:+ "]?\s*\)".

Definition replace_css_url (m : re_match) : result string :=
let original_url := Py.strip (group1 m) in
if Py.startswith original_url "data:" || Py.startswith original_url "#" then
Ok (group0 m)
else
absolute_url <-r rewriter.make_absolute_url urljoin original_url
           current_page_origin_url ;;
media <-r rewriter.is_media_url absolute_url ;;
if media && pyval_is_str
      (dict_get effective_config "media_policy" (PyStr "proxy")) "bypass"
then Ok (group0 m)
else
rewritten_url <-r rewrite original_url ;;
let full_match := group0 m in
if Py.contains_char Py.dq full_match then
Ok ("url(" +:+ String Py.dq rewritten_url +:+ String Py.dq ")")
else if Py.contains_char Py.sq full_match then
Ok ("url(" +:+ String Py.sq rewritten_url +:+ String Py.sq ")")
else Ok ("url(" +:+ rewritten_url +:+ ")").

Definition rewrite_css_urls (css_content : string) : result string :=
if negb (Py.truthy css_content) then Ok css_content
else re_sub css_pattern replace_css_url css_content.

(** [for tag in soup.find_all(name, attr=True): tag[target] = rewrite(tag[attr])]. *)
Definition sweep (name attr target : string)
(tag_name : string) (attrs : list (string * string)) (contents : list bs4.node)
: result (list (string * string) * option string) :=
if String.eqb tag_name name then
match bs4.get attrs attr with
| Some url =>
rewritten <-r rewrite url ;;
Ok (bs4.set attrs target rewritten, None)
| None => Ok (attrs, None)
end
else Ok (attrs, None).

Definition rewrite_srcset_part (part : string) : result string :=
let part := Py.strip part in
if Py.contains_char " " part then
match Py.rsplit1 " " part with
| Some (url_part, descriptor) =>
rewritten_url <-r rewrite (Py.strip url_part) ;;
Ok (rewritten_url +:+ " " +:+ descriptor)
| None => rewrite part
end
else rewrite part.

Fixpoint rewrite_srcset_parts (parts : list string) : result (list string) :=
match parts with
| [] => Ok []
| part :: rest =>
p <-r rewrite_srcset_part part ;;
ps <-r rewrite_srcset_parts rest ;;
Ok (p :: ps)
end.

Definition sweep_srcset
(tag_name : string) (attrs : list (string * string)) (contents : list bs4.node)
: result (list (string * string) * option string) :=
if String.eqb tag_name "img" then
match bs4.get attrs "srcset" with
| Some srcset =>
srcset_parts <-r rewrite_srcset_parts (Py.split "," srcset) ;;
Ok (bs4.set attrs "srcset" (Py.join ", " srcset_parts), None)
| None => Ok (attrs, None)
end
else Ok (attrs, None).

(** The loop over the inline scripts. *)
Definition sweep_scripts
(tag_name : string) (attrs : list (string * string)) (contents : list bs4.node)
: result (list (string * string) * option string) :=
if String.eqb tag_name "script" then
match bs4.get attrs "src", bs4.tag_string contents with
| Some (String _ _), _ => Ok (attrs, None)
| _, Some original_js =>
if Py.truthy original_js then
rewritten_js <-r rewrite_js_redirects original_js ;;
if String.eqb rewritten_js original_js then Ok (attrs, None)
else Ok (attrs, Some rewritten_js)
else Ok (attrs, None)
| _, None => Ok (attrs, None)
end
else Ok (attrs, None).

Definition sweep_style_tags
(tag_name : string) (attrs : list (string * string)) (contents : list bs4.node)
: result (list (string * string) * option string) :=
if String.eqb tag_name "style" then
match bs4.tag_string contents with
| Some original_css =>
if Py.truthy original_css then
rewritten_css <-r rewrite_css_urls original_css ;;
if String.eqb rewritten_css original_css then Ok (attrs, None)
else Ok (attrs, Some rewritten_css)
else Ok (attrs, None)
| None => Ok (attrs, None)
end
else Ok (attrs, None).

Definition sweep_style_attrs
(tag_name : string) (attrs : list (string * string)) (contents : list bs4.node)
: result (list (string * string) * option string) :=
match bs4.get attrs "style" with
| Some original_style =>
if Py.contains "url(" original_style then
rewritten_style <-r rewrite_css_urls original_style ;;
if String.eqb rewritten_style original_style then Ok (attrs, None)
else Ok (bs4.set attrs "style" rewritten_style, None)
else Ok (attrs, None)
| None => Ok (attrs, None)
end.

(** The body of [rewrite_html] between parsing and printing. *)
Definition rewrite_soup (soup : bs4.soup) : result bs4.soup :=
soup <-r bs4.visit (sweep "a" "href" "href") soup ;;
soup <-r bs4.visit (sweep "form" "action" "action") soup ;;
soup <-r bs4.visit (sweep "iframe" "src" "src") soup ;;
soup <-r bs4.visit (sweep "link" "href" "href") soup ;;
soup <-r bs4.visit (sweep "script" "src" "src") soup ;;
soup <-r bs4.visit (sweep "img" "src" "src") soup ;;
soup <-r bs4.visit sweep_srcset soup ;;
soup <-r bs4.visit (sweep "source" "src" "src") soup ;;
soup <-r bs4.visit (sweep "video" "src" "src") soup ;;
soup <-r bs4.visit (sweep "audio" "src" "src") soup ;;
soup <-r bs4.visit (sweep "base" "href" "base") soup ;;
soup <-r (if pyval_truthy (dict_get effective_config "rewrite_js_redirects" (PyBool false))
then bs4.visit sweep_scripts soup else Ok soup) ;;
soup <-r bs4.visit sweep_style_tags soup ;;
bs4.visit sweep_style_attrs soup.

Definition rewrite_html (html : string) : result string :=
if negb (Py.truthy html) then Ok html
else
soup <-r rewrite_soup (BeautifulSoup html) ;;
Ok (str_soup soup).

End with_libraries.

End html_rewriter.

(** ** proxy/filter_ads.py: the clean pass *)

Module filter_ads.

Definition AD_PATTERNS : list string :=
["doubleclick"; "googlesyndication"; "adsystem"; "adservice"; "adsbygoogle";
"googletagmanager"; "google-analytics"; "googleadservices"].

Definition INLINE_SCRIPT_PATTERNS : list string :=
["gtag("; "ga("; "GoogleAnalyticsObject"; "fbq("; "_gaq"; "dataLayer"].

(** [soup.find_all(name, src=True)]. *)
Definition tag_with_src (name : string) (tag_name : string) (attrs : list (string * string)) : bool :=
String.eqb tag_name name && bs4.has_attr attrs "src".

(** The body of the loops over [script[src]] and [iframe[src]]. *)
Definition src_is_ad (tag_name : string) (attrs : list (string * string))
(contents : list bs4.node) : bool :=
let src := Py.lower (default EmptyString (bs4.get attrs "src")) in
Py.any_in AD_PATTERNS src.

(** [soup.find_all('script')]. *)
Definition is_script (tag_name : string) (attrs : list (string * string)) : bool :=
String.eqb tag_name "script".

(** The body of the loop over the inline scripts. *)
Definition inline_is_tracker (tag_name : string) (attrs : list (string * string))
(contents : list bs4.node) : bool :=
match bs4.get attrs "src" with
| Some (String _ _) => false
| _ =>
  match bs4.tag_string contents with
  | Some script_content =>
      Py.truthy script_content && Py.any_in INLINE_SCRIPT_PATTERNS script_content
  | None => false
  end
end.

(** The three loops of [clean_html], between parsing and printing. *)
Definition clean_soup (soup : bs4.soup) : result bs4.soup :=
soup <-r bs4.prune (tag_with_src "script") src_is_ad soup ;;
soup <-r bs4.prune is_script inline_is_tracker soup ;;
bs4.prune (tag_with_src "iframe") src_is_ad soup.

Section with_parser.
(** [BeautifulSoup(html, 'lxml')] and [str(soup)]. *)
Variable BeautifulSoup : string -> bs4.soup.
Variable str_soup : bs4.soup -> string.

Definition clean_html (html : string) (site_config : config) : result string :=
let remove_ads := dict_get site_config "remove_ads" (PyBool false) in
let remove_analytics := dict_get site_config "remove_analytics" (PyBool false) in
if negb (pyval_truthy remove_ads) && negb (pyval_truthy remove_analytics) then Ok html
else
soup <-r clean_soup (BeautifulSoup html) ;;
Ok (str_soup soup).

(** [child.name or (isinstance(child, str) and child.strip())]. *)
Definition wanted (child : bs4.node) : bool :=
  match child with
  | bs4.Tag name _ _ => Py.truthy name
  | bs4.NavigableString s => Py.truthy (Py.strip s)
  end.

(** The children that the loop [for child in parent.children: if ...:
    body.append(child)] moves.  [children] iterates the list of the
    children, and [append] takes the child out of that list: the
    iterator then passes over the child that followed it. *)
Fixpoint moved (skip : bool) (children : list bs4.node) : list bs4.node :=
  match children with
  | [] => []
  | child :: rest =>
      if skip then moved false rest
      else if wanted child then child :: moved true rest
      else moved false rest
  end.

(** A text of the configuration where the library asks for a [str]. *)
Definition config_text (v : pyval) : result string :=
  match v with
  | PyStr s => Ok s
  | _ => Raise (TypeError "expected string or bytes-like object")
  end.

(** The body of [inject_ads_and_trackers] between parsing and printing. *)
Definition inject_soup (soup : bs4.soup) (site_config : config) : result bs4.soup :=
  let inject_ads := dict_get site_config "inject_ads" (PyBool false) in
  let custom_ad_html := dict_get site_config "custom_ad_html" (PyStr EmptyString) in
  let custom_tracker_js :=
    dict_get site_config "custom_tracker_js" (PyStr EmptyString) in
  soup <-r
    (if pyval_truthy inject_ads && pyval_truthy custom_ad_html then
       match bs4.find "body" soup with
       | Some _ =>
           ad_html <-r config_text custom_ad_html ;;
           let ad_soup := BeautifulSoup ad_html in
           let children :=
             match bs4.find "body" ad_soup with
             | Some (bs4.Tag _ _ contents) => contents
             | _ => ad_soup
             end in
           Ok (bs4.append_to "body" (moved false children) soup)
       | None => Ok soup
       end
     else Ok soup) ;;
  if pyval_truthy custom_tracker_js then
    js <-r config_text custom_tracker_js ;;
    let script_tag := bs4.Tag "script" [] [bs4.NavigableString js] in
    match bs4.find "body" soup with
    | Some _ => Ok (bs4.append_to "body" [script_tag] soup)
    | None =>
        match bs4.find "head" soup with
        | Some _ => Ok (bs4.append_to "head" [script_tag] soup)
        | None =>
            match bs4.find "html" soup with
            | Some _ => Ok (bs4.append_to "html" [script_tag] soup)
            | None => Ok soup
            end
        end
    end
  else Ok soup.

Definition inject_ads_and_trackers (html : string) (site_config : config)
  : result string :=
  let custom_ad_html := dict_get site_config "custom_ad_html" (PyStr EmptyString) in
  let custom_tracker_js :=
    dict_get site_config "custom_tracker_js" (PyStr EmptyString) in
  if negb (pyval_truthy custom_ad_html) && negb (pyval_truthy custom_tracker_js)
  then Ok html
  else
    soup <-r inject_soup (BeautifulSoup html) site_config ;;
    Ok (str_soup soup).

End with_parser.

End filter_ads.

(** ** core/config_helper.py and models/global_config.py *)

Module config_helper.

Definition config_keys : list string :=
["proxy_subdomains"; "proxy_external_domains"; "rewrite_js_redirects";
"remove_ads"; "inject_ads"; "remove_analytics"; "media_policy";
"session_mode"; "custom_ad_html"; "custom_tracker_js"].

(** [site.key if site.key is not None else global_config.key]. *)
Definition effective_value (site : Site) (global_config : config) (key : string) : pyval :=
match site_overrides site !! key with
| Some PyNone | None => default PyNone (global_config !! key)
| Some v => v
end.

Definition get_effective_config (site : Site) (global_config : config) : config :=
list_to_map (List.map (fun key => (key, effective_value site global_config key))
             config_keys).

(** The row that [GlobalConfig(id=1)] creates. *)
Definition default_global_config : config :=
list_to_map
[("proxy_subdomains", PyBool true); ("proxy_external_domains", PyBool true);
 ("rewrite_js_redirects", PyBool false); ("remove_ads", PyBool false);
 ("inject_ads", PyBool false); ("remove_analytics", PyBool false);
 ("media_policy", PyStr "proxy"); ("session_mode", PyStr "stateless");
 ("custom_ad_html", PyNone); ("custom_tracker_js", PyNone)].

End config_helper.

(** ** [hashlib.sha256] and [hmac] (FIPS 180-4, RFC 2104)

    Bytes and 32-bit words are integers. *)

Module hashlib.

Local Open Scope Z_scope.

Definition mask32 (x : Z) : Z := Z.land x 4294967295.

Definition rotr (x n : Z) : Z :=
mask32 (Z.lor (Z.shiftr x n) (Z.shiftl x (32 - n))).

Definition add32 (x y : Z) : Z := mask32 (x + y).

Definition K : list Z :=
[1116352408; 1899447441; 3049323471; 3921009573; 961987163; 1508970993;
2453635748; 2870763221; 3624381080; 310598401; 607225278; 1426881987;
1925078388; 2162078206; 2614888103; 3248222580; 3835390401;
4022224774; 264347078; 604807628; 770255983; 1249150122; 1555081692;
1996064986; 2554220882; 2821834349; 2952996808; 3210313671;
3336571891; 3584528711; 113926993; 338241895; 666307205; 773529912;
1294757372; 1396182291; 1695183700; 1986661051; 2177026350;
2456956037; 2730485921; 2820302411; 3259730800; 3345764771;
3516065817; 3600352804; 4094571909; 275423344; 430227734; 506948616;
659060556; 883997877; 958139571; 1322822218; 1537002063; 1747873779;
1955562222; 2024104815; 2227730452; 2361852424; 2428436474;
2756734187; 3204031479; 3329325298].

Definition H0 : list Z :=
[1779033703; 3144134277; 1013904242; 2773480762; 1359893119;
2600822924; 528734635; 1541459225].

(** [s.encode('utf-8')] on the code points below 256. *)
Fixpoint encode_utf8 (s : string) : list Z :=
match s with
| EmptyString => []
| String c s' =>
let n := Z.of_nat (Py.code c) in
if n <? 128 then n :: encode_utf8 s'
else Z.lor 192 (Z.shiftr n 6) :: Z.lor 128 (Z.land n 63) :: encode_utf8 s'
end.

(** The big-endian bytes of a word, and back. *)
Definition be_bytes (count : nat) (x : Z) : list Z :=
List.map (fun i => Z.land (Z.shiftr x (8 * Z.of_nat i)) 255) (rev (seq 0 count)).

Definition be_word (bytes : list Z) : Z :=
fold_left (fun acc b => acc * 256 + b) bytes 0.

Definition pad (msg : list Z) : list Z :=
let len := Z.of_nat (length msg) in
msg ++ [128] ++ repeat 0 (Z.to_nat ((55 - len) mod 64)) ++ be_bytes 8 (8 * len).

Fixpoint chunks (fuel size : nat) (l : list Z) : list (list Z) :=
match fuel, l with
| S f, _ :: _ => firstn size l :: chunks f size (skipn size l)
| _, _ => []
end.

Definition block_words (block : list Z) : list Z :=
List.map be_word (chunks 16 4 block).

Definition sigma0 (x : Z) : Z :=
Z.lxor (Z.lxor (rotr x 7) (rotr x 18)) (Z.shiftr x 3).
Definition sigma1 (x : Z) : Z :=
Z.lxor (Z.lxor (rotr x 17) (rotr x 19)) (Z.shiftr x 10).
Definition Sigma0 (x : Z) : Z :=
Z.lxor (Z.lxor (rotr x 2) (rotr x 13)) (rotr x 22).
Definition Sigma1 (x : Z) : Z :=
Z.lxor (Z.lxor (rotr x 6) (rotr x 11)) (rotr x 25).
Definition Ch (x y z : Z) : Z :=
Z.lxor (Z.land x y) (Z.land (mask32 (Z.lnot x)) z).
Definition Maj (x y z : Z) : Z :=
Z.lxor (Z.lxor (Z.land x y) (Z.land x z)) (Z.land y z).

(** The message schedule: [count] more words after the ones of [w]. *)
Fixpoint schedule (count : nat) (w : list Z) : list Z :=
match count with
| O => w
| S n =>
let t := length w in
let at_ (back : nat) := nth (t - back) w 0 in
schedule n
  (w ++ [add32 (add32 (sigma1 (at_ 2%nat)) (at_ 7%nat))
               (add32 (sigma0 (at_ 15%nat)) (at_ 16%nat))])
end.

Record state : Type := mk_state {
ha : Z; hb : Z; hc : Z; hd : Z; he : Z; hf : Z; hg : Z; hh : Z
}.

Definition round (s : state) (kw : Z * Z) : state :=
let t1 := add32 (add32 (add32 (hh s) (Sigma1 (he s))) (Ch (he s) (hf s) (hg s)))
            (add32 (fst kw) (snd kw)) in
let t2 := add32 (Sigma0 (ha s)) (Maj (ha s) (hb s) (hc s)) in
mk_state (add32 t1 t2) (ha s) (hb s) (hc s) (add32 (hd s) t1) (he s) (hf s) (hg s).

Definition compress (s : state) (block : list Z) : state :=
let w := schedule 48 (block_words block) in
let r := fold_left round (combine K w) s in
mk_state (add32 (ha s) (ha r)) (add32 (hb s) (hb r)) (add32 (hc s) (hc r))
     (add32 (hd s) (hd r)) (add32 (he s) (he r)) (add32 (hf s) (hf r))
     (add32 (hg s) (hg r)) (add32 (hh s) (hh r)).

Definition initial : state :=
mk_state 1779033703 3144134277 1013904242 2773480762
     1359893119 2600822924 528734635 1541459225.

Definition sha256 (msg : list Z) : state :=
let padded := pad msg in
fold_left compress (chunks (length padded) 64 padded) initial.

Definition state_words (s : state) : list Z :=
[ha s; hb s; hc s; hd s; he s; hf s; hg s; hh s].

(** [digest()]. *)
Definition digest (s : state) : list Z := flat_map (be_bytes 4) (state_words s).

Definition hex_chars : list ascii :=
list_ascii_of_string "0123456789abcdef".

Definition hex_digit (d : Z) : ascii := nth (Z.to_nat d) hex_chars "f"%char.

Definition hex_word (x : Z) : list ascii :=
List.map (fun i => hex_digit (Z.land (Z.shiftr x (4 * Z.of_nat i)) 15))
(rev (seq 0 8)).

(** [hexdigest()]. *)
Definition hexdigest (s : state) : string :=
string_of_list_ascii (flat_map hex_word (state_words s)).

(** [hmac.new(key, msg, hashlib.sha256)]. *)
Definition hmac_sha256 (key msg : list Z) : state :=
let key := if (64 <? length key)%nat then digest (sha256 key) else key in
let key := key ++ repeat 0 (64 - length key)%nat in
sha256 (List.map (Z.lxor 92) key
      ++ digest (sha256 (List.map (Z.lxor 54) key ++ msg))).

(** [hmac.new(key.encode('utf-8'), msg.encode('utf-8'), hashlib.sha256).hexdigest()]. *)
Definition hmac_sha256_hexdigest (key msg : string) : string :=
hexdigest (hmac_sha256 (encode_utf8 key) (encode_utf8 msg)).

End hashlib.

(** ** core/session_manager.py *)

Module session_manager.

Definition SESSION_COOKIE_NAME : string := "px_session_id".

Definition is_ascii (s : string) : bool :=
Py.forall_chars (fun c => (Py.code c <? 128)%nat) s.

(** [hmac.compare_digest] on two [str]: a [TypeError] unless both are
ASCII. *)
Definition compare_digest (a b : string) : result bool :=
if is_ascii a && is_ascii b then Ok (String.eqb a b)
else Raise (TypeError "comparing strings with non-ASCII characters is not supported").

Section with_settings.
(** [settings.SECRET_KEY]. *)
Variable SECRET_KEY : string.

Definition sign_session_id (session_id : string) : string :=
let signature := hashlib.hmac_sha256_hexdigest SECRET_KEY session_id in
session_id +:+ "." +:+ signature.

(** The body of the [try] of [verify_session_id]. *)
Definition verify_session_id_body (signed_session_id : string) : result (option string) :=
if negb (Py.contains_char "." signed_session_id) then Ok None
else
match Py.rsplit1 "." signed_session_id with
| Some (session_id, provided_signature) =>
let expected_signature := hashlib.hmac_sha256_hexdigest SECRET_KEY session_id in
same <-r compare_digest expected_signature provided_signature ;;
if same then Ok (Some session_id) else Ok None
| None => Raise (ValueError "not enough values to unpack (expected 2, got 1)")
end.

Definition verify_session_id (signed_session_id : string) : option string :=
match verify_session_id_body signed_session_id with
| Ok r => r
| Raise _ => None
end.

(** [generate_session_id] draws [secrets.token_urlsafe(32)]; the token
drawn is the argument. *)
Definition create_signed_session_cookie (random_token : string) : string :=
sign_session_id random_token.

End with_settings.

End session_manager.

(** ** core/rate_limiter.py

    [time.time()] is the argument [now] of the two methods.  Times are
    exact rationals where the code has binary floating-point numbers:
    the comparisons and the subtraction of the whole-number window are
    the same, but the rounding of [current_time - oldest_request] can
    move [int(retry_after)] by one at a whole second (with the clocks
    0.1 and 1.1 and a window of 60 the code returns 59, exact
    arithmetic on the same two clock values gives 58).  The lock makes
    each call atomic, which is what a function on the state is. *)

Module rate_limiter.

Record InMemoryRateLimiter : Type := mk_limiter {
max_requests : Z;
window_seconds : Z;
request_log : gmap string (list Q)
}.

(** [InMemoryRateLimiter(max_requests, window_seconds)]. *)
Definition init (max_requests window_seconds : Z) : InMemoryRateLimiter :=
mk_limiter max_requests window_seconds ∅.

(** [ts > cutoff_time]. *)
Definition newer_than (cutoff_time ts : Q) : bool := negb (Qle_bool ts cutoff_time).

Definition is_allowed (self : InMemoryRateLimiter) (now : Q) (client_ip : string)
: InMemoryRateLimiter * (bool * Z) :=
let current_time := now in
let cutoff_time := (current_time - inject_Z (window_seconds self))%Q in
let requests := default [] (request_log self !! client_ip) in
let kept := List.filter (newer_than cutoff_time) requests in
let current_count := Z.of_nat (length kept) in
if (max_requests self <=? current_count)%Z then
(mk_limiter (max_requests self) (window_seconds self)
 (<[client_ip := kept]> (request_log self)),
(false, 0%Z))
else
(mk_limiter (max_requests self) (window_seconds self)
 (<[client_ip := kept ++ [current_time]]> (request_log self)),
(true, (max_requests self - (current_count + 1))%Z)).

(** [min(requests)] of a non-empty list. *)
Fixpoint py_min (first : Q) (rest : list Q) : Q :=
match rest with
| [] => first
| x :: rest' => py_min (if Qle_bool first x then first else x) rest'
end.

(** [int(x)]: truncation towards zero. *)
Definition py_int (x : Q) : Z := Z.quot (Qnum x) (Zpos (Qden x)).

Definition get_retry_after (self : InMemoryRateLimiter) (now : Q) (client_ip : string) : Z :=
match default [] (request_log self !! client_ip) with
| [] => 0%Z
| first :: rest =>
let oldest_request := py_min first rest in
let current_time := now in
let retry_after :=
  (inject_Z (window_seconds self) - (current_time - oldest_request))%Q in
Z.max 0 (py_int retry_after)
end.

(** [reset(client_ip)]: without a client, or with an empty one, every
    client is forgotten. *)
Definition reset (self : InMemoryRateLimiter) (client_ip : option string)
  : InMemoryRateLimiter :=
  match client_ip with
  | Some (String _ _ as ip) =>
      mk_limiter (max_requests self) (window_seconds self)
        (delete ip (request_log self))
  | _ => mk_limiter (max_requests self) (window_seconds self) ∅
  end.

(** [cleanup_old_entries()]: each list loses the times at or before the
    cutoff, and a client whose list becomes empty is removed. *)
Definition cleanup_old_entries (self : InMemoryRateLimiter) (now : Q)
  : InMemoryRateLimiter :=
  let current_time := now in
  let cutoff_time := (current_time - inject_Z (window_seconds self))%Q in
  mk_limiter (max_requests self) (window_seconds self)
    (omap
       (fun requests =>
          match List.filter (newer_than cutoff_time) requests with
          | [] => None
          | recent_requests => Some recent_requests
          end)
       (request_log self)).

End rate_limiter.

(** ** core/cookie_manager.py

    A cookie map is a Python [dict] from names to values, in insertion
    order.  The column [cookie_data] holds the text that [json.dumps]
    made of such a map, or nothing, or text that [json.loads] refuses;
    the JSON syntax itself is not modelled.  The table is the list of its
    rows. *)

Module cookie_manager.

Abbreviation dict := (list (string * string)).

(** [d.get(key)]. *)
Fixpoint lookup (d : dict) (key : string) : option string :=
match d with
| [] => None
| (k, v) :: rest => if String.eqb k key then Some v else lookup rest key
end.

(** [d[key] = value]. *)
Fixpoint assign (d : dict) (key value : string) : dict :=
match d with
| [] => [(key, value)]
| (k, v) :: rest =>
if String.eqb k key then (k, value) :: rest
else (k, v) :: assign rest key value
end.

(** [d.update(other)]. *)
Definition update (d other : dict) : dict :=
fold_left (fun acc kv => assign acc (fst kv) (snd kv)) other d.

Inductive column_text : Type :=
| Blank                      (* NULL or the empty string *)
| Dumped (d : dict)          (* json.dumps(d) *)
| Malformed (text : string). (* text that is not JSON *)

(** [json.loads]. *)
Definition json_loads (c : column_text) : result dict :=
match c with
| Dumped d => Ok d
| _ => Raise (ValueError "JSONDecodeError")
end.

Definition column_truthy (c : column_text) : bool :=
match c with
| Blank => false
| Dumped _ => true
| Malformed text => Py.truthy text
end.

Record CookieJar : Type := mk_row {
row_site_id : Z;
row_session_id : string;
row_origin_host : string;
cookie_data : column_text
}.

(** The [where] clause of the two queries. *)
Definition selected (site_id : Z) (session_id origin_host : string) (row : CookieJar) : bool :=
(row_site_id row =? site_id)%Z && String.eqb (row_session_id row) session_id
&& String.eqb (row_origin_host row) origin_host.

(** [result.scalar_one_or_none()]. *)
Definition scalar_one_or_none (rows : list CookieJar) : result (option CookieJar) :=
match rows with
| [] => Ok None
| [row] => Ok (Some row)
| _ => Raise (OtherError "MultipleResultsFound")
end.

(** The body of the loop over the [Set-Cookie] headers. *)
Definition add_set_cookie (cookies : dict) (set_cookie : string) : dict :=
let cookie_pair := Py.strip (fst (Py.split1 ";" set_cookie)) in
if Py.contains_char "=" cookie_pair then
match Py.split1 "=" cookie_pair with
| (name, Some value) => assign cookies (Py.strip name) (Py.strip value)
| (_, None) => cookies
end
else cookies.

Definition parse_set_cookies (set_cookie_headers : list string) : dict :=
fold_left add_set_cookie set_cookie_headers [].

Definition existing_cookies (row : CookieJar) : dict :=
if column_truthy (cookie_data row) then
match json_loads (cookie_data row) with
| Ok d => d
| Raise _ => []
end
else [].

Definition store_cookies (db : list CookieJar) (site_id : Z)
(session_id origin_host : string) (set_cookie_headers : list string)
: result (list CookieJar) :=
match set_cookie_headers with
| [] => Ok db
| _ =>
let cookies := parse_set_cookies set_cookie_headers in
match cookies with
| [] => Ok db
| _ =>
    cookie_jar <-r scalar_one_or_none
                     (List.filter (selected site_id session_id origin_host) db) ;;
    match cookie_jar with
    | Some _ =>
        Ok (List.map
              (fun row =>
                 if selected site_id session_id origin_host row then
                   mk_row (row_site_id row) (row_session_id row)
                     (row_origin_host row)
                     (Dumped (update (existing_cookies row) cookies))
                 else row) db)
    | None =>
        Ok (db ++ [mk_row site_id session_id origin_host (Dumped cookies)])
    end
end
end.

Definition get_cookies (db : list CookieJar) (site_id : Z)
(session_id origin_host : string) : result dict :=
cookie_jar <-r scalar_one_or_none
             (List.filter (selected site_id session_id origin_host) db) ;;
match cookie_jar with
| None => Ok []
| Some row =>
if negb (column_truthy (cookie_data row)) then Ok []
else match json_loads (cookie_data row) with
     | Ok d => Ok d
     | Raise _ => Ok []
     end
end.

(** The body of the loop of [parse_cookie_header]. *)
Definition add_cookie (cookies : dict) (cookie : string) : dict :=
  let cookie := Py.strip cookie in
  if Py.contains_char "=" cookie then
    match Py.split1 "=" cookie with
    | (name, Some value) => assign cookies (Py.strip name) (Py.strip value)
    | (_, None) => cookies
    end
  else cookies.

Definition parse_cookie_header (cookie_string : string) : dict :=
  if negb (Py.truthy cookie_string) then []
  else fold_left add_cookie (Py.split ";" cookie_string) [].

(** [build_cookie_header]. *)
Definition build_cookie_header (cookies : dict) : string :=
Py.join "; " (List.map (fun kv => fst kv +:+ "=" +:+ snd kv) cookies).

End cookie_manager.

(** ** core/security.py *)

Module security.

Section with_dns.
(** [socket.gethostbyname]: the dotted-quad text of an IPv4 address of
the host, or an exception ([gaierror] when the name does not
resolve). *)
Variable gethostbyname : string -> result string.

(** The body of the inner [try]: the verdict that blocks, if any. *)
Definition check_resolved (hostname : string) : result (option (bool * string)) :=
ip_str <-r gethostbyname hostname ;;
ip <-r ipaddress.ip_address ip_str ;;
if ipaddress.is_loopback ip then
Ok (Some (false, "Blocked: loopback address " +:+ ip_str))
else if ipaddress.is_private ip then
Ok (Some (false, "Blocked: private IP address " +:+ ip_str))
else if ipaddress.is_reserved ip then
Ok (Some (false, "Blocked: reserved IP address " +:+ ip_str))
else if ipaddress.is_link_local ip then
Ok (Some (false, "Blocked: link-local address " +:+ ip_str))
else if ipaddress.in_network ip (ipaddress.IPv4Network 127 0 0 0 8) then
Ok (Some (false, "Blocked: 127.0.0.0/8 range " +:+ ip_str))
else if ipaddress.in_network ip (ipaddress.IPv4Network 10 0 0 0 8) then
Ok (Some (false, "Blocked: 10.0.0.0/8 range " +:+ ip_str))
else if ipaddress.in_network ip (ipaddress.IPv4Network 172 16 0 0 12) then
Ok (Some (false, "Blocked: 172.16.0.0/12 range " +:+ ip_str))
else if ipaddress.in_network ip (ipaddress.IPv4Network 192 168 0 0 16) then
Ok (Some (false, "Blocked: 192.168.0.0/16 range " +:+ ip_str))
else if ipaddress.in_network ip (ipaddress.IPv4Network 169 254 0 0 16) then
Ok (Some (false, "Blocked: 169.254.0.0/16 range " +:+ ip_str))
else Ok None.

Definition allowed_schemes : list string := ["http"; "https"].
Definition localhost_names : list string := ["localhost"; "127.0.0.1"; "::1"].

Definition is_safe_origin_url_body (url : string) : result (bool * string) :=
parsed <-r urllib.urlparse url ;;
if negb (existsb (String.eqb (urllib.scheme parsed)) allowed_schemes) then
Ok (false, "Invalid scheme: " +:+ urllib.scheme parsed
     +:+ ". Only HTTP/HTTPS allowed")
else
match urllib.hostname parsed with
| None => Ok (false, "Missing hostname")
| Some hostname =>
if existsb (String.eqb (Py.lower hostname)) localhost_names then
Ok (false, "Blocked: localhost access not allowed")
else
match check_resolved hostname with
| Ok (Some verdict) => Ok verdict
| Ok None => Ok (true, "OK")
| Raise (gaierror _) | Raise (ValueError _) => Ok (true, "OK")
| Raise e => Raise e
end
end.

Definition is_safe_origin_url (url : string) : bool * string :=
match is_safe_origin_url_body url with
| Ok verdict => verdict
| Raise e => (false, "Validation error: " +:+ exn_str e)
end.

End with_dns.

End security.

(** ** proxy/router.py: redirect mapping *)

Module router.

(** [proxy_handler]: the path handed to [build_origin_url], from the
route parameter [path] (the request path without its first slash)
and the raw query string. *)
Definition request_mirror_path (path query : string) : string :=
let mirror_path := if Py.truthy path then "/" +:+ path else "/" in
if Py.truthy query then mirror_path +:+ "?" +:+ query else mirror_path.

Section with_urljoin.
Variable urljoin : string -> string -> result string.

Definition normalize_redirect_location (location origin_url : string) : result string :=
if negb (Py.truthy location) then Ok location
else if Py.startswith location "http://" || Py.startswith location "https://"
then Ok location
else urljoin origin_url location.

Definition map_origin_url_to_mirror
(origin_url : string) (site : Site) (mirror_host : string) : result string :=
parsed <-r urllib.urlparse origin_url ;;
let origin_host := default EmptyString (urllib.hostname parsed) in
let origin_path :=
if Py.truthy (urllib.path parsed) then urllib.path parsed else "/" in
let query := urllib.query parsed in
let fragment := urllib.fragment parsed in
let source_root := source_root site in
let is_same_domain :=
String.eqb origin_host source_root ||
Py.endswith origin_host ("." +:+ source_root) in
if is_same_domain then
let new_host :=
if String.eqb origin_host source_root then mirror_root site
else
let subdomain_prefix :=
Py.drop_last (String.length source_root + 1) origin_host in
subdomain_prefix +:+ "." +:+ mirror_root site in
Ok ("https" +:+ "://" +:+ new_host
+:+ rewriter.add_query_fragment origin_path query fragment)
else
let encoded_path :=
url_utils.encode_external_url_for_mirror (mirror_root site) origin_host origin_path in
Ok ("https" +:+ "://" +:+ mirror_host
+:+ rewriter.add_query_fragment encoded_path query fragment).

End with_urljoin.

(** *** Requests, responses and the database

A [Response] records the call of its constructor (the status, the
[headers] argument, the content and the media type) and the cookies
set on it afterwards.  What Starlette (0.20 and later) makes of them,
the body and the header list of the response object, is given by
[render] and [raw_headers] below; the server that writes the response
adds headers of its own ([date], [server]), which are no part of it. *)

Abbreviation header_list := (list (string * string)).

Definition same_header (name : string) (entry : string * string) : bool :=
String.eqb (Py.lower (fst entry)) (Py.lower name).

(** [request.headers.get(name)] of Starlette: the first value. *)
Definition request_header (headers : header_list) (name : string) : option string :=
match List.filter (same_header name) headers with
| [] => None
| entry :: _ => Some (snd entry)
end.

(** [response.headers.get_list(name)] of httpx. *)
Definition response_header_list (headers : header_list) (name : string) : list string :=
List.map snd (List.filter (same_header name) headers).

(** [response.headers.get(name)] and [response.headers[name]] of httpx:
the values of the header joined by commas. *)
Definition response_header (headers : header_list) (name : string) : option string :=
match response_header_list headers name with
| [] => None
| values => Some (Py.join ", " values)
end.

(** [response.headers.items()] of httpx: one entry for each name, in
lower case, with the values joined by commas. *)
Definition response_items (headers : header_list) : header_list :=
fold_left
(fun acc entry =>
   let key := Py.lower (fst entry) in
   match cookie_manager.lookup acc key with
   | Some value => cookie_manager.assign acc key (value +:+ ", " +:+ snd entry)
   | None => cookie_manager.assign acc key (snd entry)
   end)
headers [].

Record Request : Type := mk_request {
method : string;
request_headers : header_list;
client_host : option string;
request_cookies : cookie_manager.dict;
url_query : string;
body : string
}.

Record UpstreamResponse : Type := mk_upstream {
upstream_status : Z;
upstream_headers : header_list;
upstream_content : string
}.

Record Cookie : Type := mk_cookie {
cookie_key : string;
cookie_value : string;
httponly : bool;
secure : bool;
samesite : string;
max_age : Z
}.

(** The [content] argument: left out ([None]), a [str] or [bytes]. *)
Inductive Content : Type :=
| NoContent
| Text (s : string)
| Bytes (b : string).

Record Response : Type := mk_response {
status_code : Z;
headers : header_list;
content : Content;
media_type : option string;
cookies_set : list Cookie
}.

(** [Response.render]: the body, a [str] encoded as UTF-8. *)
Definition render (content : Content) : list Z :=
match content with
| NoContent => []
| Text s => hashlib.encode_utf8 s
| Bytes b => List.map (fun c => Z.of_nat (Py.code c)) (list_ascii_of_string b)
end.

(** [Response.init_headers]: the names of the [headers] argument in
lower case, then a [content-length] for the body and a [content-type]
for the media type unless the argument holds one. *)
Definition init_headers (r : Response) : header_list :=
let raw_headers :=
List.map (fun entry => (Py.lower (fst entry), snd entry)) (headers r) in
let keys := List.map fst raw_headers in
let populate_content_length := negb (existsb (String.eqb "content-length") keys) in
let populate_content_type := negb (existsb (String.eqb "content-type") keys) in
let raw_headers :=
if populate_content_length
 && negb ((status_code r <? 200) || (status_code r =? 204)
          || (status_code r =? 304))%Z
then raw_headers
     ++ [("content-length", Py.str_int (Z.of_nat (length (render (content r)))))]
else raw_headers in
match media_type r with
| Some content_type =>
if populate_content_type then
let content_type :=
  if Py.startswith content_type "text/"
     && negb (Py.contains "charset=" (Py.lower content_type))
  then content_type +:+ "; charset=" +:+ "utf-8" else content_type in
raw_headers ++ [("content-type", content_type)]
else raw_headers
| None => raw_headers
end.

(** [Response.raw_headers] of the response that is returned: each
[set_cookie] has added a [set-cookie] header.  [cookie_header] is the text that
[http.cookies] makes of the arguments of [set_cookie]. *)
Definition raw_headers (cookie_header : Cookie -> string) (r : Response)
: header_list :=
init_headers r
++ List.map (fun cookie => ("set-cookie", cookie_header cookie)) (cookies_set r).

Record Database : Type := mk_db {
sites : list Site;
global_config : option config;
cookie_jars : list cookie_manager.CookieJar
}.

(** config.py *)
Record Settings : Type := mk_settings {
ADMIN_HOST : string;
SECRET_KEY : string;
RATE_LIMIT_REQUESTS : Z;
RATE_LIMIT_WINDOW : Z;
MAX_RESPONSE_SIZE_MB : Z;
REQUEST_TIMEOUT : Z;
ENABLE_RATE_LIMITING : bool
}.

Definition default_settings : Settings :=
mk_settings "0.0.0.0" "your-secret-key-change-in-production-1234567890"
60 60 15 15 true.

Definition STRIP_HEADERS : list string :=
["set-cookie"; "content-security-policy"; "strict-transport-security";
"x-frame-options"; "access-control-allow-origin"; "content-encoding";
"transfer-encoding"; "content-length"].

(** A set in the source; the order in which it is iterated only fixes
the order of the headers sent to the origin. *)
Definition FORWARD_HEADERS : list string :=
["user-agent"; "accept"; "accept-language"; "accept-encoding"; "content-type";
"referer"].

Definition find_site_by_host (host : string) (db : Database) : option Site :=
let host_without_port :=
if Py.contains_char ":" host then fst (Py.split1 ":" host) else host in
List.find
(fun site =>
   String.eqb host_without_port (mirror_root site) ||
   Py.endswith host_without_port ("." +:+ mirror_root site))
(List.filter enabled (sites db)).

(** [int(text)] on the text of a header: blanks around, a sign, decimal
digits that single underscores may separate. *)
Fixpoint digits_value (acc : Z) (after_digit : bool) (s : string) : option Z :=
match s with
| EmptyString => if after_digit then Some acc else None
| String c s' =>
  if Py.between 48 57 c then
    digits_value (acc * 10 + (Z.of_nat (Py.code c) - 48))%Z true s'
  else if Ascii.eqb c "_" && after_digit then digits_value acc false s'
  else None
end.

Definition py_int_of_str (text : string) : result Z :=
let t := Py.strip text in
let '(sign, digits) :=
match t with
| String "-" rest => ((-1)%Z, rest)
| String "+" rest => (1%Z, rest)
| _ => (1%Z, t)
end in
match digits_value 0 false digits with
| Some n => Ok (sign * n)%Z
| None => Raise (ValueError "invalid literal for int() with base 10")
end.

(** The arguments of the three [set_cookie] calls. *)
Definition session_cookie (signed_session_id : string) : Cookie :=
mk_cookie session_manager.SESSION_COOKIE_NAME signed_session_id true false "lax"
(86400 * 30).

Definition MEDIA_TYPES : list string :=
["image/"; "video/"; "audio/"; "application/octet-stream"].

(** [effective_config.get('session_mode') == 'cookie_jar']. *)
Definition is_cookie_jar (effective_config : config) : bool :=
match effective_config !! "session_mode" with
| Some v => pyval_is_str v "cookie_jar"
| None => false
end.

(** [if session_id] on an optional string. *)
Definition session_truthy (session_id : option string) : bool :=
match session_id with
| Some s => Py.truthy s
| None => false
end.

(** The calls that [proxy_handler] makes, in the order it makes them. *)
Inductive step : Type :=
| RateLimitCheck (client_ip : string)
| SiteLookup (host : string)
| SsrfCheck (origin_url : string)
| ProxyRequest (origin_url : string).

Record Handled : Type := mk_handled {
limiter_after : option rate_limiter.InMemoryRateLimiter;
steps : list step;
outcome : result (Database * Response)
}.

Section proxy.
Variable settings : Settings.
Variable urljoin : string -> string -> result string.
Variable re_sub :
string -> (html_rewriter.re_match -> result string) -> string -> result string.
Variable BeautifulSoup : string -> bs4.soup.
Variable str_soup : bs4.soup -> string.
Variable gethostbyname : string -> result string.
(** [inject_ads_and_trackers] of proxy/filter_ads.py. *)
Variable inject_ads_and_trackers : string -> config -> result string.
(** The request of the HTTP client to the origin: method, URL, headers
and body; [Raise] stands for [httpx.RequestError]. *)
Variable fetch :
string -> string -> header_list -> option string -> result UpstreamResponse.
(** [response.content.decode('utf-8', errors='ignore')]. *)
Variable decode_utf8 : string -> string.
(** [f"{n / (1024*1024):.1f}"]. *)
Variable megabytes : Z -> string.
(** [secrets.token_urlsafe(32)], drawn when a session is minted. *)
Variable random_token : string.

(** The session of the request: its identifier, whether it was minted
now, and the signed cookie value. *)
Definition acquire_session (request : Request) (effective_config : config)
: option string * bool * option string :=
if is_cookie_jar effective_config then
let signed_session_id :=
cookie_manager.lookup (request_cookies request)
session_manager.SESSION_COOKIE_NAME in
let session_id :=
match signed_session_id with
| Some signed =>
  if Py.truthy signed
  then session_manager.verify_session_id (SECRET_KEY settings) signed
  else None
| None => None
end in
if negb (session_truthy session_id) then
let signed :=
session_manager.create_signed_session_cookie (SECRET_KEY settings)
  random_token in
(session_manager.verify_session_id (SECRET_KEY settings) signed, true,
Some signed)
else (session_id, false, signed_session_id)
else (None, false, None).

Definition with_session_cookie (new_session_created : bool)
(session_id signed_session_id : option string) (response : Response) : Response :=
if new_session_created && session_truthy session_id then
mk_response (status_code response) (headers response) (content response)
(media_type response)
(cookies_set response ++ [session_cookie (default EmptyString signed_session_id)])
else response.

(** The headers copied from the request. *)
Definition copied_headers (request : Request) : header_list :=
flat_map
(fun header_name =>
match request_header (request_headers request) header_name with
| Some header_value =>
   if Py.truthy header_value then [(header_name, header_value)] else []
| None => []
end)
FORWARD_HEADERS.

(** The Referer of the request replaced by the origin URL. *)
Definition rewrite_referer (forward_headers : header_list) (origin_url : string)
: result header_list :=
match cookie_manager.lookup forward_headers "referer" with
| Some referer =>
referer_parsed <-r urllib.urlparse referer ;;
match urllib.hostname referer_parsed with
| Some (String _ _) => Ok (cookie_manager.assign forward_headers "referer" origin_url)
| _ => Ok forward_headers
end
| None => Ok forward_headers
end.

(** The redirect branch: the answer to a 3xx with a [Location]. *)
Definition redirect_response (request : Request) (site : Site) (origin_url : string)
(response : UpstreamResponse) (location : string)
(new_session_created : bool) (session_id signed_session_id : option string)
: result Response :=
absolute_location <-r normalize_redirect_location urljoin location origin_url ;;
mirror_location <-r
map_origin_url_to_mirror absolute_location site
(default (mirror_root site) (request_header (request_headers request) "host")) ;;
let response_headers :=
fold_left
(fun acc header_name =>
 match response_header (upstream_headers response) header_name with
 | Some value => cookie_manager.assign acc header_name value
 | None => acc
 end)
["cache-control"; "expires"] [("Location", mirror_location)] in
Ok (with_session_cookie new_session_created session_id signed_session_id
(mk_response (upstream_status response) response_headers NoContent None [])).

(** The branches for the other answers: HTML goes through the clean pass,
the rewriter and the injection, anything else is passed on. *)
Definition content_response (request : Request) (site : Site) (origin_url : string)
(effective_config : config) (response : UpstreamResponse)
(new_session_created : bool) (session_id signed_session_id : option string)
: result Response :=
let response_headers :=
List.filter
(fun entry => negb (existsb (String.eqb (Py.lower (fst entry))) STRIP_HEADERS))
(response_items (upstream_headers response)) in
let content_type :=
default EmptyString (response_header (upstream_headers response) "content-type") in
if Py.contains "text/html" (Py.lower content_type) then
let html_content := decode_utf8 (upstream_content response) in
cleaned_html <-r
filter_ads.clean_html BeautifulSoup str_soup html_content effective_config ;;
rewritten_html <-r
html_rewriter.rewrite_html urljoin re_sub BeautifulSoup str_soup
(fst (Py.split1 ":"
        (default (mirror_root site)
           (request_header (request_headers request) "host"))))
(mirror_root site) (source_root site) effective_config origin_url
cleaned_html ;;
final_html <-r inject_ads_and_trackers rewritten_html effective_config ;;
Ok (with_session_cookie new_session_created session_id signed_session_id
  (mk_response (upstream_status response) response_headers (Text final_html)
     (Some content_type) []))
else
Ok (with_session_cookie new_session_created session_id signed_session_id
  (mk_response (upstream_status response) response_headers
     (Bytes (upstream_content response)) None [])).

(** The size guard: the declared length when it is over the cap. *)
Definition too_large (response : UpstreamResponse) : result (option Z) :=
let content_type :=
default EmptyString (response_header (upstream_headers response) "content-type") in
let content_length := response_header (upstream_headers response) "content-length" in
let max_size_bytes := (MAX_RESPONSE_SIZE_MB settings * 1024 * 1024)%Z in
let is_media :=
existsb (fun media_type => Py.contains media_type (Py.lower content_type))
MEDIA_TYPES in
match content_length with
| Some text =>
if negb is_media && Py.truthy text then
n <-r py_int_of_str text ;;
Ok (if (max_size_bytes <? n)%Z then Some n else None)
else Ok None
| None => Ok None
end.

(** The cookies of the answer stored in the jar of the session. *)
Definition persist_cookies (site : Site) (origin_hostname : string)
(effective_config : config) (session_id : option string)
(db : Database) (response : UpstreamResponse) : result Database :=
if session_truthy session_id && is_cookie_jar effective_config then
match response_header_list (upstream_headers response) "set-cookie" with
| [] => Ok db
| set_cookie_headers =>
jars <-r
  cookie_manager.store_cookies (cookie_jars db) (site_id site)
    (default EmptyString session_id) origin_hostname set_cookie_headers ;;
Ok (mk_db (sites db) (global_config db) jars)
end
else Ok db.

(** [proxy_request] from the answer of the origin on: the size guard,
the cookie jar, then the redirect or the content. *)
Definition answer_upstream (request : Request) (site : Site) (origin_url : string)
(origin_hostname : string) (effective_config : config)
(new_session_created : bool) (session_id signed_session_id : option string)
(db : Database) (response : UpstreamResponse) : result (Database * Response) :=
over <-r too_large response ;;
match over with
| Some n =>
Ok (db,
  mk_response 413 []
    (Text ("Response too large: " +:+ megabytes n +:+ "MB exceeds "
             +:+ Py.str_int (MAX_RESPONSE_SIZE_MB settings) +:+ "MB limit"))
    (Some "text/plain") [])
| None =>
db <-r
persist_cookies site origin_hostname effective_config session_id db response ;;
let location :=
if (300 <=? upstream_status response)%Z && (upstream_status response <? 400)%Z
then
  match response_header (upstream_headers response) "location" with
  | Some location => if Py.truthy location then Some location else None
  | None => None
  end
else None in
match location with
| Some location =>
  redirect <-r
    redirect_response request site origin_url response location
      new_session_created session_id signed_session_id ;;
  Ok (db, redirect)
| None =>
  other <-r
    content_response request site origin_url effective_config response
      new_session_created session_id signed_session_id ;;
  Ok (db, other)
end
end.

Definition proxy_request (request : Request) (site : Site) (origin_url : string)
(db : Database) : result (Database * Response) :=
let '(db, global) :=
match global_config db with
| Some g => (db, g)
| None =>
(mk_db (sites db) (Some config_helper.default_global_config) (cookie_jars db),
 config_helper.default_global_config)
end in
let effective_config := config_helper.get_effective_config site global in
let '(session_id, new_session_created, signed_session_id) :=
acquire_session request effective_config in
let forward_headers := copied_headers request in
origin_parsed <-r urllib.urlparse origin_url ;;
let origin_hostname := urllib.hostname origin_parsed in
(* a Host that is None stays in the dictionary until the client
refuses it at the request *)
let forward_headers :=
match origin_hostname with
| Some origin_host => cookie_manager.assign forward_headers "Host" origin_host
| None => forward_headers
end in
forward_headers <-r rewrite_referer forward_headers origin_url ;;
forward_headers <-r
(if session_truthy session_id && is_cookie_jar effective_config then
stored_cookies <-r
 match origin_hostname with
 | Some origin_host =>
     cookie_manager.get_cookies (cookie_jars db) (site_id site)
       (default EmptyString session_id) origin_host
 | None => Ok []
 end ;;
match stored_cookies with
| [] => Ok forward_headers
| _ =>
   let cookie_header := cookie_manager.build_cookie_header stored_cookies in
   if Py.truthy cookie_header
   then Ok (cookie_manager.assign forward_headers "Cookie" cookie_header)
   else Ok forward_headers
end
else Ok forward_headers) ;;
let sent_body :=
if existsb (String.eqb (method request)) ["POST"; "PUT"; "PATCH"]
then Some (body request) else None in
match origin_hostname with
| None =>
Raise (TypeError "Header value must be str or bytes, not <class 'NoneType'>")
| Some origin_host =>
match fetch (method request) origin_url forward_headers sent_body with
| Raise e =>
  Ok (db,
      mk_response 502 [] (Text ("Error fetching origin: " +:+ exn_str e))
        (Some "text/plain") [])
| Ok response =>
  answer_upstream request site origin_url origin_host effective_config
    new_session_created session_id signed_session_id db response
end
end.

(** The guard on the host of the administration interface. *)
Definition is_admin_host (host : string) : bool :=
String.eqb host (ADMIN_HOST settings) || Py.startswith host "0.0.0.0"
|| Py.startswith host "localhost".

(** [proxy_handler(request, path, db)].  [rate_limiter] is the value of
[get_rate_limiter()]; [now] and [later] are the clock readings of
[is_allowed] and [get_retry_after]. *)
Definition proxy_handler
(rate_limiter : option rate_limiter.InMemoryRateLimiter) (now later : Q)
(request : Request) (path : string) (db : Database) : Handled :=
let host := default EmptyString (request_header (request_headers request) "host") in
let client_ip := default "unknown" (client_host request) in
let '(rate_limiter, denied, trace) :=
match rate_limiter with
| Some limiter =>
if ENABLE_RATE_LIMITING settings then
  let '(limiter, (is_allowed, remaining)) :=
    rate_limiter.is_allowed limiter now client_ip in
  (Some limiter,
   if is_allowed then None
   else Some (rate_limiter.get_retry_after limiter later client_ip),
   [RateLimitCheck client_ip])
else (Some limiter, None, [])
| None => (None, None, [])
end in
match denied with
| Some retry_after =>
mk_handled rate_limiter trace
(Ok (db,
     mk_response 429
       [("Retry-After", Py.str_int retry_after);
        ("X-RateLimit-Limit", Py.str_int (RATE_LIMIT_REQUESTS settings));
        ("X-RateLimit-Remaining", "0");
        ("X-RateLimit-Reset", Py.str_int retry_after)]
       (Text ("Rate limit exceeded. Try again in " +:+ Py.str_int retry_after
                +:+ " seconds."))
       None []))
| None =>
if is_admin_host host then
mk_handled rate_limiter trace
(Ok (db, mk_response 404 [] (Text "Not found") None []))
else
let trace := trace ++ [SiteLookup host] in
match find_site_by_host host db with
| None =>
    mk_handled rate_limiter trace
      (Ok (db,
           mk_response 404 [] (Text ("No site configured for host: " +:+ host))
             None []))
| Some site =>
    let origin_url :=
      url_utils.build_origin_url (fst (Py.split1 ":" host))
        (request_mirror_path path (url_query request)) (source_root site)
        (Some (mirror_root site)) in
    let trace := trace ++ [SsrfCheck origin_url] in
    let '(is_safe, reason) :=
      security.is_safe_origin_url gethostbyname origin_url in
    if negb is_safe then
      mk_handled rate_limiter trace
        (Ok (db, mk_response 403 [] (Text ("Blocked: " +:+ reason)) None []))
    else
      mk_handled rate_limiter (trace ++ [ProxyRequest origin_url])
        (proxy_request request site origin_url db)
end
end.

End proxy.

End router.

(** ** Vocabulary of the specification *)

(** The first non-empty segment of a path and what follows its slash. *)
Definition first_segment (p : string) : string * option string :=
  Py.split1 "/" (Py.lstrip "/" p).

(** Everything after the first segment, or ["/"] if there is nothing. *)
Definition rest_of (r : option string) : string :=
  match r with
  | Some r' => "/" +:+ r'
  | None => "/"
  end.

Definition qsuffix (q : string) : string :=
  if Py.truthy q then "?" +:+ q else EmptyString.

(** What [build_origin_url] takes for the first segment when the query
    is glued to a path that has no slash after its first segment [s1]:
    [s1], the question mark and the query up to its first slash. *)
Definition glued_segment (s1 q : string) : string :=
  s1 +:+ "?" +:+ fst (Py.split1 "/" q).

(** The forward mapping as the specification words it, for a request
    with host [h], path [p = "/" + path] and query string [q]. *)
Definition forward_mapping_as_stated : Prop :=
  forall h path q S M : string,
    let p := "/" +:+ path in
    let url :=
      url_utils.build_origin_url h (router.request_mirror_path path q) S (Some M) in
    let '(s1, r) := first_segment p in
    if Py.truthy s1 && url_utils.is_encoded_external_domain s1 then
      url = "https://" +:+ s1 +:+ rest_of r +:+ qsuffix q
    else
      (h = M -> url = "https://" +:+ S +:+ p +:+ qsuffix q) /\
      (forall x, h = x +:+ "." +:+ M ->
                 url = "https://" +:+ (x +:+ "." +:+ S) +:+ p +:+ qsuffix q).


(** A character that may stand in a host name as the URL library reads it
    back unchanged: no URL delimiter, no dropped control character, no
    upper-case letter. *)
Definition host_char (c : ascii) : bool :=
  negb (Py.contains_char c "/?#@:[]") &&
  negb (Py.contains_char c urllib.unsafe_url_bytes) &&
  Ascii.eqb (Py.lower_char c) c.

Definition host_chars (s : string) : bool := Py.forall_chars host_char s.

Definition hostname_ok (s : string) : bool := Py.truthy s && host_chars s.

(** A path, with an optional query, that the URL library splits and the
    reverse mapping joins back to the same text: no fragment mark, no tab
    or line break, no [;] in the last path segment, no empty query. *)
Definition url_path_ok (p : string) : bool :=
  negb (Py.contains_char "#" p) &&
  Py.forall_chars (fun c => negb (Py.contains_char c urllib.unsafe_url_bytes)) p &&
  negb (Py.contains_char ";" (urllib.after_last "/" (fst (Py.split1 "?" p)))) &&
  match snd (Py.split1 "?" p) with
  | Some q => Py.truthy q
  | None => true
  end.

(** The path that comes back: a path without a non-empty segment comes
    back as ["/"]. *)
Definition default_path (p : string) : string :=
  if Py.truthy (Py.lstrip "/" p) then p else "/".

Definition media_bypass (cfg : config) : bool :=
  pyval_is_str (dict_get cfg "media_policy" (PyStr "proxy")) "bypass".

(** The round trip as the specification words it, for a reverse mapping
    [reverse url h M S]. *)
Definition roundtrip_as_stated
    (reverse : string -> string -> string -> string -> result string) : Prop :=
  forall M S h p : string,
    (h = M \/ exists x, h = x +:+ "." +:+ M) ->
    url_utils.is_encoded_external_domain (fst (first_segment p)) = false ->
    exists p', (p' = p \/ p' = "/") /\
      reverse (url_utils.build_origin_url h p S (Some M)) h M S
      = Ok ("https://" +:+ h +:+ p').

Definition reverse_by_rewrite_url
    (urljoin : string -> string -> result string) (cfg : config) (base : string)
    (url h M S : string) : result string :=
  rewriter.rewrite_url urljoin url base h M S cfg.

Definition reverse_by_router (url h M S : string) : result string :=
  router.map_origin_url_to_mirror url (mkSite 1 M S true ∅) h.

(** The address classes of the guard. *)
Definition rfc1918 (ip : Z) : bool :=
  ipaddress.in_network ip (ipaddress.IPv4Network 10 0 0 0 8) ||
  ipaddress.in_network ip (ipaddress.IPv4Network 172 16 0 0 12) ||
  ipaddress.in_network ip (ipaddress.IPv4Network 192 168 0 0 16).

Definition ip_blocked (ip : Z) : bool :=
  ipaddress.is_loopback ip || ipaddress.is_private ip ||
  ipaddress.is_reserved ip || ipaddress.is_link_local ip.

Definition ip_blocked_as_stated (ip : Z) : bool :=
  ipaddress.is_loopback ip || rfc1918 ip ||
  ipaddress.is_link_local ip || ipaddress.is_reserved ip.

(** A resolver that answers or fails with [gaierror]. *)
Definition dns_of (resolve : string -> option string) (host : string) : result string :=
  match resolve host with
  | Some ip_str => Ok ip_str
  | None => Raise (gaierror "Name or service not known")
  end.

(** The guard as the specification words it; a URL that does not parse
    is counted as having no host name. *)
Definition ssrf_as_stated : Prop :=
  forall (resolve : string -> option string) (u : string),
    fst (security.is_safe_origin_url (dns_of resolve) u) = false <->
    match urllib.urlparse u with
    | Raise _ => True
    | Ok parsed =>
        existsb (String.eqb (urllib.scheme parsed)) security.allowed_schemes = false \/
        match urllib.hostname parsed with
        | None => True
        | Some host =>
            existsb (String.eqb (Py.lower host)) security.localhost_names = true \/
            exists ip_str ip, resolve host = Some ip_str /\
              ipaddress.ip_address ip_str = Ok ip /\ ip_blocked_as_stated ip = true
        end
    end.

(** The causes for which the guard answers "unsafe". *)
Definition ssrf_blocked (gethostbyname : string -> result string) (u : string) : Prop :=
  match urllib.urlparse u with
  | Raise _ => True
  | Ok parsed =>
      existsb (String.eqb (urllib.scheme parsed)) security.allowed_schemes = false \/
      match urllib.hostname parsed with
      | None => True
      | Some host =>
          existsb (String.eqb (Py.lower host)) security.localhost_names = true \/
          match (ip_str <-r gethostbyname host ;; ipaddress.ip_address ip_str) with
          | Ok ip => ip_blocked ip = true
          | Raise (gaierror _) | Raise (ValueError _) => False
          | Raise _ => True
          end
      end
  end.

(** A page with a [<base href>] and a link, as the origin serves it. *)
Definition page_with_base : bs4.soup :=
  [bs4.Tag "html" []
     [bs4.Tag "head" []
        [bs4.Tag "base" [("href", "https://source.com/docs/")] []];
      bs4.Tag "body" []
        [bs4.Tag "a" [("href", "https://source.com/docs/page")]
           [bs4.NavigableString "next"]]]].

(** A sequence of [is_allowed] calls, each with its time and client, and
    the record of what each one answered. *)
Fixpoint run_calls (rl : rate_limiter.InMemoryRateLimiter) (calls : list (Q * string))
  : rate_limiter.InMemoryRateLimiter * list (Q * string * bool) :=
  match calls with
  | [] => (rl, [])
  | (now, ip) :: rest =>
      let '(rl', answer) := rate_limiter.is_allowed rl now ip in
      let '(rl'', answers) := run_calls rl' rest in
      (rl'', (now, ip, fst answer) :: answers)
  end.

(** The times at which the calls of [ip] were admitted. *)
Definition admitted_times (ip : string) (answers : list (Q * string * bool)) : list Q :=
  List.map (fun a => fst (fst a))
    (List.filter (fun a => snd a && String.eqb (snd (fst a)) ip) answers).

(** [upto - W < ts <= upto]. *)
Definition in_window (W : Z) (upto ts : Q) : bool :=
  rate_limiter.newer_than (upto - inject_Z W)%Q ts && Qle_bool ts upto.

(** The clock does not go back. *)
Fixpoint clock_ordered (calls : list (Q * string)) : Prop :=
  match calls with
  | [] => True
  | (t, _) :: rest => Forall (fun c => (t <= fst c)%Q) rest /\ clock_ordered rest
  end.

(** What the limiter remembers of a client. *)
Definition log_of (rl : rate_limiter.InMemoryRateLimiter) (ip : string) : list Q :=
  default [] (rate_limiter.request_log rl !! ip).

(** The invariant of a run that has answered [answers] so far, the last
    call at time [T] or before: the limiter remembers of each client the
    admitted times that can still count, none of them later than [T], and
    no window holds more than [N] admissions. *)
Definition limiter_inv (N W : Z) (rl : rate_limiter.InMemoryRateLimiter)
    (answers : list (Q * string * bool)) (T : Q) : Prop :=
  rate_limiter.max_requests rl = N /\
  rate_limiter.window_seconds rl = W /\
  forall ip,
    (forall c, (T - inject_Z W <= c)%Q ->
       List.filter (rate_limiter.newer_than c) (admitted_times ip answers)
       = List.filter (rate_limiter.newer_than c) (log_of rl ip)) /\
    Forall (fun ts => (ts <= T)%Q) (log_of rl ip) /\
    forall upto,
      (length (List.filter (in_window W upto) (admitted_times ip answers))
       <= Z.to_nat N)%nat.

(** The keys of a cookie map are pairwise different. *)
Fixpoint distinct_keys (d : cookie_manager.dict) : Prop :=
  match d with
  | [] => True
  | (k, _) :: rest => cookie_manager.lookup rest k = None /\ distinct_keys rest
  end.

(** A document as the HTML parser builds it: the content of a [script]
    element is raw text, at most one string. *)
Fixpoint script_is_text (n : bs4.node) : bool :=
  match n with
  | bs4.NavigableString _ => true
  | bs4.Tag name attrs contents =>
      (if String.eqb name "script" then
         match contents with
         | [] | [bs4.NavigableString _] => true
         | _ => false
         end
       else true)
      && forallb script_is_text contents
  end.

(** The test of a loop that removes tags. *)
Definition removal (listed : string -> list (string * string) -> bool)
    (doomed : string -> list (string * string) -> list bs4.node -> bool)
    (name : string) (attrs : list (string * string)) (contents : list bs4.node) : bool :=
  listed name attrs && doomed name attrs contents.

(** A test that looks at the contents of [script] elements only. *)
Definition script_stable
    (test : string -> list (string * string) -> list bs4.node -> bool) : Prop :=
  forall name attrs contents contents',
    (String.eqb name "script" = true -> contents = contents') ->
    test name attrs contents = test name attrs contents'.

(** No tag of the document is removed by the loop with the test [doomed]
    on the tags [listed]. *)
Fixpoint none_doomed (listed : string -> list (string * string) -> bool)
    (doomed : string -> list (string * string) -> list bs4.node -> bool)
    (n : bs4.node) : bool :=
  match n with
  | bs4.NavigableString _ => true
  | bs4.Tag name attrs contents =>
      negb (removal listed doomed name attrs contents)
      && forallb (none_doomed listed doomed) contents
  end.

(** A plain-text stand-in for the parser and the printer: the document
    of a text is that text, and printing joins the strings of a document. *)
Definition text_soup (html : string) : bs4.soup := [bs4.NavigableString html].

Fixpoint text_of_node (n : bs4.node) : string :=
  match n with
  | bs4.NavigableString s => s
  | bs4.Tag _ _ contents =>
      fold_right (fun c acc => text_of_node c +:+ acc) EmptyString contents
  end.

Definition text_of_soup (soup : bs4.soup) : string :=
  fold_right (fun c acc => text_of_node c +:+ acc) EmptyString soup.

(** A document with its adjacent texts joined: what a parser reads
    back where the printer wrote two texts one after the other. *)
Definition glue_text (n : bs4.node) (rest : list bs4.node) : list bs4.node :=
  match n, rest with
  | bs4.NavigableString a, bs4.NavigableString b :: rest' =>
      bs4.NavigableString (a +:+ b) :: rest'
  | _, _ => n :: rest
  end.

Fixpoint join_texts_node (n : bs4.node) : bs4.node :=
  match n with
  | bs4.NavigableString _ => n
  | bs4.Tag name attrs contents =>
      bs4.Tag name attrs
        (fold_right (fun c acc => glue_text (join_texts_node c) acc) [] contents)
  end.

Definition join_texts (soup : bs4.soup) : bs4.soup :=
  fold_right (fun c acc => glue_text (join_texts_node c) acc) [] soup.

(** A stand-in printer that writes the tags with their attributes and
    the texts as they are, and a stand-in parser that knows the
    documents [pages] by the text they are printed as and takes any
    other text for plain text. *)
Definition show_attr (attr : string * string) : string :=
  " " +:+ fst attr +:+ "='" +:+ snd attr +:+ "'".

Fixpoint show_node (n : bs4.node) : string :=
  match n with
  | bs4.NavigableString s => s
  | bs4.Tag name attrs contents =>
      "<" +:+ name +:+ String.concat EmptyString (List.map show_attr attrs) +:+ ">"
      +:+ fold_right (fun c acc => show_node c +:+ acc) EmptyString contents
      +:+ "</" +:+ name +:+ ">"
  end.

Definition show_soup (soup : bs4.soup) : string :=
  fold_right (fun c acc => show_node c +:+ acc) EmptyString soup.

Definition read_known (pages : list bs4.soup) (html : string) : bs4.soup :=
  match List.find (fun page => String.eqb (show_soup page) html) pages with
  | Some page => page
  | None => text_soup html
  end.

(** A page with an ad script, a tracker, a script of its own and an ad
    frame between two texts; and the same page without the three, as a
    parser reads it back. *)
Definition page_with_frame : bs4.soup :=
  [bs4.Tag "html" []
     [bs4.Tag "head" []
        [bs4.Tag "script" [("src", "https://www.GoogleTagManager.com/gtm.js")] [];
         bs4.Tag "script" [] [bs4.NavigableString "window.dataLayer = [];"];
         bs4.Tag "script" [] [bs4.NavigableString "console.log(1)"]];
      bs4.Tag "body" []
        [bs4.NavigableString "a";
         bs4.Tag "iframe" [("src", "//ad.doubleclick.net/x")] [bs4.Tag "p" [] []];
         bs4.NavigableString "b"]]].

Definition page_without_frame : bs4.soup :=
  [bs4.Tag "html" []
     [bs4.Tag "head" []
        [bs4.Tag "script" [] [bs4.NavigableString "console.log(1)"]];
      bs4.Tag "body" [] [bs4.NavigableString "ab"]]].

(** *** The redirect path and the host guard as the specification states them *)



(** A header of the origin that the redirect path copies, if the origin
    sent it. *)
Definition kept_header (response : router.UpstreamResponse) (name : string)
  : router.header_list :=
  match router.response_header (router.upstream_headers response) name with
  | Some value => [(name, value)]
  | None => []
  end.


(** The origin that gives one answer to every request. *)
Definition origin_answers (response : router.UpstreamResponse)
  : string -> string -> router.header_list -> option string
    -> result router.UpstreamResponse :=
  fun _ _ _ _ => Ok response.


(** The hosts that the guard of [proxy_handler] turns away. *)
Definition guarded_host (settings : router.Settings) (host : string) : Prop :=
  host = router.ADMIN_HOST settings \/ Py.startswith host "0.0.0.0" = true
  \/ Py.startswith host "localhost" = true.

Definition is_rate_limit_check (s : router.step) : bool :=
  match s with
  | router.RateLimitCheck _ => true
  | _ => false
  end.

(** Every request for a guarded host is answered 404 and nothing else of
    the pipeline runs. *)
Definition admin_guard_as_stated : Prop :=
  forall settings urljoin re_sub BeautifulSoup str_soup gethostbyname
         inject_ads_and_trackers fetch decode_utf8 megabytes random_token
         rate_limiter now later request path db,
    guarded_host settings
      (default EmptyString
         (router.request_header (router.request_headers request) "host")) ->
    let handled :=
      router.proxy_handler settings urljoin re_sub BeautifulSoup str_soup
        gethostbyname inject_ads_and_trackers fetch decode_utf8 megabytes
        random_token rate_limiter now later request path db in
    exists r, router.outcome handled = Ok (db, r) /\ router.status_code r = 404%Z.

(** The admission of step 1 lets the request through. *)
Definition admitted (settings : router.Settings)
    (rate_limiter : option rate_limiter.InMemoryRateLimiter) (now : Q)
    (client_ip : string) : Prop :=
  router.ENABLE_RATE_LIMITING settings = false \/
  match rate_limiter with
  | None => True
  | Some limiter => fst (snd (rate_limiter.is_allowed limiter now client_ip)) = true
  end.

(** *** A site, a request and stand-ins for the libraries, for the examples *)

Definition example_site : Site := mkSite 1 "mirror.com" "source.com" true ∅.

Definition example_db : router.Database := router.mk_db [example_site] None [].

Definition get_request (host : string) : router.Request :=
  router.mk_request "GET" [("host", host)] (Some "203.0.113.7") [] EmptyString
    EmptyString.

Definition unused_urljoin : string -> string -> result string :=
  fun _ _ => Raise (OtherError "urljoin").

Definition unused_re_sub
  : string -> (html_rewriter.re_match -> result string) -> string -> result string :=
  fun _ _ _ => Raise (OtherError "re.sub").

Definition unused_inject : string -> config -> result string :=
  fun _ _ => Raise (OtherError "inject_ads_and_trackers").

Definition unused_fetch
  : string -> string -> router.header_list -> option string
    -> result router.UpstreamResponse :=
  fun _ _ _ _ => Raise (OtherError "fetch").

Definition unused_resolver : string -> result string :=
  fun _ => Raise (gaierror "Name or service not known").

(** A site mirrored on the local host, and a limiter of one request a
    minute that has admitted the client once. *)
Definition local_site : Site := mkSite 2 "localhost" "source.com" true ∅.

Definition local_db : router.Database := router.mk_db [local_site] None [].

Definition used_limiter : rate_limiter.InMemoryRateLimiter :=
  fst (rate_limiter.is_allowed (rate_limiter.init 1 60) 0 "203.0.113.7").

(** *** Vocabulary of the further properties *)

(** A limiter never remembers more than [N] times of a client. *)
Definition log_bounded (N : Z) (rl : rate_limiter.InMemoryRateLimiter) : Prop :=
  forall ip, (length (log_of rl ip) <= Z.to_nat N)%nat.

(** A text without blanks at its ends. *)
Definition trimmed (s : string) : bool := String.eqb (Py.strip s) s.

(** A cookie that a [Cookie] header can carry: the name and the value
    are trimmed and hold no [;], and the name holds no [=]. *)
Definition cookie_ok (cookie : string * string) : bool :=
  trimmed (fst cookie) && negb (Py.contains_char ";" (fst cookie))
  && negb (Py.contains_char "=" (fst cookie))
  && trimmed (snd cookie) && negb (Py.contains_char ";" (snd cookie)).

(** A resolver that gives every name one public address. *)
Definition public_resolver : string -> result string :=
  fun _ => Ok "93.184.216.34".

(** A header that the proxy may pass on to the client. *)
Definition passable (entry : string * string) : bool :=
  negb (existsb (String.eqb (Py.lower (fst entry))) router.STRIP_HEADERS).

(** The requests that [proxy_request] may make to the origin for a
    request of a client: the method of the client and the origin URL; no
    header but the forwarded ones, [Host] and [Cookie]; the host name of
    the origin URL as [Host]; the forwarded headers, [Referer] apart, as
    the client sent them; no [Cookie] unless the site keeps a cookie jar;
    the body of the client on POST, PUT and PATCH only. *)
Definition origin_request_ok (request : router.Request) (site : Site)
    (origin_url : string) (db : router.Database)
    (m u : string) (sent : router.header_list) (b : option string) : Prop :=
  m = router.method request /\
  u = origin_url /\
  Forall (fun entry => In (fst entry) (router.FORWARD_HEADERS ++ ["Host"; "Cookie"]))
    sent /\
  (exists parsed,
     urllib.urlparse origin_url = Ok parsed /\
     cookie_manager.lookup sent "Host" = urllib.hostname parsed) /\
  (forall name value,
     In name ["user-agent"; "accept"; "accept-language"; "accept-encoding";
              "content-type"] ->
     cookie_manager.lookup sent name = Some value ->
     router.request_header (router.request_headers request) name = Some value) /\
  (router.is_cookie_jar
     (config_helper.get_effective_config site
        (default config_helper.default_global_config (router.global_config db)))
   = false ->
   cookie_manager.lookup sent "Cookie" = None) /\
  b = (if existsb (String.eqb (router.method request)) ["POST"; "PUT"; "PATCH"]
       then Some (router.body request) else None).

(** A configuration with a cookie jar, and a request that carries a
    session cookie. *)
Definition jar_config : config := {[ "session_mode" := PyStr "cookie_jar" ]}.

Definition request_with_session (signed_value : string) : router.Request :=
  router.mk_request "GET" [("host", "mirror.com")] (Some "203.0.113.7")
    [(session_manager.SESSION_COOKIE_NAME, signed_value)] EmptyString EmptyString.

(** The attributes that the rewriter sweeps. *)
Definition SWEPT_ATTRIBUTES : list string :=
  ["href"; "action"; "src"; "srcset"; "style"].

(** An attribute with its value blotted out when the rewriter may change it. *)
Definition blot (attribute : string * string) : string * string :=
  if existsb (String.eqb (fst attribute)) SWEPT_ATTRIBUTES
  then (fst attribute, EmptyString) else attribute.

(** The outline of a document: its elements with their names, order and
    nesting, the text between them, and the attributes that the rewriter
    does not sweep; the content of [script] and [style] elements and the
    attributes of [base] elements are left out. *)
Fixpoint outline (n : bs4.node) : bs4.node :=
  match n with
  | bs4.NavigableString s => n
  | bs4.Tag name attrs contents =>
      bs4.Tag name
        (if String.eqb name "base" then [] else List.map blot attrs)
        (if String.eqb name "script" || String.eqb name "style" then []
         else List.map outline contents)
  end.

(** A loop body that sets [.string] on [script] and [style] elements
    only, and that changes swept attributes only, [base] elements
    apart. *)
Definition gentle
    (body : string -> list (string * string) -> list bs4.node ->
            result (list (string * string) * option string)) : Prop :=
  forall name attrs contents r,
    body name attrs contents = Ok r ->
    (snd r = None \/ String.eqb name "script" || String.eqb name "style" = true) /\
    (String.eqb name "base" = true \/ List.map blot (fst r) = List.map blot attrs).

(** Every second element of a list, from the first. *)
Fixpoint every_other {A : Type} (l : list A) : list A :=
  match l with
  | a :: _ :: rest => a :: every_other rest
  | _ => l
  end.

(** A value of the configuration that is a text or is not set. *)
Definition text_or_none (v : pyval) : bool :=
  match v with
  | PyBool _ => false
  | _ => true
  end.

(** A resolver that gives every name the link-local address of a
    metadata service. *)
Definition metadata_resolver : string -> result string :=
  fun _ => Ok "169.254.169.254".

(** A page with an empty body, and a stand-in parser that reads every
    text as three banners in a body. *)
Definition empty_page : bs4.soup :=
  [bs4.Tag "html" [] [bs4.Tag "head" [] []; bs4.Tag "body" [] []]].

Definition banner (text : string) : bs4.node :=
  bs4.Tag "div" [("class", "banner")] [bs4.NavigableString text].

Definition three_banners : string -> bs4.soup :=
  fun _ => [bs4.Tag "html" []
              [bs4.Tag "body" [] [banner "one"; banner "two"; banner "three"]]].

Definition ads_config : config :=
  {[ "inject_ads" := PyBool true; "custom_ad_html" := PyStr "<div>...</div>" ]}.

Definition tracker_config : config :=
  {[ "custom_tracker_js" := PyStr "track()" ]}.

(** Appending to the first element of a name, and finding it again. *)
Definition found_again (name : string) (new : list bs4.node) (n : bs4.node) : Prop :=
  (bs4.find_node name n = None -> bs4.append_in_node name new n = None) /\
  (forall t, bs4.find_node name n = Some t ->
     exists tag_name attrs contents,
       t = bs4.Tag tag_name attrs contents /\
       exists n', bs4.append_in_node name new n = Some n' /\
                  bs4.find_node name n'
                  = Some (bs4.Tag tag_name attrs (contents ++ new))).

(** What a document holds besides its [script] and [iframe] elements. *)
Fixpoint other_content (n : bs4.node) : list bs4.node :=
  match n with
  | bs4.NavigableString _ => [n]
  | bs4.Tag name attrs contents =>
      if String.eqb name "script" || String.eqb name "iframe" then []
      else [bs4.Tag name attrs (flat_map other_content contents)]
  end.

(** A page with an ad script, a tracker, an ad frame and a paragraph. *)
Definition page_with_ads : bs4.soup :=
  [bs4.Tag "html" []
     [bs4.Tag "head" []
        [bs4.Tag "script" [("src", "https://pagead2.googlesyndication.com/ad.js")] [];
         bs4.Tag "script" [] [bs4.NavigableString "gtag('config')"]];
      bs4.Tag "body" []
        [bs4.Tag "p" [] [bs4.NavigableString "text"];
         bs4.Tag "iframe" [("src", "https://ad.doubleclick.net/frame")] []]]].
(* ===================================================================== *)
(** * Part II: properties                                                  *)
(* ===================================================================== *)

(** ** Strings *)

#[local] Arguments String.append !s1 s2 : simpl nomatch.

Section string_lemmas.

Lemma append_nil_r (s : string) : s +:+ EmptyString = s.
Proof. induction s as [|c s IH]; simpl; [reflexivity | now rewrite IH]. Qed.

Lemma append_assoc (a b c : string) : (a +:+ b) +:+ c = a +:+ (b +:+ c).
Proof. induction a as [|x a IH]; simpl; [reflexivity | now rewrite IH]. Qed.

Lemma length_append (a b : string) :
String.length (a +:+ b) = String.length a + String.length b.
Proof. induction a as [|x a IH]; simpl; [reflexivity | now rewrite IH]. Qed.

Lemma prefix_append (p s : string) : String.prefix p (p +:+ s) = true.
Proof.
induction p as [|c p IH]; simpl.
- now destruct s.
- destruct (ascii_dec c c) as [_|n]; [exact IH | now destruct n].
Qed.

Lemma startswith_append (p s : string) : Py.startswith (p +:+ s) p = true.
Proof. apply prefix_append. Qed.

Lemma take_append (a b : string) : Py.take (String.length a) (a +:+ b) = a.
Proof. induction a as [|x a IH]; simpl; [now destruct b | now rewrite IH]. Qed.

Lemma endswith_cons (x : ascii) (s p : string) :
Py.endswith (String x s) p = String.eqb (String x s) p || Py.endswith s p.
Proof. reflexivity. Qed.

Lemma endswith_append (a p : string) : Py.endswith (a +:+ p) p = true.
Proof.
induction a as [|x a IH].
- change (EmptyString +:+ p) with p.
destruct p; [reflexivity |].
rewrite endswith_cons, String.eqb_refl. reflexivity.
- change (String x a +:+ p) with (String x (a +:+ p)).
rewrite endswith_cons, IH. apply orb_true_r.
Qed.

(** A string that ends with [p] is some string followed by [p]. *)
Lemma endswith_inv (s p : string) :
Py.endswith s p = true -> exists a, s = a +:+ p.
Proof.
induction s as [|x s IH]; intros H.
- destruct p; [now exists EmptyString | discriminate].
- rewrite endswith_cons in H. apply orb_true_iff in H as [H|H].
+ apply String.eqb_eq in H. subst p. now exists EmptyString.
+ destruct (IH H) as [a ->]. now exists (String x a).
Qed.

Lemma drop_last_append (a p : string) :
p <> EmptyString -> Py.drop_last (String.length p) (a +:+ p) = a.
Proof.
intros Hp. unfold Py.drop_last.
destruct (String.length p) eqn:E.
- destruct p; [now destruct Hp | discriminate].
- rewrite <- E, length_append.
replace (String.length a + String.length p - String.length p)
with (String.length a) by lia.
apply take_append.
Qed.

Lemma append_neq_suffix (x : string) (c : ascii) (m : string) :
x +:+ String c m <> m.
Proof.
intros H. apply (f_equal String.length) in H.
rewrite length_append in H. simpl in H. lia.
Qed.

Lemma append_cancel (a b c : string) : a +:+ b = a +:+ c -> b = c.
Proof.
induction a as [|x a IH]; simpl; intros H; [exact H |].
injection H as H. now apply IH.
Qed.

End string_lemmas.

(** ** Forward mapping (mirror to origin) *)

Section forward.

Lemma request_mirror_path_eq (path q : string) :
router.request_mirror_path path q = ("/" +:+ path) +:+ qsuffix q.
Proof.
unfold router.request_mirror_path, qsuffix.
destruct path, q; simpl; rewrite ?append_nil_r; reflexivity.
Qed.

Lemma lstrip_append (chars a b : string) :
Py.lstrip chars a <> EmptyString ->
Py.lstrip chars (a +:+ b) = Py.lstrip chars a +:+ b.
Proof.
induction a as [|c a IH]; simpl; intros H; [now destruct H |].
destruct (Py.contains_char c chars); [now apply IH | reflexivity].
Qed.

Lemma lstrip_all (chars a : string) :
Py.lstrip chars a = EmptyString ->
forall b, Py.lstrip chars (a +:+ b) = Py.lstrip chars b.
Proof.
induction a as [|c a IH]; simpl; intros H b; [reflexivity |].
destruct (Py.contains_char c chars); [now apply IH | discriminate].
Qed.

Lemma lstrip_head (chars s : string) (c : ascii) (t : string) :
Py.lstrip chars s = String c t -> Py.contains_char c chars = false.
Proof.
induction s as [|d s IH]; simpl; [discriminate |].
destruct (Py.contains_char d chars) eqn:E; [exact IH |].
intros H. injection H as -> _. exact E.
Qed.

Lemma split1_append_some (sep : ascii) (a b s1 r : string) :
Py.split1 sep a = (s1, Some r) ->
Py.split1 sep (a +:+ b) = (s1, Some (r +:+ b)).
Proof.
revert s1. induction a as [|c a IH]; simpl; intros s1 H; [discriminate |].
destruct (Ascii.eqb c sep).
- now injection H as <- <-.
- destruct (Py.split1 sep a) as [a1 r1]. injection H as <- ->.
now rewrite (IH a1 eq_refl).
Qed.

Lemma origin_host_exact (S M : string) :
url_utils.origin_host_for M S (Some M) = S.
Proof.
unfold url_utils.origin_host_for, domain_mapping.map_mirror_host_to_origin_host.
destruct (Py.truthy M); [now rewrite String.eqb_refl | reflexivity].
Qed.

Lemma map_mirror_host_subdomain (x S M : string) :
domain_mapping.map_mirror_host_to_origin_host (x +:+ "." +:+ M) M S
= x +:+ "." +:+ S.
Proof.
unfold domain_mapping.map_mirror_host_to_origin_host.
destruct (String.eqb_spec (x +:+ "." +:+ M) M) as [E|_].
- now apply append_neq_suffix in E.
- rewrite endswith_append, drop_last_append; [reflexivity | discriminate].
Qed.

Lemma origin_host_subdomain (x S M : string) :
M <> EmptyString ->
url_utils.origin_host_for (x +:+ "." +:+ M) S (Some M) = x +:+ "." +:+ S.
Proof.
intros HM. unfold url_utils.origin_host_for.
destruct M; [now destruct HM |]. simpl Py.truthy. cbv iota.
apply map_mirror_host_subdomain.
Qed.

Lemma startswith_slash_inv (s : string) :
Py.startswith s "/" = true -> exists rest, s = String "/" rest.
Proof.
destruct s as [|c s]; [discriminate |].
unfold Py.startswith.
change (String.prefix "/" (String c s))
with (if ascii_dec "/" c then String.prefix EmptyString s else false).
destruct (ascii_dec "/" c) as [<-|]; intros H; [eauto | discriminate H].
Qed.

(** [build_origin_url] on a path that starts with a slash, by the
first non-empty segment of the path. *)
Lemma build_origin_url_cases (h mp S M oh : string) :
Py.startswith mp "/" = true ->
url_utils.origin_host_for h S (Some M) = oh ->
url_utils.build_origin_url h mp S (Some M)
= match first_segment mp with
| (EmptyString, _) => "https://" +:+ oh +:+ "/"
| (s1, r) =>
  if url_utils.is_encoded_external_domain s1
  then "https://" +:+ s1 +:+ rest_of r
  else "https://" +:+ oh +:+ mp
end.
Proof.
intros Hsw Hoh. unfold url_utils.build_origin_url, first_segment.
rewrite Hsw, Hoh. cbv [negb]. cbv iota.
destruct (Py.split1 "/" (Py.lstrip "/" mp)) as [s1 r].
simpl fst. simpl snd. destruct s1 as [|c t]; [reflexivity |].
simpl Py.truthy. cbv iota. fold (rest_of r).
destruct (url_utils.is_encoded_external_domain (String c t)); [| reflexivity].
destruct (String.eqb_spec (rest_of r) "/") as [E|_]; [now rewrite E | reflexivity].
Qed.

Lemma first_segment_nonempty (c : ascii) (l : string) :
Ascii.eqb c "/" = false ->
exists t r, Py.split1 "/" (String c l) = (String c t, r).
Proof.
intros Hc. simpl. rewrite Hc. destruct (Py.split1 "/" l). eauto.
Qed.

(** Splitting a text glued to one that has no separator. *)
Lemma split1_glued (sep : ascii) (a b : string) :
snd (Py.split1 sep a) = None ->
Py.split1 sep (a +:+ b) = (a +:+ fst (Py.split1 sep b), snd (Py.split1 sep b)).
Proof.
induction a as [|c a IH]; simpl; intros H.
- now destruct (Py.split1 sep b).
- destruct (Ascii.eqb c sep); [discriminate H |].
destruct (Py.split1 sep a) as [a1 r1]. simpl in H.
now rewrite (IH H).
Qed.

Lemma split1_none_keeps (sep : ascii) (a a1 : string) :
Py.split1 sep a = (a1, None) -> a1 = a.
Proof.
revert a1. induction a as [|c a IH]; simpl; intros a1 H.
- now injection H as <-.
- destruct (Ascii.eqb c sep); [discriminate H |].
destruct (Py.split1 sep a) as [a2 r2]. injection H as <- ->.
now rewrite (IH a2 eq_refl).
Qed.

(** The requests that the amended claim leaves out: the query is glued
to the path before the first segment is cut, so a dot in the query makes
an encoded domain of [foo?v=1.2], the query of an encoded domain ends up
in the host, and a space in the query turns an encoded domain into a
path of the origin. *)
Lemma forward_counterexample_query :
url_utils.build_origin_url "mirror.com"
(router.request_mirror_path "foo" "v=1.2") "source.com" (Some "mirror.com")
= "https://foo?v=1.2/" /\
url_utils.build_origin_url "mirror.com"
(router.request_mirror_path "cdn.example.org" "x=1") "source.com" (Some "mirror.com")
= "https://cdn.example.org?x=1/" /\
url_utils.build_origin_url "mirror.com"
(router.request_mirror_path "cdn.example.org" "q=a b") "source.com" (Some "mirror.com")
= "https://source.com/cdn.example.org?q=a b".
Proof. repeat split; reflexivity. Qed.

End forward.

(** C2, as stated: refuted by the request [GET //] on the mirror root,
    whose path has no non-empty segment: the origin URL is
    [https://source.com/], not [https://source.com//]. *)
Lemma forward_mapping_as_stated_fails : ~ forward_mapping_as_stated.
Proof.
  intros H.
  specialize (H "mirror.com" "/" EmptyString "source.com" "mirror.com").
  vm_compute in H. destruct H as [H _]. specialize (H eq_refl). discriminate H.
Qed.

(** C2, amended: for a request with host [h], path [p = "/" + path] and
    query [q], where [oh] is the origin host of [h] ([S] for [M], [x.S]
    for [x.M]): a path of slashes only with no query gives [https://oh/];
    a first non-empty segment [s1] with a dot and no space gives
    [https://s1 + rest + query]; otherwise the URL is
    [https://oh + p + query].  Left out are the requests on which the
    query, glued to the path before it is split, reaches the first
    segment and is read as part of an encoded domain: a non-empty query
    on a path with no slash after [s1], where [s1], or [s1?] with the
    query up to its first slash, has a dot and no space. *)
Theorem forward_mapping (h path q S M oh : string) :
  M <> EmptyString ->
  (h = M /\ oh = S) \/ (exists x, h = x +:+ "." +:+ M /\ oh = x +:+ "." +:+ S) ->
  let p := "/" +:+ path in
  let s1 := fst (first_segment p) in
  let r := snd (first_segment p) in
  q = EmptyString \/ is_Some r \/
  (url_utils.is_encoded_external_domain s1 = false /\
   url_utils.is_encoded_external_domain (glued_segment s1 q) = false) ->
  url_utils.build_origin_url h (router.request_mirror_path path q) S (Some M)
  = if negb (Py.truthy s1) && negb (Py.truthy q) then "https://" +:+ oh +:+ "/"
    else if Py.truthy s1 && url_utils.is_encoded_external_domain s1
    then "https://" +:+ s1 +:+ rest_of r +:+ qsuffix q
    else "https://" +:+ oh +:+ p +:+ qsuffix q.
Proof.
  intros HM Hh p s1 r Hq.
  assert (Hoh : url_utils.origin_host_for h S (Some M) = oh).
  { destruct Hh as [[-> ->] | (x & -> & ->)];
      [apply origin_host_exact | now apply origin_host_subdomain]. }
  rewrite request_mirror_path_eq.
  rewrite (build_origin_url_cases _ _ _ _ oh)
    by (try rewrite append_assoc; auto using startswith_append).
  subst s1 r p. unfold first_segment in *.
  change (Py.lstrip "/" (("/" +:+ path) +:+ qsuffix q))
    with (Py.lstrip "/" (path +:+ qsuffix q)).
  change (Py.lstrip "/" ("/" +:+ path)) with (Py.lstrip "/" path) in *.
  destruct (Py.lstrip "/" path) as [|c l] eqn:El.
  - (* the path is made of slashes *)
    rewrite (lstrip_all _ _ El). cbn [Py.split1 fst snd Py.truthy negb andb] in *.
    destruct q as [|d q].
    + reflexivity.
    + destruct Hq as [Hq | [[? Hq] | [_ Hq]]]; try discriminate Hq.
      unfold glued_segment in Hq. unfold qsuffix. cbn [Py.truthy negb].
      change (Py.lstrip "/" ("?" +:+ String d q)) with (String "?" (String d q)).
      change (Py.split1 "/" (String "?" (String d q)))
        with (let '(a, b) := Py.split1 "/" (String d q) in (String "?" a, b)).
      change (EmptyString +:+ "?" +:+ fst (Py.split1 "/" (String d q)))
        with (String "?" (fst (Py.split1 "/" (String d q)))) in Hq.
      destruct (Py.split1 "/" (String d q)) as [q0 rq]. cbn [fst] in Hq.
      rewrite Hq. reflexivity.
  - rewrite lstrip_append by (rewrite El; discriminate). rewrite El.
    assert (Hc : Ascii.eqb c "/" = false).
    { apply lstrip_head in El. simpl in El. now apply orb_false_elim in El. }
    destruct (first_segment_nonempty c l Hc) as (t & r & Es). rewrite Es in *.
    cbn [fst snd Py.truthy negb andb] in *.
    destruct r as [r|].
    + rewrite (split1_append_some _ _ _ _ _ Es).
      unfold rest_of. now rewrite !append_assoc.
    + destruct q as [|d q].
      * unfold qsuffix. cbn [Py.truthy]. rewrite !append_nil_r, Es. reflexivity.
      * destruct Hq as [Hq | [[? Hq] | [Hs Hq]]]; try discriminate Hq.
        unfold glued_segment in Hq. unfold qsuffix. cbn [Py.truthy].
        rewrite (split1_glued "/" (String c l) ("?" +:+ String d q))
          by now rewrite Es.
        change (Py.split1 "/" ("?" +:+ String d q))
          with (let '(a, b) := Py.split1 "/" (String d q) in (String "?" a, b)).
        assert (Et : String c t = String c l).
        { apply split1_none_keeps in Es. exact Es. }
        rewrite Et in *.
        destruct (Py.split1 "/" (String d q)) as [q0 rq]. cbn [fst snd] in *.
        change (String c l +:+ String "?" q0)
          with (String c (l +:+ "?" +:+ q0)).
        change (String c l +:+ "?" +:+ q0)
          with (String c (l +:+ "?" +:+ q0)) in Hq.
        rewrite Hq, Hs. reflexivity.
Qed.

Lemma forward_mapping_witness :
  url_utils.build_origin_url "xyz.mirror.com"
    (router.request_mirror_path "search" "q=hello") "source.com" (Some "mirror.com")
  = "https://xyz.source.com/search?q=hello".
Proof.
  apply (forward_mapping "xyz.mirror.com" "search" "q=hello" "source.com"
           "mirror.com" "xyz.source.com").
  - discriminate.
  - right. exists "xyz". split; reflexivity.
  - right. right. split; reflexivity.
Defined.

(** ** Reverse mapping and the round trip *)

Section roundtrip.

Lemma forall_chars_append (P : ascii -> bool) (a b : string) :
Py.forall_chars P (a +:+ b) = Py.forall_chars P a && Py.forall_chars P b.
Proof.
induction a as [|c a IH]; simpl; [reflexivity |].
now rewrite IH, andb_assoc.
Qed.

Lemma remove_chars_id (chars s : string) :
Py.forall_chars (fun c => negb (Py.contains_char c chars)) s = true ->
Py.remove_chars chars s = s.
Proof.
induction s as [|c s IH]; simpl; [reflexivity |].
intros H. apply andb_true_iff in H as [Hc Hs].
apply negb_true_iff in Hc. rewrite Hc. now rewrite IH.
Qed.

Lemma span_append (P : ascii -> bool) (a : string) (c : ascii) (b : string) :
Py.forall_chars P a = true -> P c = false ->
Py.span P (a +:+ String c b) = (a, String c b).
Proof.
intros Ha Hc. induction a as [|d a IH]; simpl.
- now rewrite Hc.
- simpl in Ha. apply andb_true_iff in Ha as [Hd Ha].
rewrite Hd, (IH Ha). reflexivity.
Qed.

Lemma split1_none (sep : ascii) (s : string) :
Py.contains_char sep s = false -> Py.split1 sep s = (s, None).
Proof.
induction s as [|c s IH]; simpl; [reflexivity |].
intros H. apply orb_false_elim in H as [Hc Hs].
rewrite Hc, (IH Hs). reflexivity.
Qed.

Lemma split1_some (sep : ascii) (s a b : string) :
Py.split1 sep s = (a, Some b) ->
s = a +:+ String sep b /\ Py.contains_char sep a = false.
Proof.
revert a. induction s as [|c s IH]; simpl; intros a H; [discriminate |].
destruct (Ascii.eqb_spec c sep) as [->|Hne].
- injection H as <- <-. split; reflexivity.
- destruct (Py.split1 sep s) as [a1 r1]. injection H as <- ->.
destruct (IH a1 eq_refl) as [-> Ha]. split; [reflexivity |].
simpl. rewrite Ha. apply Ascii.eqb_neq in Hne. now rewrite Hne.
Qed.

Lemma split1_fst_no_sep (sep : ascii) (s : string) :
Py.contains_char sep (fst (Py.split1 sep s)) = false.
Proof.
induction s as [|c s IH]; simpl; [reflexivity |].
destruct (Ascii.eqb c sep) eqn:E; [reflexivity |].
destruct (Py.split1 sep s) as [a r]. simpl in *. now rewrite E, IH.
Qed.

Lemma rsplit1_none (sep : ascii) (s : string) :
Py.contains_char sep s = false -> Py.rsplit1 sep s = None.
Proof.
induction s as [|c s IH]; simpl; [reflexivity |].
intros H. apply orb_false_elim in H as [Hc Hs].
now rewrite (IH Hs), Hc.
Qed.

Lemma rsplit1_some (sep : ascii) (s a b : string) :
Py.rsplit1 sep s = Some (a, b) -> s = a +:+ String sep b.
Proof.
revert a. induction s as [|c s IH]; simpl; intros a H; [discriminate |].
destruct (Py.rsplit1 sep s) as [[a1 b1]|].
- injection H as <- <-. now rewrite (IH a1 eq_refl).
- destruct (Ascii.eqb_spec c sep) as [->|]; [| discriminate].
now injection H as <- <-.
Qed.

Lemma lower_id (s : string) :
Py.forall_chars (fun c => Ascii.eqb (Py.lower_char c) c) s = true ->
Py.lower s = s.
Proof.
induction s as [|c s IH]; simpl; [reflexivity |].
intros H. apply andb_true_iff in H as [Hc Hs].
apply Ascii.eqb_eq in Hc. now rewrite Hc, IH.
Qed.

Lemma forall_chars_impl (P Q : ascii -> bool) (s : string) :
(forall c, P c = true -> Q c = true) ->
Py.forall_chars P s = true -> Py.forall_chars Q s = true.
Proof.
intros HPQ. induction s as [|c s IH]; simpl; [reflexivity |].
intros H. apply andb_true_iff in H as [Hc Hs].
now rewrite (HPQ c Hc), IH.
Qed.

Lemma forall_chars_not_contains (P : ascii -> bool) (d : ascii) (s : string) :
P d = false -> Py.forall_chars P s = true -> Py.contains_char d s = false.
Proof.
intros Hd. induction s as [|c s IH]; simpl; [reflexivity |].
intros H. apply andb_true_iff in H as [Hc Hs]. rewrite (IH Hs).
destruct (Ascii.eqb_spec c d) as [->|]; [congruence | reflexivity].
Qed.

Lemma split1_none_inv (sep : ascii) (s a : string) :
Py.split1 sep s = (a, None) -> a = s.
Proof.
revert a. induction s as [|c s IH]; simpl; intros a H.
- now injection H as <-.
- destruct (Ascii.eqb c sep); [discriminate |].
destruct (Py.split1 sep s) as [a1 r1]. injection H as <- ->.
now rewrite (IH a1 eq_refl).
Qed.

Lemma host_chars_no (d : ascii) (s : string) :
host_char d = false -> host_chars s = true -> Py.contains_char d s = false.
Proof. apply forall_chars_not_contains. Qed.

Lemma host_chars_lower (s : string) : host_chars s = true -> Py.lower s = s.
Proof.
intros H. apply lower_id. revert H. apply forall_chars_impl.
intros c Hc. unfold host_char in Hc. now apply andb_true_iff in Hc as [_ Hc].
Qed.

Lemma hostinfo_host_plain (oh : string) :
host_chars oh = true -> urllib.hostinfo_host oh = oh.
Proof.
intros H. unfold urllib.hostinfo_host, urllib.after_last.
rewrite (rsplit1_none "@" oh) by (now apply host_chars_no).
rewrite (split1_none "[" oh) by (now apply host_chars_no).
rewrite (split1_none ":" oh) by (now apply host_chars_no).
reflexivity.
Qed.

Lemma hostname_plain (oh sch p ps q f : string) :
hostname_ok oh = true ->
urllib.hostname (urllib.mkParseResult sch oh p ps q f) = Some oh.
Proof.
intros H. apply andb_true_iff in H as [Hne Hc].
unfold urllib.hostname. simpl urllib.netloc.
rewrite (hostinfo_host_plain oh Hc), Hne.
destruct (Py.split1 "%" oh) as [a [zone|]] eqn:E.
- apply split1_some in E as [E _]. subst oh.
unfold host_chars in Hc. rewrite forall_chars_append in Hc.
apply andb_true_iff in Hc as [Ha _].
now rewrite (host_chars_lower a Ha).
- apply split1_none_inv in E. subst a. now rewrite host_chars_lower.
Qed.

(** The unsafe bytes are absent from a host made of host characters. *)
Lemma host_chars_safe (s : string) :
host_chars s = true ->
Py.forall_chars (fun c => negb (Py.contains_char c urllib.unsafe_url_bytes)) s = true.
Proof.
apply forall_chars_impl. intros c Hc. unfold host_char in Hc.
apply andb_true_iff in Hc as [Hc _]. now apply andb_true_iff in Hc as [_ Hc].
Qed.

Lemma host_chars_netloc (s : string) :
host_chars s = true ->
Py.forall_chars (fun c => negb (Py.contains_char c "/?#")) s = true.
Proof.
apply forall_chars_impl. intros c Hc. unfold host_char in Hc.
apply andb_true_iff in Hc as [Hc _]. apply andb_true_iff in Hc as [Hc _].
apply negb_true_iff in Hc. apply negb_true_iff.
simpl in *. repeat (apply orb_false_elim in Hc as [? Hc]).
repeat (apply orb_false_intro; [assumption |]). reflexivity.
Qed.

Lemma lstrip_keep (chars : string) (c : ascii) (s : string) :
Py.contains_char c chars = false -> Py.lstrip chars (String c s) = String c s.
Proof. intros H. simpl. now rewrite H. Qed.

Lemma url_path_ok_inv (p : string) :
url_path_ok p = true ->
Py.contains_char "#" p = false /\
Py.forall_chars (fun c => negb (Py.contains_char c urllib.unsafe_url_bytes)) p = true /\
Py.contains_char ";" (urllib.after_last "/" (fst (Py.split1 "?" p))) = false /\
match snd (Py.split1 "?" p) with Some q => Py.truthy q | None => true end = true.
Proof.
unfold url_path_ok. intros H.
apply andb_true_iff in H as [H H4]. apply andb_true_iff in H as [H H3].
apply andb_true_iff in H as [H1 H2].
apply negb_true_iff in H1, H3. auto.
Qed.

(** What [urlsplit] returns on [https://oh] followed by a path. *)
Lemma urlsplit_https (oh p1 : string) :
host_chars oh = true ->
Py.startswith p1 "/" = true ->
url_path_ok p1 = true ->
urllib.urlsplit ("https://" +:+ oh +:+ p1)
= Ok (urllib.mkParseResult "https" oh (fst (Py.split1 "?" p1)) EmptyString
    (snd (urllib.split_or_empty "?" p1)) EmptyString).
Proof.
intros Hoh Hsw Hp.
destruct (url_path_ok_inv p1 Hp) as (Hfrag & Hctl & _ & _).
destruct (startswith_slash_inv p1 Hsw) as [p1' Ep].
unfold urllib.urlsplit.
change ("https://" +:+ oh +:+ p1)
with (String "h" (String "t" (String "t" (String "p" (String "s"
     (String ":" (String "/" (String "/" (oh +:+ p1))))))))).
rewrite lstrip_keep by reflexivity.
rewrite remove_chars_id.
2:{ cbn [Py.forall_chars]. rewrite forall_chars_append, Hctl.
rewrite (host_chars_safe oh Hoh). reflexivity. }
unfold urllib.split_scheme. cbn [Py.split1 Ascii.eqb Bool.eqb].
change (Py.truthy "https" && urllib.ascii_alpha "h"
    && Py.forall_chars urllib.scheme_char "https") with true.
cbv iota. change (Py.lower "https") with "https".
change (String "/" (String "/" (oh +:+ p1))) with ("//" +:+ (oh +:+ p1)).
rewrite startswith_append.
change (Py.drop 2 ("//" +:+ (oh +:+ p1))) with (oh +:+ p1).
unfold urllib.splitnetloc. rewrite Ep.
rewrite span_append; [| now apply host_chars_netloc | reflexivity].
rewrite <- Ep.
assert (Hbr : urllib.bad_brackets oh = false).
{ unfold urllib.bad_brackets.
rewrite (host_chars_no "[" oh), (host_chars_no "]" oh) by easy.
reflexivity. }
rewrite Hbr. rewrite (host_chars_no "[" oh) by easy. cbn [andb rbind].
unfold urllib.split_or_empty at 1. rewrite (split1_none "#" p1 Hfrag).
unfold urllib.split_or_empty.
destruct (Py.split1 "?" p1) as [u [r|]]; reflexivity.
Qed.

Lemma splitparams_none (path : string) :
Py.contains_char ";" path = true ->
Py.contains_char ";" (urllib.after_last "/" path) = false ->
urllib.splitparams path = (path, EmptyString).
Proof.
unfold urllib.splitparams, urllib.after_last. intros Hin Hlast.
destruct (Py.rsplit1 "/" path) as [[dir last]|]; [| congruence].
now rewrite (split1_none ";" last Hlast).
Qed.

Lemma urlparse_https (oh p1 : string) :
host_chars oh = true ->
Py.startswith p1 "/" = true ->
url_path_ok p1 = true ->
urllib.urlparse ("https://" +:+ oh +:+ p1)
= Ok (urllib.mkParseResult "https" oh (fst (Py.split1 "?" p1)) EmptyString
    (snd (urllib.split_or_empty "?" p1)) EmptyString).
Proof.
intros Hoh Hsw Hp. unfold urllib.urlparse.
rewrite (urlsplit_https oh p1 Hoh Hsw Hp). cbn [rbind urllib.scheme urllib.path].
destruct (url_path_ok_inv p1 Hp) as (_ & _ & Hpar & _).
destruct (existsb (String.eqb "https") urllib.uses_params
      && Py.contains_char ";" (fst (Py.split1 "?" p1))) eqn:E; [| reflexivity].
apply andb_true_iff in E as [_ E].
now rewrite (splitparams_none _ E Hpar).
Qed.

(** Joining the path and the query of a good path gives it back. *)
Lemma add_query_fragment_split (p1 : string) :
Py.startswith p1 "/" = true ->
url_path_ok p1 = true ->
let path := fst (Py.split1 "?" p1) in
rewriter.add_query_fragment (if Py.truthy path then path else "/")
(snd (urllib.split_or_empty "?" p1)) EmptyString = p1.
Proof.
intros Hsw Hp. destruct (url_path_ok_inv p1 Hp) as (_ & _ & _ & Hq).
destruct (startswith_slash_inv p1 Hsw) as [p1' ->].
unfold rewriter.add_query_fragment, urllib.split_or_empty.
cbn [Py.split1 Ascii.eqb Bool.eqb] in *.
destruct (Py.split1 "?" p1') as [u [q|]] eqn:E; cbn [fst snd Py.truthy] in *.
- apply split1_some in E as [-> _]. rewrite Hq. reflexivity.
- apply split1_none_inv in E. now subst u.
Qed.

Lemma map_origin_host_exact (S M : string) :
rewriter.map_origin_host_to_mirror_host S S M = M.
Proof.
unfold rewriter.map_origin_host_to_mirror_host. now rewrite String.eqb_refl.
Qed.

Lemma drop_last_subdomain (x S : string) :
Py.drop_last (String.length S + 1) (x +:+ "." +:+ S) = x.
Proof.
replace (String.length S + 1) with (String.length ("." +:+ S))
by (rewrite length_append; simpl; lia).
apply drop_last_append. discriminate.
Qed.

Lemma map_origin_host_subdomain (x S M : string) :
rewriter.map_origin_host_to_mirror_host (x +:+ "." +:+ S) S M = x +:+ "." +:+ M.
Proof.
unfold rewriter.map_origin_host_to_mirror_host.
destruct (String.eqb_spec (x +:+ "." +:+ S) S) as [E|_].
- now apply append_neq_suffix in E.
- now rewrite endswith_append, drop_last_subdomain.
Qed.

Lemma is_special_https (rest : string) :
rewriter.is_special_url ("https://" +:+ rest) = false.
Proof. reflexivity. Qed.

Lemma make_absolute_https (uj : string -> string -> result string) (rest base : string) :
rewriter.make_absolute_url uj ("https://" +:+ rest) base = Ok ("https://" +:+ rest).
Proof.
unfold rewriter.make_absolute_url.
rewrite is_special_https, (startswith_append "https://" rest).
change (Py.startswith ("https://" +:+ rest) "http://") with false.
change (Py.startswith ("https://" +:+ rest) "//") with false.
reflexivity.
Qed.

Lemma first_segment_empty_iff (p : string) :
fst (first_segment p) = EmptyString <-> Py.lstrip "/" p = EmptyString.
Proof.
unfold first_segment. destruct (Py.lstrip "/" p) as [|c l] eqn:E.
- split; reflexivity.
- assert (Hc : Ascii.eqb c "/" = false).
{ apply lstrip_head in E. simpl in E. now apply orb_false_elim in E. }
destruct (first_segment_nonempty c l Hc) as (t & r & ->).
split; discriminate.
Qed.

(** The forward mapping of a path whose first segment is not an encoded
domain. *)
Lemma forward_in_namespace (h p S M oh : string) :
Py.startswith p "/" = true ->
url_utils.origin_host_for h S (Some M) = oh ->
url_utils.is_encoded_external_domain (fst (first_segment p)) = false ->
url_utils.build_origin_url h p S (Some M) = "https://" +:+ oh +:+ default_path p.
Proof.
intros Hsw Hoh Hext. rewrite (build_origin_url_cases h p S M oh Hsw Hoh).
unfold default_path. pose proof (first_segment_empty_iff p) as Hiff.
destruct (first_segment p) as [s1 r]. simpl fst in *.
destruct s1 as [|c t].
- destruct Hiff as [Hiff _]. now rewrite (Hiff eq_refl).
- rewrite Hext. destruct (Py.lstrip "/" p); [| reflexivity].
destruct Hiff as [_ Hiff]. discriminate (Hiff eq_refl).
Qed.

Lemma default_path_ok (p : string) :
Py.startswith p "/" = true -> url_path_ok p = true ->
Py.startswith (default_path p) "/" = true /\ url_path_ok (default_path p) = true.
Proof.
intros Hsw Hp. unfold default_path.
destruct (Py.truthy (Py.lstrip "/" p)); split; auto.
Qed.

Lemma origin_host_ok (h S M : string) :
M <> EmptyString ->
hostname_ok S = true ->
host_chars h = true ->
(h = M \/ exists x, h = x +:+ "." +:+ M) ->
let oh := url_utils.origin_host_for h S (Some M) in
hostname_ok oh = true /\
((h = M /\ oh = S) \/ (exists x, h = x +:+ "." +:+ M /\ oh = x +:+ "." +:+ S)).
Proof.
intros HM HS Hh [->|[x ->]].
- cbv zeta. rewrite origin_host_exact. auto.
- cbv zeta. rewrite (origin_host_subdomain x S M HM). split; [| eauto].
apply andb_true_iff in HS as [_ HS].
unfold host_chars in Hh. rewrite forall_chars_append in Hh.
apply andb_true_iff in Hh as [Hx _].
unfold hostname_ok, host_chars.
rewrite forall_chars_append, Hx.
change ("." +:+ S) with (String "." S). cbn [Py.forall_chars].
change (host_char ".") with true. unfold host_chars in HS. rewrite HS.
destruct x; reflexivity.
Qed.

Lemma truthy_https (rest : string) : Py.truthy ("https://" +:+ rest) = true.
Proof. reflexivity. Qed.

Lemma url_belongs_to_origin (oh p1 S h M : string) :
hostname_ok oh = true ->
Py.startswith p1 "/" = true ->
url_path_ok p1 = true ->
(h = M /\ oh = S) \/ (exists x, h = x +:+ "." +:+ M /\ oh = x +:+ "." +:+ S) ->
rewriter.url_belongs_to_domain ("https://" +:+ oh +:+ p1) S = Ok true.
Proof.
intros Hok Hsw Hp Hcase. pose proof Hok as Hok'.
apply andb_true_iff in Hok' as [_ Hc].
unfold rewriter.url_belongs_to_domain.
rewrite (urlparse_https oh p1 Hc Hsw Hp). cbn [rbind].
rewrite (hostname_plain _ _ _ _ _ _ Hok).
destruct Hcase as [[_ ->] | (x & _ & ->)].
- now rewrite String.eqb_refl.
- rewrite endswith_append. now destruct (String.eqb _ _).
Qed.

Lemma mirror_host_back (oh S h M : string) :
(h = M /\ oh = S) \/ (exists x, h = x +:+ "." +:+ M /\ oh = x +:+ "." +:+ S) ->
rewriter.map_origin_host_to_mirror_host oh S M = h.
Proof.
intros [[-> ->] | (x & -> & ->)];
[apply map_origin_host_exact | apply map_origin_host_subdomain].
Qed.

End roundtrip.

(** ** The requests that the forward mapping leaves out *)

Section query_slip.

Lemma lstrip_length (chars s : string) :
String.length (Py.lstrip chars s) <= String.length s.
Proof.
induction s as [|c s IH]; simpl; [lia |].
destruct (Py.contains_char c chars); simpl; lia.
Qed.

Lemma lstrip_full (chars s : string) :
String.length (Py.lstrip chars s) = String.length s -> Py.lstrip chars s = s.
Proof.
destruct s as [|c s]; simpl; [reflexivity |].
destruct (Py.contains_char c chars); [| reflexivity].
pose proof (lstrip_length chars s). lia.
Qed.

Lemma length_zero (s : string) : String.length s = 0 -> s = EmptyString.
Proof. destruct s; [reflexivity | discriminate]. Qed.

(** The query up to its first slash and what [build_origin_url] puts
after it: the query itself, with a slash at its end if it has none. *)
Lemma query_rest (q : string) :
fst (Py.split1 "/" q) +:+ rest_of (snd (Py.split1 "/" q)) = q \/
fst (Py.split1 "/" q) +:+ rest_of (snd (Py.split1 "/" q)) = q +:+ "/".
Proof.
destruct (Py.split1 "/" q) as [q0 [rest |]] eqn:E; cbn [fst snd rest_of].
- left. apply split1_some in E as [-> _]. reflexivity.
- right. apply split1_none_keeps in E. now subst q0.
Qed.

(** The first segment of the path with the query glued to it. *)
Lemma glued_first_segment (path q : string) :
q <> EmptyString ->
snd (first_segment ("/" +:+ path)) = None ->
first_segment (("/" +:+ path) +:+ qsuffix q)
= (glued_segment (fst (first_segment ("/" +:+ path))) q, snd (Py.split1 "/" q)).
Proof.
intros Hq Hr. unfold first_segment, glued_segment in *.
change (Py.lstrip "/" (("/" +:+ path) +:+ qsuffix q))
with (Py.lstrip "/" (path +:+ qsuffix q)).
change (Py.lstrip "/" ("/" +:+ path)) with (Py.lstrip "/" path) in *.
destruct q as [|d q]; [now destruct Hq |].
unfold qsuffix. cbn [Py.truthy].
assert (Hglue : Py.split1 "/" ("?" +:+ String d q)
              = ("?" +:+ fst (Py.split1 "/" (String d q)),
                 snd (Py.split1 "/" (String d q)))).
{ change (Py.split1 "/" ("?" +:+ String d q))
  with (let '(a, b) := Py.split1 "/" (String d q) in (String "?" a, b)).
now destruct (Py.split1 "/" (String d q)). }
destruct (Py.lstrip "/" path) as [|c l] eqn:El.
- rewrite (lstrip_all _ _ El).
change (Py.lstrip "/" ("?" +:+ String d q)) with ("?" +:+ String d q).
rewrite Hglue. reflexivity.
- rewrite lstrip_append by (rewrite El; discriminate). rewrite El.
rewrite (split1_glued "/" (String c l) ("?" +:+ String d q) Hr), Hglue.
cbn [fst snd]. destruct (Py.split1 "/" (String c l)) as [s1 r] eqn:Es.
cbn [snd] in Hr. subst r. apply split1_none_keeps in Es. subst s1.
reflexivity.
Qed.

(** A path and its first segment, when no slash follows the segment. *)
Lemma lone_segment (path : string) :
snd (first_segment ("/" +:+ path)) = None ->
fst (first_segment ("/" +:+ path)) = Py.lstrip "/" path /\
Py.contains_char "/" (Py.lstrip "/" path) = false.
Proof.
unfold first_segment.
change (Py.lstrip "/" ("/" +:+ path)) with (Py.lstrip "/" path).
destruct (Py.split1 "/" (Py.lstrip "/" path)) as [s1 r] eqn:Es.
cbn [fst snd]. intros ->. pose proof (split1_fst_no_sep "/" (Py.lstrip "/" path)) as Hn.
rewrite Es in Hn. cbn [fst] in Hn.
apply split1_none_keeps in Es. now subst s1.
Qed.

End query_slip.

(** On every request that the amended forward mapping leaves out, the
    origin URL is not the one that the mapping states: the condition of
    the amended mapping on the query leaves out the requests of the slip
    and no other. *)
Lemma forward_query_slip (h path q S M oh : string) :
  M <> EmptyString ->
  (h = M /\ oh = S) \/ (exists x, h = x +:+ "." +:+ M /\ oh = x +:+ "." +:+ S) ->
  let p := "/" +:+ path in
  let s1 := fst (first_segment p) in
  let r := snd (first_segment p) in
  q <> EmptyString ->
  r = None ->
  url_utils.is_encoded_external_domain s1 = true \/
  url_utils.is_encoded_external_domain (glued_segment s1 q) = true ->
  url_utils.build_origin_url h (router.request_mirror_path path q) S (Some M)
  <> (if negb (Py.truthy s1) && negb (Py.truthy q) then "https://" +:+ oh +:+ "/"
      else if Py.truthy s1 && url_utils.is_encoded_external_domain s1
      then "https://" +:+ s1 +:+ rest_of r +:+ qsuffix q
      else "https://" +:+ oh +:+ p +:+ qsuffix q).
Proof.
  intros HM Hh p s1 r Hq Hr Henc.
  assert (Hoh : url_utils.origin_host_for h S (Some M) = oh).
  { destruct Hh as [[-> ->] | (x & -> & ->)];
      [apply origin_host_exact | now apply origin_host_subdomain]. }
  rewrite request_mirror_path_eq.
  rewrite (build_origin_url_cases _ _ _ _ oh)
    by (try rewrite append_assoc; auto using startswith_append).
  rewrite (glued_first_segment path q Hq Hr). fold p s1.
  destruct (lone_segment path Hr) as [Hs1 Hslash]. fold p s1 in Hs1.
  rewrite <- Hs1 in Hslash.
  pose proof (lstrip_length "/" path) as Hlen. rewrite <- Hs1 in Hlen.
  assert (Hfull : String.length s1 = String.length path -> path = s1).
  { intros E. rewrite Hs1 in E. apply lstrip_full in E. congruence. }
  rewrite Hr. cbn [rest_of]. clear Hr Hs1 Hoh Hh HM. subst p. clearbody s1. clear r.
  destruct q as [|d q]; [now destruct Hq |].
  unfold qsuffix. cbn [Py.truthy negb andb]. rewrite andb_false_r.
  unfold glued_segment in *.
  set (q0 := fst (Py.split1 "/" (String d q))) in *.
  set (rq := snd (Py.split1 "/" (String d q))) in *.
  assert (Hle : String.length (q0 +:+ rest_of rq) <= String.length (String d q) + 1).
  { destruct (query_rest (String d q)) as [E | E]; fold q0 rq in E; rewrite E;
      rewrite ?length_append; cbn [String.length]; lia. }
  clearbody q0 rq.
  assert (Hm : forall x y : string,
             match s1 +:+ "?" +:+ q0 with
             | EmptyString => x
             | String _ _ => y
             end = y) by (intros x y; now destruct s1).
  rewrite Hm. clear Hm.
  (* a URL of the origin host does not begin with a segment *)
  assert (Hne : forall t u : string,
             String.length t <= String.length u + 2 ->
             s1 +:+ t = oh +:+ ("/" +:+ path) +:+ "?" +:+ u ->
             s1 = EmptyString /\ exists t', t = String "/" t').
  { intros t u Htu E. pose proof (f_equal String.length E) as El.
    rewrite !length_append in El. cbn [String.length] in El.
    rewrite ?length_append in El. cbn [String.length] in El.
    assert (Eoh : String.length oh = 0) by lia.
    assert (Epath : String.length s1 = String.length path) by lia.
    apply length_zero in Eoh. rewrite Eoh, (Hfull Epath) in E.
    destruct s1 as [|c l]; [split; [reflexivity | eexists; exact E] |].
    injection E as Ec _. subst c. discriminate Hslash. }
  destruct (url_utils.is_encoded_external_domain (s1 +:+ "?" +:+ q0)) eqn:Eglued.
  - (* the glued segment is taken for an encoded domain *)
    destruct (Py.truthy s1 && url_utils.is_encoded_external_domain s1) eqn:E1.
    + intros E. injection E as E. rewrite !append_assoc in E.
      apply append_cancel in E. discriminate E.
    + intros E. injection E as E. rewrite !append_assoc in E.
      apply (Hne ("?" +:+ q0 +:+ rest_of rq) (String d q)) in E
        as [_ [t' E]]; [discriminate E |].
      cbn [String.append String.length] in *. lia.
  - (* the segment alone is an encoded domain *)
    destruct Henc as [Hs | Hs]; [| congruence].
    rewrite Hs. assert (Ht : Py.truthy s1 = true)
      by (destruct s1; [discriminate Hs | reflexivity]).
    rewrite Ht. cbn [andb].
    intros E. injection E as E. symmetry in E.
    apply (Hne ("/" +:+ "?" +:+ String d q) (String d q)) in E as [-> _];
      [discriminate Ht |].
    cbn [String.append String.length]. lia.
Qed.

(** Both reverse mappings put the URL together from the path, the query
    and the fragment that [urlparse] returns and leave its [params] out:
    what follows a [;] in the last path segment does not come back. *)
Lemma reverse_drops_params :
  reverse_by_router
    (url_utils.build_origin_url "mirror.com" "/docs/a;b" "source.com"
       (Some "mirror.com")) "mirror.com" "mirror.com" "source.com"
  = Ok "https://mirror.com/docs/a" /\
  reverse_by_rewrite_url (fun _ u => Ok u) ∅ "https://source.com/"
    (url_utils.build_origin_url "mirror.com" "/docs/a;b" "source.com"
       (Some "mirror.com")) "mirror.com" "mirror.com" "source.com"
  = Ok "https://mirror.com/docs/a".
Proof. split; vm_compute; reflexivity. Qed.

(** C1, as stated: refuted for [rewrite_url].  Under the media policy
    [bypass] it leaves the origin URL of a media path as it is: the path
    [/img/a.png] on [mirror.com] comes back as
    [https://source.com/img/a.png]. *)
Lemma roundtrip_as_stated_fails :
  ~ (forall urljoin cfg base,
       roundtrip_as_stated (reverse_by_rewrite_url urljoin cfg base)).
Proof.
  intros H.
  destruct (H (fun _ u => Ok u) {[ "media_policy" := PyStr "bypass" ]}
              "https://source.com/" "mirror.com" "source.com" "mirror.com"
              "/img/a.png" (or_introl eq_refl) eq_refl) as (p' & [-> | ->] & E);
    vm_compute in E; discriminate E.
Qed.

(** C1, amended: let [M] be a non-empty mirror root, [S] a source root
    and [h] a host equal to [M] or of the form [x.M], both made of host
    characters (no URL delimiter, no upper-case letter), and [p] a path
    with a leading slash (with or without a query) whose first segment is
    not an encoded domain, that has no fragment mark, tab or line break,
    no [;] in its last segment and no empty query.  Then the redirect
    mapper takes the origin URL of [(h, p)] back to [https://h] followed
    by [p] (by ["/"] when [p] has no non-empty segment), and so does
    [rewrite_url] unless the media policy is [bypass] and the path has a
    media extension; in that case [rewrite_url] returns the origin URL
    as it is.  The test for a media extension always gives an answer. *)
Theorem roundtrip
    (urljoin : string -> string -> result string) (cfg : config) (base : string)
    (sid : Z) (en : bool) (ov : config) (M S h p : string) :
  M <> EmptyString ->
  hostname_ok S = true ->
  host_chars h = true ->
  (h = M \/ exists x, h = x +:+ "." +:+ M) ->
  Py.startswith p "/" = true ->
  url_path_ok p = true ->
  url_utils.is_encoded_external_domain (fst (first_segment p)) = false ->
  let url := url_utils.build_origin_url h p S (Some M) in
  (media_bypass cfg = false \/ rewriter.is_media_url url = Ok false ->
   rewriter.rewrite_url urljoin url base h M S cfg
   = Ok ("https://" +:+ h +:+ default_path p)) /\
  (media_bypass cfg = true -> rewriter.is_media_url url = Ok true ->
   rewriter.rewrite_url urljoin url base h M S cfg = Ok url) /\
  (exists media, rewriter.is_media_url url = Ok media) /\
  router.map_origin_url_to_mirror url (mkSite sid M S en ov) h
  = Ok ("https://" +:+ h +:+ default_path p).
Proof.
  intros HM HS Hh Hcase Hsw Hp Hext url.
  destruct (origin_host_ok h S M HM HS Hh Hcase) as [Hok Hoh].
  set (oh := url_utils.origin_host_for h S (Some M)) in *.
  assert (Hurl : url = "https://" +:+ oh +:+ default_path p).
  { subst url. now apply forward_in_namespace. }
  destruct (default_path_ok p Hsw Hp) as [Hsw1 Hp1].
  rewrite Hurl. clear Hurl url.
  set (p1 := default_path p) in *. clearbody p1 oh.
  pose proof Hok as Hok'. apply andb_true_iff in Hok' as [_ Hc].
  pose proof (urlparse_https oh p1 Hc Hsw1 Hp1) as Hparse.
  split; [| split; [| split]].
  - intros Hmedia. unfold rewriter.rewrite_url.
    rewrite is_special_https, make_absolute_https. cbn [rbind].
    unfold rewriter.is_media_url in *. rewrite truthy_https in *.
    cbn [negb] in *. rewrite Hparse in *. cbn [rbind] in *.
    match goal with
    | |- context [existsb ?f ?l] => destruct (existsb f l) eqn:Em
    end.
    + destruct Hmedia as [Hb | Hb]; [| discriminate Hb].
      unfold media_bypass in Hb. rewrite Hb. cbn [andb].
      rewrite (hostname_plain _ _ _ _ _ _ Hok).
      rewrite (url_belongs_to_origin oh p1 S h M Hok Hsw1 Hp1 Hoh). cbn [rbind].
      rewrite (mirror_host_back oh S h M Hoh).
      cbn [urllib.path urllib.query urllib.fragment].
      now rewrite (add_query_fragment_split p1 Hsw1 Hp1).
    + cbn [andb].
      rewrite (hostname_plain _ _ _ _ _ _ Hok).
      rewrite (url_belongs_to_origin oh p1 S h M Hok Hsw1 Hp1 Hoh). cbn [rbind].
      rewrite (mirror_host_back oh S h M Hoh).
      cbn [urllib.path urllib.query urllib.fragment].
      now rewrite (add_query_fragment_split p1 Hsw1 Hp1).
  - intros Hb Hmedia. unfold rewriter.rewrite_url.
    rewrite is_special_https, make_absolute_https. cbn [rbind].
    rewrite Hmedia. cbn [rbind]. unfold media_bypass in Hb. now rewrite Hb.
  - unfold rewriter.is_media_url. rewrite truthy_https. cbn [negb].
    rewrite Hparse. cbn [rbind]. eauto.
  - unfold router.map_origin_url_to_mirror. rewrite Hparse. cbn [rbind].
    rewrite (hostname_plain _ _ _ _ _ _ Hok).
    cbn [default from_option id source_root mirror_root
         urllib.path urllib.query urllib.fragment].
    rewrite (add_query_fragment_split p1 Hsw1 Hp1).
    destruct Hoh as [[-> ->] | (x & -> & ->)].
    + now rewrite String.eqb_refl.
    + rewrite endswith_append, orb_true_r.
      destruct (String.eqb_spec (x +:+ "." +:+ S) S) as [E|_];
        [now apply append_neq_suffix in E |].
      now rewrite drop_last_subdomain.
Qed.

Lemma roundtrip_witness :
  rewriter.rewrite_url (fun _ u => Ok u)
    (url_utils.build_origin_url "xyz.mirror.com" "/docs/page?id=7" "source.com"
       (Some "mirror.com"))
    "https://source.com/" "xyz.mirror.com" "mirror.com" "source.com"
    {[ "media_policy" := PyStr "bypass" ]}
  = Ok "https://xyz.mirror.com/docs/page?id=7" /\
  rewriter.rewrite_url (fun _ u => Ok u)
    (url_utils.build_origin_url "xyz.mirror.com" "/img/a.png" "source.com"
       (Some "mirror.com"))
    "https://source.com/" "xyz.mirror.com" "mirror.com" "source.com"
    {[ "media_policy" := PyStr "bypass" ]}
  = Ok "https://xyz.source.com/img/a.png".
Proof.
  split.
  - refine (proj1 (roundtrip (fun _ u => Ok u) {[ "media_policy" := PyStr "bypass" ]}
              "https://source.com/" 1 true ∅ "mirror.com" "source.com"
              "xyz.mirror.com" "/docs/page?id=7" _ _ _ _ _ _ _) _).
    + discriminate.
    + reflexivity.
    + reflexivity.
    + right. exists "xyz". reflexivity.
    + reflexivity.
    + reflexivity.
    + reflexivity.
    + right. vm_compute. reflexivity.
  - refine (proj1 (proj2 (roundtrip (fun _ u => Ok u)
              {[ "media_policy" := PyStr "bypass" ]}
              "https://source.com/" 1 true ∅ "mirror.com" "source.com"
              "xyz.mirror.com" "/img/a.png" _ _ _ _ _ _ _)) _ _).
    + discriminate.
    + reflexivity.
    + reflexivity.
    + right. exists "xyz". reflexivity.
    + reflexivity.
    + reflexivity.
    + reflexivity.
    + reflexivity.
    + vm_compute. reflexivity.
Defined.

(** ** SSRF guard *)

Section ssrf.

Local Open Scope Z_scope.

Lemma in_network_32 (ip a b c d : Z) :
ipaddress.in_network ip (ipaddress.IPv4Network a b c d 32)
= (ip =? ipaddress.of_octets a b c d).
Proof. unfold ipaddress.in_network. simpl. now rewrite !Z.shiftr_0_r. Qed.

(** The three RFC 1918 blocks are private for [ipaddress]. *)
Lemma rfc1918_is_private (ip : Z) :
rfc1918 ip = true -> ipaddress.is_private ip = true.
Proof.
unfold rfc1918, ipaddress.is_private. intros H.
apply andb_true_iff. split.
- unfold ipaddress.private_networks. cbn [existsb].
apply orb_true_iff in H as [H|H]; [apply orb_true_iff in H as [H|H] |];
rewrite H; rewrite ?orb_true_r; reflexivity.
- unfold ipaddress.private_networks_exceptions. cbn [forallb].
rewrite !in_network_32.
destruct (Z.eqb_spec ip (ipaddress.of_octets 192 0 0 9)) as [->|_];
[vm_compute in H; discriminate H |].
destruct (Z.eqb_spec ip (ipaddress.of_octets 192 0 0 10)) as [->|_];
[vm_compute in H; discriminate H |].
reflexivity.
Qed.

Lemma link_local_is_private (ip : Z) :
ipaddress.is_link_local ip = true -> ipaddress.is_private ip = true.
Proof.
unfold ipaddress.is_link_local, ipaddress.is_private. intros H.
apply andb_true_iff. split.
- unfold ipaddress.private_networks. cbn [existsb].
rewrite H; rewrite ?orb_true_r; reflexivity.
- unfold ipaddress.private_networks_exceptions. cbn [forallb].
rewrite !in_network_32.
destruct (Z.eqb_spec ip (ipaddress.of_octets 192 0 0 9)) as [->|_];
[vm_compute in H; discriminate H |].
destruct (Z.eqb_spec ip (ipaddress.of_octets 192 0 0 10)) as [->|_];
[vm_compute in H; discriminate H |].
reflexivity.
Qed.

(** The verdict of the inner [try]: it blocks exactly the addresses of
the four [ipaddress] classes, and every verdict it gives is "unsafe". *)
Lemma check_resolved_spec (gethostbyname : string -> result string) (host : string) :
match security.check_resolved gethostbyname host with
| Ok (Some verdict) =>
fst verdict = false /\
exists ip_str ip, gethostbyname host = Ok ip_str /\
  ipaddress.ip_address ip_str = Ok ip /\ ip_blocked ip = true
| Ok None =>
exists ip_str ip, gethostbyname host = Ok ip_str /\
  ipaddress.ip_address ip_str = Ok ip /\ ip_blocked ip = false
| Raise e =>
gethostbyname host = Raise e \/
exists ip_str, gethostbyname host = Ok ip_str /\
  ipaddress.ip_address ip_str = Raise e
end.
Proof.
unfold security.check_resolved.
destruct (gethostbyname host) as [ip_str|e]; cbn [rbind]; [| now left].
destruct (ipaddress.ip_address ip_str) as [ip|e] eqn:Eip; cbn [rbind];
[| right; eauto].
assert (Hblock : ip_blocked ip = true ->
      false = false /\ exists ip_str0 ip0, Ok ip_str = Ok ip_str0 /\
        ipaddress.ip_address ip_str0 = Ok ip0 /\ ip_blocked ip0 = true)
by eauto 6.
unfold ip_blocked in Hblock.
destruct (ipaddress.is_loopback ip) eqn:E1; [cbn [fst]; now apply Hblock |].
destruct (ipaddress.is_private ip) eqn:E2; [cbn [fst]; now apply Hblock |].
destruct (ipaddress.is_reserved ip) eqn:E3; [cbn [fst]; now apply Hblock |].
destruct (ipaddress.is_link_local ip) eqn:E4; [cbn [fst]; now apply Hblock |].
change (ipaddress.in_network ip (ipaddress.IPv4Network 127 0 0 0 8))
with (ipaddress.is_loopback ip). rewrite E1.
assert (Hr : rfc1918 ip = false).
{ destruct (rfc1918 ip) eqn:E; [| reflexivity].
apply rfc1918_is_private in E. congruence. }
unfold rfc1918 in Hr. apply orb_false_elim in Hr as [Hr Hr3].
apply orb_false_elim in Hr as [Hr1 Hr2]. rewrite Hr1, Hr2, Hr3.
change (ipaddress.in_network ip (ipaddress.IPv4Network 169 254 0 0 16))
with (ipaddress.is_link_local ip). rewrite E4.
exists ip_str, ip. unfold ip_blocked. rewrite E1, E2, E3, E4. auto.
Qed.

End ssrf.

(** C3, as stated: refuted by a host that resolves to 203.0.113.10, an
    address of a documentation block: it is neither loopback, nor in
    10/8, 172.16/12 or 192.168/16, nor link-local, nor reserved, and the
    guard still rejects it, because [ipaddress] counts it as private. *)
Lemma ssrf_as_stated_fails : ~ ssrf_as_stated.
Proof.
  intros H. unfold ssrf_as_stated in H.
  destruct (H (fun h => Some h) "http://203.0.113.10/x") as [H1 _].
  specialize (H1 eq_refl).
  assert (Ep : urllib.urlparse "http://203.0.113.10/x"
               = Ok (urllib.mkParseResult "http" "203.0.113.10" "/x" EmptyString
                       EmptyString EmptyString))
    by (vm_compute; reflexivity).
  rewrite Ep in H1.
  destruct H1 as [H1 | H1]; [vm_compute in H1; discriminate H1 |].
  change (urllib.hostname _) with (Some "203.0.113.10") in H1.
  destruct H1 as [H1 | (ip_str & ip & E1 & E2 & E3)];
    [vm_compute in H1; discriminate H1 |].
  cbn beta in E1. injection E1 as <-.
  assert (Ei : ipaddress.ip_address "203.0.113.10" = Ok 3405803786%Z)
    by (vm_compute; reflexivity).
  rewrite Ei in E2. injection E2 as <-. vm_compute in E3. discriminate E3.
Qed.

(** The text between brackets in the host must be an IPv6 or IPvFuture
    address, or the URL does not parse. *)
Example ssrf_bracketed_host :
  security.is_safe_origin_url unused_resolver "https://[a.b]/x"
  = (false,
     "Validation error: 'a.b' does not appear to be an IPv4 or IPv6 address") /\
  security.is_safe_origin_url unused_resolver "https://[2001:db8::1]/x"
  = (true, "OK").
Proof. split; vm_compute; reflexivity. Qed.

(** C3, amended: [is_safe_origin_url] answers "unsafe" exactly when the
    URL does not parse ([urlparse] raises: brackets that do not match, or
    a bracketed host that is not an IPv6 or IPvFuture address), its
    scheme is not http or https, it has no host
    name, the host name is [localhost], [127.0.0.1] or [::1], the host
    name resolves to an address that [ipaddress] classes as loopback,
    private (the RFC 1918 blocks and the other special-purpose blocks of
    [private_networks]), reserved or link-local, or the resolver raises
    something else than [gaierror] or [ValueError]; when the name does
    not resolve the URL is accepted. *)
Theorem ssrf_decision (gethostbyname : string -> result string) (u : string) :
  fst (security.is_safe_origin_url gethostbyname u) = false <-> ssrf_blocked gethostbyname u.
Proof.
  unfold security.is_safe_origin_url, security.is_safe_origin_url_body, ssrf_blocked.
  destruct (urllib.urlparse u) as [parsed|e]; cbn [rbind]; [| now split].
  destruct (existsb (String.eqb (urllib.scheme parsed)) security.allowed_schemes);
    cbn [negb]; [| split; auto].
  destruct (urllib.hostname parsed) as [host|]; [| split; auto].
  destruct (existsb (String.eqb (Py.lower host)) security.localhost_names);
    [split; auto |].
  pose proof (check_resolved_spec gethostbyname host) as Hc.
  destruct (security.check_resolved gethostbyname host) as [[verdict|]|e].
  - destruct Hc as (Hv & ip_str & ip & Eg & Eip & Hb).
    rewrite Eg. cbn [rbind]. rewrite Eip. split; auto.
  - destruct Hc as (ip_str & ip & Eg & Eip & Hb).
    rewrite Eg. cbn [fst rbind]. rewrite Eip, Hb.
    split; [discriminate |]. intros H. decompose [or] H; discriminate.
  - destruct Hc as [Eg | (ip_str & Eg & Eip)]; rewrite Eg; cbn [rbind];
      rewrite ?Eip; destruct e; cbn [fst];
      (split; intros H; [first [discriminate H | auto] |]);
      decompose [or] H; try discriminate; try contradiction; reflexivity.
Qed.

(** ** The attribute sweep of the HTML rewriter *)

(** C4: on a page with [<base href="https://source.com/docs/">] the
    rewriter maps the [href] of the link to the mirror, but it leaves the
    [href] of the [base] element as it was and stores the mirror URL in a
    new attribute named [base]. *)
Theorem base_href_left_unchanged
    (urljoin : string -> string -> result string)
    (re_sub : string -> (html_rewriter.re_match -> result string) -> string -> result string) :
  html_rewriter.rewrite_soup urljoin re_sub "mirror.com" "mirror.com" "source.com" ∅
    "https://source.com/docs/" page_with_base
  = Ok [bs4.Tag "html" []
          [bs4.Tag "head" []
             [bs4.Tag "base" [("href", "https://source.com/docs/");
                              ("base", "https://mirror.com/docs/")] []];
           bs4.Tag "body" []
             [bs4.Tag "a" [("href", "https://mirror.com/docs/page")]
                [bs4.NavigableString "next"]]]].
Proof. vm_compute. reflexivity. Qed.

(** ** Sessions *)

Section sessions.

Lemma contains_char_append (c : ascii) (a b : string) :
Py.contains_char c (a +:+ b) = Py.contains_char c a || Py.contains_char c b.
Proof.
induction a as [|d a IH]; simpl; [reflexivity |].
now rewrite IH, orb_assoc.
Qed.

Lemma rsplit1_append (sep : ascii) (a b : string) :
Py.contains_char sep b = false ->
Py.rsplit1 sep (a +:+ String sep b) = Some (a, b).
Proof.
intros Hb. induction a as [|c a IH]; simpl.
- now rewrite (rsplit1_none sep b Hb), Ascii.eqb_refl.
- now rewrite IH.
Qed.

Lemma append_inj_length (a a' b b' : string) :
a +:+ b = a' +:+ b' -> String.length b = String.length b' -> a = a' /\ b = b'.
Proof.
revert a'. induction a as [|c a IH]; intros [|c' a'] H Hl; simpl in H.
- auto.
- apply (f_equal String.length) in H. simpl in H. rewrite length_append in H. lia.
- apply (f_equal String.length) in H. simpl in H. rewrite length_append in H. lia.
- injection H as -> H. destruct (IH a' H Hl) as [-> ->]. auto.
Qed.

Lemma forall_chars_of_list (P : ascii -> bool) (l : list ascii) :
Py.forall_chars P (string_of_list_ascii l) = forallb P l.
Proof. induction l as [|c l IH]; simpl; [reflexivity | now rewrite IH]. Qed.

Lemma length_of_list (l : list ascii) :
String.length (string_of_list_ascii l) = length l.
Proof. induction l as [|c l IH]; simpl; [reflexivity | now rewrite IH]. Qed.

Lemma hex_digit_in (d : Z) : In (hashlib.hex_digit d) hashlib.hex_chars.
Proof.
unfold hashlib.hex_digit.
destruct (nth_in_or_default (Z.to_nat d) hashlib.hex_chars "f"%char) as [H | ->];
[exact H |].
vm_compute. tauto.
Qed.

(** Every character of a digest printed in hexadecimal satisfies a
predicate that the sixteen digits satisfy. *)
Lemma hexdigest_chars (P : ascii -> bool) (s : hashlib.state) :
forallb P hashlib.hex_chars = true ->
Py.forall_chars P (hashlib.hexdigest s) = true.
Proof.
intros HP. unfold hashlib.hexdigest. rewrite forall_chars_of_list.
apply forallb_forall. intros c Hc.
apply in_flat_map in Hc as (w & _ & Hc).
unfold hashlib.hex_word in Hc. apply in_map_iff in Hc as (i & <- & _).
rewrite forallb_forall in HP. apply HP, hex_digit_in.
Qed.

Lemma hexdigest_length (s : hashlib.state) : String.length (hashlib.hexdigest s) = 64.
Proof. unfold hashlib.hexdigest. rewrite length_of_list. reflexivity. Qed.

Lemma hexdigest_no_dot (s : hashlib.state) :
Py.contains_char "." (hashlib.hexdigest s) = false.
Proof.
apply (forall_chars_not_contains (fun c => negb (Ascii.eqb c "."))).
- reflexivity.
- now apply hexdigest_chars.
Qed.

Lemma hexdigest_ascii (s : hashlib.state) :
session_manager.is_ascii (hashlib.hexdigest s) = true.
Proof. now apply hexdigest_chars. Qed.

Variable key : string.

Lemma verify_signed (t : string) :
session_manager.verify_session_id key (session_manager.sign_session_id key t) = Some t.
Proof.
unfold session_manager.verify_session_id, session_manager.verify_session_id_body,
session_manager.sign_session_id, hashlib.hmac_sha256_hexdigest.
rewrite contains_char_append. change ("." +:+ ?m) with (String "." m).
cbn [Py.contains_char]. rewrite Ascii.eqb_refl, orb_true_r. cbn [negb].
rewrite rsplit1_append by apply hexdigest_no_dot.
unfold session_manager.compare_digest.
rewrite hexdigest_ascii, String.eqb_refl. reflexivity.
Qed.

Lemma verify_some_inv (s t : string) :
session_manager.verify_session_id key s = Some t ->
s = session_manager.sign_session_id key t.
Proof.
unfold session_manager.verify_session_id, session_manager.verify_session_id_body,
session_manager.sign_session_id.
destruct (Py.contains_char "." s); cbn [negb]; [| discriminate].
destruct (Py.rsplit1 "." s) as [[sid sig]|] eqn:E; [| discriminate].
apply rsplit1_some in E. unfold session_manager.compare_digest.
destruct (_ && _); cbn [rbind]; [| discriminate].
destruct (String.eqb_spec (hashlib.hmac_sha256_hexdigest key sid) sig) as [<-|];
[| discriminate].
intros H. injection H as <-. exact E.
Qed.

End sessions.
(** C5: under a secret [key], [verify_session_id] returns a token exactly
    for the strings that minting produces, that is the token, a dot and
    the hexadecimal HMAC-SHA256 of the token; for a minted string, another
    signature of the same length makes it return [None], and so does
    another token, as long as HMAC-SHA256 gives the two tokens different
    digests; and an exception inside is turned into [None]. *)
Theorem session_mint_verify (key : string) :
  (forall s t,
      session_manager.verify_session_id key s = Some t <->
      s = session_manager.create_signed_session_cookie key t) /\
  (forall t sig,
      String.length sig = String.length (hashlib.hmac_sha256_hexdigest key t) ->
      sig <> hashlib.hmac_sha256_hexdigest key t ->
      session_manager.verify_session_id key (t +:+ "." +:+ sig) = None) /\
  (forall t t',
      hashlib.hmac_sha256_hexdigest key t' <> hashlib.hmac_sha256_hexdigest key t ->
      session_manager.verify_session_id key
        (t' +:+ "." +:+ hashlib.hmac_sha256_hexdigest key t) = None) /\
  (forall s e,
      session_manager.verify_session_id_body key s = Raise e ->
      session_manager.verify_session_id key s = None).
Proof.
  split; [| split; [| split]].
  - intros s t. split; [apply verify_some_inv | intros ->; apply verify_signed].
  - intros t sig Hlen Hne.
    destruct (session_manager.verify_session_id key (t +:+ "." +:+ sig)) as [x|] eqn:E;
      [| reflexivity].
    apply verify_some_inv in E. unfold session_manager.sign_session_id in E.
    rewrite <- !append_assoc in E.
    apply append_inj_length in E as [E1 E2].
    + apply append_inj_length in E1 as [<- _]; [| reflexivity]. now destruct Hne.
    + unfold hashlib.hmac_sha256_hexdigest in *. now rewrite hexdigest_length in *.
  - intros t t' Hne.
    destruct (session_manager.verify_session_id key
                (t' +:+ "." +:+ hashlib.hmac_sha256_hexdigest key t)) as [x|] eqn:E;
      [| reflexivity].
    apply verify_some_inv in E. unfold session_manager.sign_session_id in E.
    rewrite <- !append_assoc in E.
    apply append_inj_length in E as [E1 E2].
    + apply append_inj_length in E1 as [<- _]; [| reflexivity]. now destruct Hne.
    + unfold hashlib.hmac_sha256_hexdigest. now rewrite !hexdigest_length.
  - intros s e H. unfold session_manager.verify_session_id. now rewrite H.
Qed.

Lemma session_mint_verify_witness :
  session_manager.verify_session_id "your-secret-key-change-in-production-1234567890"
    ("abd" +:+ "." +:+
     hashlib.hmac_sha256_hexdigest "your-secret-key-change-in-production-1234567890" "abc")
  = None.
Proof.
  apply (proj1 (proj2 (proj2
           (session_mint_verify "your-secret-key-change-in-production-1234567890")))).
  vm_compute. discriminate.
Defined.

(** ** Rate limiter *)

Section limiter.

Local Open Scope Q_scope.

Lemma newer_than_spec (c x : Q) : rate_limiter.newer_than c x = true <-> c < x.
Proof.
unfold rate_limiter.newer_than. rewrite negb_true_iff.
split; intros H.
- apply Qnot_le_lt. intros Hle. apply Qle_bool_iff in Hle. congruence.
- destruct (Qle_bool x c) eqn:E; [| reflexivity].
apply Qle_bool_iff in E. apply Qle_not_lt in E. contradiction.
Qed.

Lemma in_window_spec (W : Z) (upto x : Q) :
in_window W upto x = true <-> upto - inject_Z W < x /\ x <= upto.
Proof.
unfold in_window. rewrite andb_true_iff, newer_than_spec, Qle_bool_iff. tauto.
Qed.

Lemma filter_filter_impl {A : Type} (p q : A -> bool) (l : list A) :
(forall x, p x = true -> q x = true) ->
List.filter p (List.filter q l) = List.filter p l.
Proof.
intros Hpq. induction l as [|x l IH]; simpl; [reflexivity |].
destruct (q x) eqn:Eq; simpl.
- now rewrite IH.
- destruct (p x) eqn:Ep; [| exact IH]. apply Hpq in Ep. congruence.
Qed.

Lemma filter_length_impl {A : Type} (p q : A -> bool) (l : list A) :
(forall x, p x = true -> q x = true) ->
(length (List.filter p l) <= length (List.filter q l))%nat.
Proof.
intros Hpq. induction l as [|x l IH]; simpl; [lia |].
destruct (p x) eqn:Ep.
- rewrite (Hpq x Ep). simpl. lia.
- destruct (q x); simpl; lia.
Qed.

Lemma Forall_filter_le (p : Q -> bool) (T T' : Q) (l : list Q) :
T <= T' -> Forall (fun ts => ts <= T) l -> Forall (fun ts => ts <= T') (List.filter p l).
Proof.
intros HT H. induction H as [|x l Hx Hl IH]; simpl; [constructor |].
destruct (p x); [constructor |]; auto. now apply Qle_trans with T.
Qed.

Lemma admitted_times_snoc (ip ip' : string) (answers : list (Q * string * bool))
(t : Q) (b : bool) :
admitted_times ip (answers ++ [(t, ip', b)])
= admitted_times ip answers ++ (if b && String.eqb ip' ip then [t] else []).
Proof.
unfold admitted_times. rewrite List.filter_app, List.map_app. simpl.
destruct (b && String.eqb ip' ip); reflexivity.
Qed.

Lemma log_of_insert (N W : Z) (m : gmap string (list Q)) (ip ip' : string) (l : list Q) :
log_of (rate_limiter.mk_limiter N W (<[ip := l]> m)) ip'
= if String.eqb ip ip' then l else default [] (m !! ip').
Proof.
unfold log_of. simpl.
destruct (String.eqb_spec ip ip') as [->|Hne].
- now rewrite lookup_insert_eq.
- now rewrite lookup_insert_ne.
Qed.

(** One call keeps the invariant. *)
Lemma limiter_step (N W : Z) (rl : rate_limiter.InMemoryRateLimiter)
(answers : list (Q * string * bool)) (T t : Q) (ip : string) :
limiter_inv N W rl answers T -> T <= t ->
limiter_inv N W (fst (rate_limiter.is_allowed rl t ip))
(answers ++ [(t, ip, fst (snd (rate_limiter.is_allowed rl t ip)))]) t.
Proof.
intros (HN & HW & Hinv) HT.
destruct rl as [N' W' m]. simpl in HN, HW. subst N' W'.
unfold rate_limiter.is_allowed. cbn [rate_limiter.max_requests
rate_limiter.window_seconds rate_limiter.request_log].
set (kept := List.filter (rate_limiter.newer_than (t - inject_Z W))
           (default [] (m !! ip))).
assert (Himp : forall c x, t - inject_Z W <= c ->
      rate_limiter.newer_than c x = true ->
      rate_limiter.newer_than (t - inject_Z W) x = true).
{ intros c x Hc Hx. apply newer_than_spec. apply newer_than_spec in Hx.
now apply Qle_lt_trans with c. }
assert (Hold : forall c, t - inject_Z W <= c -> T - inject_Z W <= c).
{ intros c Hc. apply Qle_trans with (t - inject_Z W); [| exact Hc].
unfold Qminus. apply Qplus_le_compat; [exact HT | apply Qle_refl]. }
destruct (N <=? Z.of_nat (length kept))%Z eqn:EN; cbn [fst snd];
(split; [reflexivity | split; [reflexivity |]]); intros ip';
destruct (Hinv ip') as (HJ & HU & HB);
rewrite admitted_times_snoc, log_of_insert;
destruct (String.eqb_spec ip ip') as [<-|Hne]; cbn [andb];
rewrite ?app_nil_r.
- (* denied, the client itself *)
split; [| split; [| exact HB]].
+ intros c Hc. rewrite (HJ c (Hold c Hc)). unfold kept, log_of. simpl.
symmetry. apply filter_filter_impl. intros x. now apply Himp.
+ now apply Forall_filter_le with T.
- (* denied, another client *)
split; [| split; [| exact HB]].
+ intros c Hc. now apply HJ, Hold.
+ eapply List.Forall_impl; [| exact HU].
intros x Hx. now apply Qle_trans with T.
- (* admitted, the client itself *)
split; [| split].
+ intros c Hc. rewrite !List.filter_app. f_equal.
rewrite (HJ c (Hold c Hc)). unfold kept, log_of. simpl.
symmetry. apply filter_filter_impl. intros x. now apply Himp.
+ apply Forall_app. split; [now apply Forall_filter_le with T |].
constructor; [apply Qle_refl | constructor].
+ intros upto. rewrite List.filter_app, length_app. simpl.
destruct (in_window W upto t) eqn:Ew; simpl; [| specialize (HB upto); lia].
apply in_window_spec in Ew as [Ew1 Ew2].
assert (Hlen : (length (List.filter (in_window W upto) (admitted_times ip answers))
                <= length kept)%nat).
{ replace kept
    with (List.filter (rate_limiter.newer_than (t - inject_Z W))
            (log_of (rate_limiter.mk_limiter N W m) ip)) by reflexivity.
  rewrite <- (HJ (t - inject_Z W)) by (now apply Hold, Qle_refl).
  apply filter_length_impl. intros x Hx.
  apply in_window_spec in Hx as [Hx _]. apply newer_than_spec.
  apply Qle_lt_trans with (upto - inject_Z W); [| exact Hx].
  unfold Qminus. apply Qplus_le_compat; [exact Ew2 | apply Qle_refl]. }
apply Z.leb_gt in EN. lia.
- (* admitted, another client *)
split; [| split; [| exact HB]].
+ intros c Hc. now apply HJ, Hold.
+ eapply List.Forall_impl; [| exact HU].
intros x Hx. now apply Qle_trans with T.
Qed.

Lemma limiter_inv_init (N W : Z) (T : Q) : limiter_inv N W (rate_limiter.init N W) [] T.
Proof.
split; [reflexivity | split; [reflexivity |]]. intros ip.
unfold log_of. simpl. rewrite lookup_empty. simpl.
split; [reflexivity | split; [constructor | intros _; lia]].
Qed.

(** A run keeps the invariant, up to a time that is the time of one of
its calls or the time it started from. *)
Lemma run_calls_inv (N W : Z) (calls : list (Q * string)) :
forall rl answers T,
limiter_inv N W rl answers T ->
Forall (fun c => T <= fst c) calls ->
clock_ordered calls ->
exists T',
limiter_inv N W (fst (run_calls rl calls)) (answers ++ snd (run_calls rl calls)) T' /\
forall u, T <= u -> Forall (fun c => fst c <= u) calls -> T' <= u.
Proof.
induction calls as [|[t ip] calls IH]; intros rl answers T Hinv HT Hord.
- exists T. simpl. rewrite app_nil_r. auto.
- simpl in Hord. destruct Hord as [Hfirst Hord].
apply Forall_cons_iff in HT as [HTt HT]. simpl in HTt.
pose proof (limiter_step N W rl answers T t ip Hinv HTt) as Hstep.
simpl. destruct (rate_limiter.is_allowed rl t ip) as [rl' answer].
simpl in Hstep.
destruct (IH rl' _ t Hstep Hfirst Hord) as (T' & Hinv' & Hle).
destruct (run_calls rl' calls) as [rl'' answers'']. simpl in *.
exists T'. split.
+ now rewrite <- app_assoc in Hinv'.
+ intros u _ Hu. apply Forall_cons_iff in Hu as [Hut Hu]. now apply Hle.
Qed.

Lemma py_min_in (first : Q) (rest : list Q) :
In (rate_limiter.py_min first rest) (first :: rest).
Proof.
revert first. induction rest as [|x rest IH]; intros first; simpl; [auto |].
destruct (IH (if Qle_bool first x then first else x)) as [H | H].
- destruct (Qle_bool first x); rewrite <- H; auto.
- auto.
Qed.

Lemma max0_int_floor (x : Q) :
Z.max 0 (rate_limiter.py_int x) = Z.max 0 (Qfloor x).
Proof.
destruct x as [n d]. unfold rate_limiter.py_int, Qfloor. simpl.
destruct (Z_le_gt_dec 0 n) as [Hn | Hn].
- now rewrite Z.quot_div_nonneg by lia.
- assert (H1 : (n / Z.pos d < 0)%Z) by (apply Z.div_lt_upper_bound; lia).
assert (H2 : (0 <= Z.quot (- n) (Z.pos d))%Z) by (apply Z.quot_pos; lia).
rewrite Z.quot_opp_l in H2 by lia. lia.
Qed.

Lemma max0_int_mono (x y : Q) :
x <= y -> (Z.max 0 (rate_limiter.py_int x) <= Z.max 0 (rate_limiter.py_int y))%Z.
Proof.
intros H. rewrite !max0_int_floor. apply Qfloor_resp_le in H. lia.
Qed.

(** [get_retry_after] on a state whose remembered times are not later
than [T]: within the window, and not growing with the clock. *)
Lemma retry_after_range (rl : rate_limiter.InMemoryRateLimiter) (ip : string)
(T t' t'' : Q) :
(0 <= rate_limiter.window_seconds rl)%Z ->
Forall (fun ts => ts <= T) (log_of rl ip) ->
T <= t' -> t' <= t'' ->
(0 <= rate_limiter.get_retry_after rl t' ip <= rate_limiter.window_seconds rl)%Z /\
(rate_limiter.get_retry_after rl t'' ip <= rate_limiter.get_retry_after rl t' ip)%Z.
Proof.
intros HW HU HT Ht. unfold rate_limiter.get_retry_after. unfold log_of in HU.
destruct (default [] (rate_limiter.request_log rl !! ip)) as [|first rest];
[lia |].
set (W := rate_limiter.window_seconds rl) in *.
set (oldest := rate_limiter.py_min first rest).
assert (Hold : oldest <= T).
{ rewrite Forall_forall in HU. apply HU. apply list_elem_of_In, py_min_in. }
assert (HWW : Z.max 0 (rate_limiter.py_int (inject_Z W)) = W).
{ unfold rate_limiter.py_int. simpl. rewrite Z.quot_1_r. lia. }
split; [split |].
- lia.
- rewrite <- HWW at 2. apply max0_int_mono.
assert (H : oldest <= t') by (now apply Qle_trans with T). lra.
- apply max0_int_mono. lra.
Qed.

End limiter.

Lemma is_allowed_cases (rl : rate_limiter.InMemoryRateLimiter) (now : Q) (ip : string) :
  let N := rate_limiter.max_requests rl in
  let W := rate_limiter.window_seconds rl in
  let kept := List.filter (rate_limiter.newer_than (now - inject_Z W)%Q) (log_of rl ip) in
  if (N <=? Z.of_nat (length kept))%Z then
    rate_limiter.is_allowed rl now ip
    = (rate_limiter.mk_limiter N W (<[ip := kept]> (rate_limiter.request_log rl)),
       (false, 0%Z))
  else
    rate_limiter.is_allowed rl now ip
    = (rate_limiter.mk_limiter N W
         (<[ip := kept ++ [now]]> (rate_limiter.request_log rl)),
       (true, (N - Z.of_nat (length (kept ++ [now])))%Z)).
Proof.
  cbv zeta. unfold rate_limiter.is_allowed, log_of.
  destruct (_ <=? _)%Z; [reflexivity |].
  rewrite length_app, Nat2Z.inj_add. reflexivity.
Qed.

(** C6: take any sequence of [is_allowed] calls on a fresh limiter of
    [N] requests per [W >= 0] seconds, made while the clock does not go
    back.  Then (1) for every client and every instant, at most [N] of
    its calls were admitted in the [W] seconds up to that instant; (2) a
    further call that finds [N] or more of the client's times in its
    window answers [(false, 0)] and records nothing, and otherwise
    appends the current time and answers [true] with [N] minus the new
    size of the list; (3) from then on [get_retry_after] lies between
    [0] and [W] and does not grow as the clock advances. *)
Theorem rate_limiter_admission (N W : Z) (calls : list (Q * string)) (ip : string) :
  clock_ordered calls ->
  (0 <= W)%Z ->
  let rl := fst (run_calls (rate_limiter.init N W) calls) in
  let answers := snd (run_calls (rate_limiter.init N W) calls) in
  (forall upto,
      (length (List.filter (in_window W upto) (admitted_times ip answers))
       <= Z.to_nat N)%nat) /\
  (forall now,
      let kept := List.filter (rate_limiter.newer_than (now - inject_Z W)%Q)
                    (log_of rl ip) in
      if (N <=? Z.of_nat (length kept))%Z then
        rate_limiter.is_allowed rl now ip
        = (rate_limiter.mk_limiter N W (<[ip := kept]> (rate_limiter.request_log rl)),
           (false, 0%Z))
      else
        rate_limiter.is_allowed rl now ip
        = (rate_limiter.mk_limiter N W
             (<[ip := kept ++ [now]]> (rate_limiter.request_log rl)),
           (true, (N - Z.of_nat (length (kept ++ [now])))%Z))) /\
  (forall t' t'',
      Forall (fun c => (fst c <= t')%Q) calls -> (t' <= t'')%Q ->
      (0 <= rate_limiter.get_retry_after rl t' ip <= W)%Z /\
      (rate_limiter.get_retry_after rl t'' ip <= rate_limiter.get_retry_after rl t' ip)%Z).
Proof.
  intros Hord HW rl answers.
  assert (Hrun : forall T, Forall (fun c => (T <= fst c)%Q) calls ->
            exists T', limiter_inv N W rl answers T' /\
              forall u, (T <= u)%Q -> Forall (fun c => (fst c <= u)%Q) calls -> (T' <= u)%Q).
  { intros T HT.
    exact (run_calls_inv N W calls (rate_limiter.init N W) [] T
             (limiter_inv_init N W T) HT Hord). }
  assert (Hfirst : exists T, Forall (fun c => (T <= fst c)%Q) calls /\
            forall u, Forall (fun c => (fst c <= u)%Q) calls -> calls <> [] -> (T <= u)%Q).
  { destruct calls as [|[t0 ip0] calls'].
    - exists 0%Q. split; [constructor | intros u _ H; now destruct H].
    - exists t0. simpl in Hord. destruct Hord as [Hord _]. split.
      + constructor; [apply Qle_refl | exact Hord].
      + intros u Hu _. now apply Forall_cons_iff in Hu as [Hu _]. }
  split; [| split].
  - destruct Hfirst as (T & HT & _). destruct (Hrun T HT) as (T' & (_ & _ & Hinv) & _).
    intros upto. now destruct (Hinv ip) as (_ & _ & HB).
  - destruct Hfirst as (T & HT & _). destruct (Hrun T HT) as (T' & (HN & HWr & _) & _).
    intros now. pose proof (is_allowed_cases rl now ip) as H.
    rewrite HN, HWr in H. exact H.
  - intros t' t'' Hcalls Ht.
    destruct calls as [|c calls'] eqn:Ec.
    + subst rl. unfold rate_limiter.get_retry_after. simpl.
      rewrite lookup_empty. simpl. lia.
    + rewrite <- Ec in *. destruct Hfirst as (T & HT & HTu).
      destruct (Hrun T HT) as (T' & (HN & HWr & Hinv) & Hle).
      destruct (Hinv ip) as (_ & HU & _).
      assert (HTt : (T <= t')%Q) by (apply HTu; [exact Hcalls | now rewrite Ec]).
      rewrite <- HWr.
      apply (retry_after_range rl ip T' t' t''); auto.
      now rewrite HWr.
Qed.

Lemma rate_limiter_admission_witness :
  (length (List.filter (in_window 60 (61#1))
             (admitted_times "10.0.0.7"
                (snd (run_calls (rate_limiter.init 2 60)
                        [(0#1, "10.0.0.7"); (1#2, "10.0.0.7"); (2#1, "10.0.0.7");
                         (121#2, "10.0.0.7")]))))
   <= Z.to_nat 2)%nat.
Proof.
  refine (proj1 (rate_limiter_admission 2 60
                   [(0#1, "10.0.0.7"); (1#2, "10.0.0.7"); (2#1, "10.0.0.7");
                    (121#2, "10.0.0.7")] "10.0.0.7" _ _) (61#1)).
  - simpl. repeat split; repeat constructor; simpl; unfold Qle; simpl; lia.
  - lia.
Defined.

(** ** Cookie store *)

Section cookies.

Import cookie_manager.

Lemma lookup_assign (d : dict) (k v k' : string) :
lookup (assign d k v) k' = if String.eqb k k' then Some v else lookup d k'.
Proof.
induction d as [|[k0 v0] d IH]; simpl.
- reflexivity.
- destruct (String.eqb_spec k0 k) as [->|Hne]; simpl.
+ destruct (String.eqb k k'); reflexivity.
+ rewrite IH. destruct (String.eqb_spec k0 k') as [->|]; [| reflexivity].
destruct (String.eqb_spec k k') as [->|]; [now destruct Hne | reflexivity].
Qed.

Lemma update_snoc (d other : dict) (k v : string) :
update d (other ++ [(k, v)]) = assign (update d other) k v.
Proof. unfold update. now rewrite fold_left_app. Qed.

(** Name by name: the new map wins, and in it the last entry. *)
Lemma lookup_update (d other : dict) (k : string) :
lookup (update d other) k
= match lookup (rev other) k with
| Some v => Some v
| None => lookup d k
end.
Proof.
induction other as [|[k0 v0] other IH] using rev_ind; [reflexivity |].
rewrite update_snoc, lookup_assign, rev_app_distr. simpl.
destruct (String.eqb k0 k); [reflexivity | exact IH].
Qed.

Lemma assign_fresh (d : dict) (k v : string) :
lookup d k = None -> assign d k v = d ++ [(k, v)].
Proof.
induction d as [|[k0 v0] d IH]; simpl; [reflexivity |].
destruct (String.eqb k0 k); [discriminate |]. intros H. now rewrite IH.
Qed.

Lemma lookup_app (d e : dict) (k : string) :
lookup (d ++ e) k = match lookup d k with Some v => Some v | None => lookup e k end.
Proof.
induction d as [|[k0 v0] d IH]; simpl; [reflexivity |].
destruct (String.eqb k0 k); [reflexivity | exact IH].
Qed.

Lemma distinct_keys_assign (d : dict) (k v : string) :
distinct_keys d -> distinct_keys (assign d k v).
Proof.
induction d as [|[k0 v0] d IH]; simpl.
- auto.
- intros [Hk0 Hd]. destruct (String.eqb_spec k0 k) as [->|Hne]; simpl.
+ auto.
+ split; [| now apply IH]. rewrite lookup_assign.
destruct (String.eqb_spec k k0) as [->|]; [now destruct Hne | exact Hk0].
Qed.

Lemma update_distinct (d other : dict) :
distinct_keys other -> (forall k, lookup other k <> None -> lookup d k = None) ->
update d other = d ++ other.
Proof.
revert d. induction other as [|[k v] other IH]; intros d Hdist Hfresh; simpl.
- now rewrite app_nil_r.
- simpl in Hdist. destruct Hdist as [Hk Hdist].
change (update d ((k, v) :: other)) with (update (assign d k v) other).
rewrite assign_fresh.
2:{ apply Hfresh. simpl. now rewrite String.eqb_refl. }
rewrite IH; [now rewrite <- app_assoc | exact Hdist |].
intros k' Hk'. rewrite lookup_app, Hfresh.
+ simpl. destruct (String.eqb_spec k k') as [->|]; [contradiction | reflexivity].
+ simpl. destruct (String.eqb k k'); [discriminate | exact Hk'].
Qed.

Lemma parse_set_cookies_distinct (headers : list string) :
distinct_keys (parse_set_cookies headers).
Proof.
unfold parse_set_cookies.
assert (H : forall d, distinct_keys d -> distinct_keys (fold_left add_set_cookie headers d)).
{ induction headers as [|h headers IH]; intros d Hd; simpl; [exact Hd |].
apply IH. unfold add_set_cookie.
destruct (Py.contains_char "=" _); [| exact Hd].
destruct (Py.split1 "=" _) as [name [value|]]; [| exact Hd].
now apply distinct_keys_assign. }
now apply H.
Qed.

Lemma selected_refl (site_id : Z) (session_id origin_host : string) (c : column_text) :
selected site_id session_id origin_host (mk_row site_id session_id origin_host c) = true.
Proof. unfold selected. simpl. now rewrite Z.eqb_refl, !String.eqb_refl. Qed.

Lemma filter_map_selected (p : CookieJar -> bool) (f : CookieJar -> CookieJar)
(db : list CookieJar) :
(forall row, p (f row) = p row) ->
List.filter p (List.map f db) = List.map f (List.filter p db).
Proof.
intros Hf. induction db as [|row db IH]; simpl; [reflexivity |].
rewrite Hf. destruct (p row); simpl; now rewrite IH.
Qed.

Lemma get_cookies_of_row (row : CookieJar) :
(if negb (column_truthy (cookie_data row)) then Ok []
else match json_loads (cookie_data row) with
  | Ok d => Ok d
  | Raise _ => Ok []
  end) = Ok (existing_cookies row).
Proof.
unfold existing_cookies.
destruct (column_truthy (cookie_data row)); simpl; [| reflexivity].
destruct (json_loads (cookie_data row)); reflexivity.
Qed.

End cookies.

Lemma split1_append_sep (sep : ascii) (a b : string) :
  Py.contains_char sep a = false ->
  Py.split1 sep (a +:+ String sep b) = (a, Some b).
Proof.
  induction a as [|c a IH]; simpl; intros H.
  - now rewrite Ascii.eqb_refl.
  - apply orb_false_elim in H as [Hc Ha]. now rewrite Hc, (IH Ha).
Qed.

Section store.

Variables (site_id : Z) (session_id origin_host : string).

Lemma get_cookies_cases (db : list cookie_manager.CookieJar) :
cookie_manager.get_cookies db site_id session_id origin_host
= match List.filter (cookie_manager.selected site_id session_id origin_host) db with
| [] => Ok []
| [row] => Ok (cookie_manager.existing_cookies row)
| _ => Raise (OtherError "MultipleResultsFound")
end.
Proof.
unfold cookie_manager.get_cookies.
destruct (List.filter _ db) as [|row [|row' rest]]; cbn; try reflexivity.
apply get_cookies_of_row.
Qed.

Lemma store_cookies_noop (db : list cookie_manager.CookieJar) (headers : list string) :
cookie_manager.parse_set_cookies headers = [] ->
cookie_manager.store_cookies db site_id session_id origin_host headers = Ok db.
Proof.
intros H. unfold cookie_manager.store_cookies. rewrite H. now destruct headers.
Qed.

Lemma store_cookies_cases (db : list cookie_manager.CookieJar) (headers : list string) :
let cookies := cookie_manager.parse_set_cookies headers in
cookies <> [] ->
cookie_manager.store_cookies db site_id session_id origin_host headers
= match List.filter (cookie_manager.selected site_id session_id origin_host) db with
| [] =>
  Ok (db ++ [cookie_manager.mk_row site_id session_id origin_host
               (cookie_manager.Dumped cookies)])
| [_] =>
  Ok (List.map
        (fun row =>
           if cookie_manager.selected site_id session_id origin_host row then
             cookie_manager.mk_row (cookie_manager.row_site_id row)
               (cookie_manager.row_session_id row)
               (cookie_manager.row_origin_host row)
               (cookie_manager.Dumped
                  (cookie_manager.update (cookie_manager.existing_cookies row) cookies))
           else row) db)
| _ => Raise (OtherError "MultipleResultsFound")
end.
Proof.
intros cookies Hne. unfold cookie_manager.store_cookies. fold cookies.
destruct headers as [|h headers']; [now destruct Hne |].
destruct cookies as [|kv cookies']; [now destruct Hne |].
destruct (List.filter _ db) as [|row [|row' rest]]; reflexivity.
Qed.

End store.

(** C7: on a table with at most one row for the triple, storing an empty
    list of headers changes nothing; storing [headers] succeeds and the
    map read back afterwards is the map read before, updated with the
    map parsed from the headers; in an update the new map wins name by
    name, its last entry first; what follows the first [;] of a header
    is ignored; and after [store ["a=1"]] then [store ["a=2"; "b=3"]]
    on an empty table the map read back is [{a: "2", b: "3"}]. *)
Theorem cookie_store_merge
    (db : list cookie_manager.CookieJar) (site_id : Z)
    (session_id origin_host : string) (headers : list string) :
  (length (List.filter (cookie_manager.selected site_id session_id origin_host) db)
   <= 1)%nat ->
  cookie_manager.store_cookies db site_id session_id origin_host [] = Ok db /\
  (exists before db',
      cookie_manager.get_cookies db site_id session_id origin_host = Ok before /\
      cookie_manager.store_cookies db site_id session_id origin_host headers = Ok db' /\
      cookie_manager.get_cookies db' site_id session_id origin_host
      = Ok (cookie_manager.update before (cookie_manager.parse_set_cookies headers)) /\
      (length (List.filter (cookie_manager.selected site_id session_id origin_host) db')
       <= 1)%nat) /\
  (forall d other k,
      cookie_manager.lookup (cookie_manager.update d other) k
      = match cookie_manager.lookup (rev other) k with
        | Some v => Some v
        | None => cookie_manager.lookup d k
        end) /\
  (forall cookies pair attributes,
      Py.contains_char ";" pair = false ->
      cookie_manager.add_set_cookie cookies (pair +:+ ";" +:+ attributes)
      = cookie_manager.add_set_cookie cookies pair) /\
  (db1 <-r cookie_manager.store_cookies [] site_id session_id origin_host ["a=1"] ;;
   db2 <-r cookie_manager.store_cookies db1 site_id session_id origin_host ["a=2"; "b=3"] ;;
   cookie_manager.get_cookies db2 site_id session_id origin_host)
  = Ok [("a", "2"); ("b", "3")].
Proof.
  intros Hone.
  set (sel := cookie_manager.selected site_id session_id origin_host) in *.
  split; [reflexivity | split; [| split; [| split]]].
  - set (cookies := cookie_manager.parse_set_cookies headers).
    assert (Hdist : distinct_keys cookies) by apply parse_set_cookies_distinct.
    destruct cookies as [|kv cookies'] eqn:Ec.
    + (* nothing to store *)
      rewrite (store_cookies_noop _ _ _ db headers Ec), get_cookies_cases.
      fold sel. destruct (List.filter sel db) as [|row [|row' rest]] eqn:Ef;
        [| | simpl in Hone; lia];
        (eexists _, db; split; [reflexivity | split; [reflexivity |]];
         rewrite get_cookies_cases; fold sel; rewrite Ef;
         split; [reflexivity | simpl; lia]).
    + rewrite <- Ec in *.
      rewrite store_cookies_cases by (fold cookies; rewrite Ec; discriminate).
      fold cookies. rewrite (get_cookies_cases _ _ _ db). fold sel.
      destruct (List.filter sel db) as [|row [|row' rest]] eqn:Ef;
        [| | simpl in Hone; lia].
      * eexists _, _. split; [reflexivity | split; [reflexivity |]].
        rewrite get_cookies_cases. fold sel.
        rewrite List.filter_app, Ef. simpl. unfold sel.
        rewrite selected_refl. simpl.
        rewrite update_distinct by (auto; intros; reflexivity).
        split; [reflexivity | lia].
      * eexists _, _. split; [reflexivity | split; [reflexivity |]].
        rewrite get_cookies_cases. fold sel.
        rewrite filter_map_selected by (intros r; now destruct (sel r) eqn:Er).
        rewrite Ef. simpl.
        assert (Hrow : sel row = true).
        { assert (Hin : In row (List.filter sel db)) by (rewrite Ef; now left).
          now apply List.filter_In in Hin. }
        rewrite Hrow. split; [reflexivity | lia].
  - apply lookup_update.
  - intros cookies pair attributes Hpair. unfold cookie_manager.add_set_cookie.
    change (";" +:+ attributes) with (String ";" attributes).
    now rewrite (split1_append_sep ";" pair attributes Hpair), (split1_none ";" pair Hpair).
  - rewrite store_cookies_cases by discriminate. cbn [List.filter rbind app].
    rewrite store_cookies_cases by discriminate. cbn [List.filter].
    rewrite selected_refl. cbn [rbind List.map]. rewrite selected_refl.
    rewrite get_cookies_cases. cbn [List.filter cookie_manager.row_site_id
      cookie_manager.row_session_id cookie_manager.row_origin_host].
    rewrite selected_refl. reflexivity.
Qed.

Lemma cookie_store_merge_witness :
  exists before db',
    cookie_manager.get_cookies
      [cookie_manager.mk_row 1 "s1" "source.com" (cookie_manager.Dumped [("a", "1")])]
      1 "s1" "source.com" = Ok before /\
    cookie_manager.store_cookies
      [cookie_manager.mk_row 1 "s1" "source.com" (cookie_manager.Dumped [("a", "1")])]
      1 "s1" "source.com" ["a=2; Path=/"; "b=3; HttpOnly"] = Ok db' /\
    cookie_manager.get_cookies db' 1 "s1" "source.com"
    = Ok (cookie_manager.update before
            (cookie_manager.parse_set_cookies ["a=2; Path=/"; "b=3; HttpOnly"])) /\
    (length (List.filter (cookie_manager.selected 1 "s1" "source.com") db') <= 1)%nat.
Proof.
  refine (proj1 (proj2 (cookie_store_merge
            [cookie_manager.mk_row 1 "s1" "source.com" (cookie_manager.Dumped [("a", "1")])]
            1 "s1" "source.com" ["a=2; Path=/"; "b=3; HttpOnly"] _))).
  simpl. lia.
Defined.

Example cookies_t1 :
  (db1 <-r cookie_manager.store_cookies [] 1 "s" "source.com" ["a=1"] ;;
   db2 <-r cookie_manager.store_cookies db1 1 "s" "source.com" ["a=2; Path=/"; " b = 3 ;Secure"] ;;
   cookie_manager.get_cookies db2 1 "s" "source.com")
  = Ok [("a", "2"); ("b", "3")].
Proof. vm_compute. reflexivity. Qed.

Example rl_t1 :
  snd (run_calls (rate_limiter.init 2 60) [(0%Q, "a"); (1%Q, "a"); (2%Q, "a"); (61#1, "a")])
  = [(0%Q, "a", true); (1%Q, "a", true); (2%Q, "a", false); (61#1, "a", true)].
Proof. vm_compute. reflexivity. Qed.
Example rl_t2 :
  let rl := fst (run_calls (rate_limiter.init 2 60) [(0%Q, "a"); (1#2, "a"); (2%Q, "a")]) in
  (rate_limiter.get_retry_after rl 2%Q "a", rate_limiter.get_retry_after rl (121#2) "a",
   rate_limiter.get_retry_after rl (70#1) "a") = (58%Z, 0%Z, 0%Z).
Proof. vm_compute. reflexivity. Qed.

Example sha_t1 : hashlib.hexdigest (hashlib.sha256 (hashlib.encode_utf8 "abc")) = "ba7816bf8f01cfea414140de5dae2223b00361a396177a9cb410ff61f20015ad".
Proof. vm_compute. reflexivity. Qed.
Example hmac_t1 : hashlib.hmac_sha256_hexdigest "your-secret-key-change-in-production-1234567890" "abc" = "afc3b51d1c8a158cef85f40aa524b8843eb58f3ee4b4a16683e84840f73eb00b".
Proof. vm_compute. reflexivity. Qed.
Example hmac_t2 : hashlib.hmac_sha256_hexdigest "your-secret-key-change-in-production-1234567890" "xxxxxxxxxxxxxxxxxxxxxxxxxxxxxxxxxxxxxxxxxxxxxxxxxxxxxxxxxxxxxxxxxxxxxxxxxxxxxxxxxxxxxxxxxxxxxxxxxxxx" = "a6d61501083e7b73092b72220b292a99118109bbbb5978a415832d07bab9d39d".
Proof. vm_compute. reflexivity. Qed.
Example hmac_t3 : hashlib.hmac_sha256_hexdigest "kkkkkkkkkkkkkkkkkkkkkkkkkkkkkkkkkkkkkkkkkkkkkkkkkkkkkkkkkkkkkkkkkkkkkk" "abc" = "3aee79d2a06f8dc1dd8be8883f48f459ebfcda24aca8133cb0dd1c3a71d280d2".
Proof. vm_compute. reflexivity. Qed.
Example hmac_t4 : hashlib.hmac_sha256_hexdigest (String "k" (String "233" EmptyString)) (String "a" (String "233" EmptyString)) = "0e8265a4d01a88e017517254e04cb3f3191b3d590ab031d5ad132ec970be3a84".
Proof. vm_compute. reflexivity. Qed.

(** ** The clean pass *)

Section clean.

Lemma node_ind' (P : bs4.node -> Prop) :
(forall s, P (bs4.NavigableString s)) ->
(forall name attrs contents, Forall P contents -> P (bs4.Tag name attrs contents)) ->
forall n, P n.
Proof.
intros Hs Ht. fix IH 1. intros [s | name attrs contents].
- apply Hs.
- apply Ht. induction contents as [|c contents IHc]; constructor.
+ apply IH.
+ exact IHc.
Qed.

Lemma forallb_Forall {A : Type} (p : A -> bool) (l : list A) :
forallb p l = true <-> Forall (fun x => p x = true) l.
Proof.
induction l as [|x l IH]; simpl.
- split; [constructor | reflexivity].
- rewrite andb_true_iff, IH. split.
+ intros [? ?]. now constructor.
+ intros H. apply Forall_cons_iff in H. exact H.
Qed.

Variable listed : string -> list (string * string) -> bool.
Variable doomed : string -> list (string * string) -> list bs4.node -> bool.

Lemma prune_node_tag (name : string) (attrs : list (string * string))
(contents : list bs4.node) :
bs4.prune_node listed doomed (bs4.Tag name attrs contents)
= if removal listed doomed name attrs contents then
  if existsb (bs4.any_listed listed) contents
  then Raise (OtherError "'NoneType' object has no attribute 'get'")
  else Ok None
else
  contents' <-r bs4.prune listed doomed contents ;;
  Ok (Some (bs4.Tag name attrs contents')).
Proof.
unfold removal. simpl.
destruct (listed name attrs && doomed name attrs contents); reflexivity.
Qed.

Lemma prune_cons (c : bs4.node) (l : bs4.soup) :
bs4.prune listed doomed (c :: l)
= (c' <-r bs4.prune_node listed doomed c ;;
 l'' <-r bs4.prune listed doomed l ;;
 Ok (match c' with Some k => k :: l'' | None => l'' end)).
Proof. reflexivity. Qed.

(** What holds of every node that the loop keeps holds of the document
it leaves. *)
Lemma prune_Forall (Q : bs4.node -> Prop) (t t' : bs4.soup) :
Forall (fun n => forall k, bs4.prune_node listed doomed n = Ok (Some k) -> Q k) t ->
bs4.prune listed doomed t = Ok t' -> Forall Q t'.
Proof.
intros H. revert t'. induction H as [|n t Hn Ht IH]; intros t' E.
- injection E as <-. constructor.
- rewrite prune_cons in E.
destruct (bs4.prune_node listed doomed n) as [[k|]|e]; cbn [rbind] in E;
  try discriminate;
  destruct (bs4.prune listed doomed t) as [l''|e]; cbn [rbind] in E;
  try discriminate; injection E as <-.
+ constructor; [now apply Hn | now apply IH].
+ now apply IH.
Qed.

(** The raw text of a script is left as it is. *)
Lemma prune_script_text (name : string) (attrs : list (string * string))
(contents contents' : list bs4.node) :
script_is_text (bs4.Tag name attrs contents) = true ->
bs4.prune listed doomed contents = Ok contents' ->
String.eqb name "script" = true -> contents = contents'.
Proof.
intros Hwf E Hname. simpl in Hwf. rewrite Hname in Hwf.
destruct contents as [|[s|] [|]]; try discriminate; simpl in E; congruence.
Qed.

Lemma prune_keeps_shape (t t' : bs4.soup) :
forallb script_is_text t = true ->
bs4.prune listed doomed t = Ok t' ->
forallb script_is_text t' = true.
Proof.
intros Hwf E. apply forallb_Forall. apply forallb_Forall in Hwf.
revert E. apply prune_Forall. clear t'.
induction Hwf as [|n t Hn _ IH]; constructor; [| exact IH].
clear IH. revert Hn. induction n as [s | name attrs contents IHc] using node_ind'.
- intros _ k E. now injection E as <-.
- intros Hwf k E. rewrite prune_node_tag in E.
destruct (removal listed doomed name attrs contents);
  [destruct (existsb _ contents); discriminate |].
destruct (bs4.prune listed doomed contents) as [contents'|e] eqn:Ec;
  cbn [rbind] in E; [| discriminate]. injection E as <-.
pose proof (prune_script_text name attrs contents contents' Hwf Ec) as Hsame.
simpl in Hwf |- *. apply andb_true_iff in Hwf as [Hs Hc].
apply andb_true_iff. split.
+ destruct (String.eqb name "script"); [now rewrite <- Hsame | reflexivity].
+ apply forallb_Forall. apply forallb_Forall in Hc.
  revert Ec. apply prune_Forall.
  clear Hsame Hs. induction IHc as [|c contents Hc1 _ IH]; [constructor |].
  apply Forall_cons_iff in Hc as [Hcw Hc]. constructor; auto.
Qed.

(** A document in which the loop finds nothing to remove is left as it
is. *)
Lemma prune_fixed (t : bs4.soup) :
forallb (none_doomed listed doomed) t = true ->
bs4.prune listed doomed t = Ok t.
Proof.
assert (Hnode : forall n, none_doomed listed doomed n = true ->
                        bs4.prune_node listed doomed n = Ok (Some n)).
{ induction n as [s | name attrs contents IHc] using node_ind'; intros Hn.
- reflexivity.
- rewrite prune_node_tag. simpl in Hn. apply andb_true_iff in Hn as [Hr Hc].
  apply negb_true_iff in Hr. rewrite Hr.
  assert (E : bs4.prune listed doomed contents = Ok contents).
  { apply forallb_Forall in Hc. clear Hr.
    induction IHc as [|c contents Hc1 _ IH]; [reflexivity |].
    apply Forall_cons_iff in Hc as [Hcw Hc].
    rewrite prune_cons, (Hc1 Hcw), (IH Hc). reflexivity. }
  now rewrite E. }
intros H. apply forallb_Forall in H.
induction H as [|n t Hn _ IH]; [reflexivity |].
rewrite prune_cons, (Hnode n Hn), IH. reflexivity.
Qed.

(** After the loop, no tag is removed by a test [test'] that looks at the
contents of scripts only, provided that the tags that the loop keeps
did not pass [test'] before: [pre] is what is known of the document
before the loop. *)
Lemma prune_none_gen
(listed' : string -> list (string * string) -> bool)
(doomed' : string -> list (string * string) -> list bs4.node -> bool)
(pre : bs4.node -> Prop) :
script_stable (removal listed' doomed') ->
(forall name attrs contents,
  pre (bs4.Tag name attrs contents) ->
  removal listed doomed name attrs contents = false ->
  removal listed' doomed' name attrs contents = false) ->
(forall name attrs contents,
  pre (bs4.Tag name attrs contents) -> Forall pre contents) ->
forall t t',
forallb script_is_text t = true ->
Forall pre t ->
bs4.prune listed doomed t = Ok t' ->
forallb (none_doomed listed' doomed') t' = true.
Proof.
intros Hstable Hkept Hsub.
assert (Hnode : forall n, script_is_text n = true -> pre n ->
        forall k, bs4.prune_node listed doomed n = Ok (Some k) ->
                  none_doomed listed' doomed' k = true).
{ induction n as [s | name attrs contents IHc] using node_ind'; intros Hwf Hpre k E.
- now injection E as <-.
- rewrite prune_node_tag in E.
  destruct (removal listed doomed name attrs contents) eqn:Er;
    [destruct (existsb _ contents); discriminate |].
  destruct (bs4.prune listed doomed contents) as [contents'|e] eqn:Ec;
    cbn [rbind] in E; [| discriminate]. injection E as <-.
  pose proof (prune_script_text name attrs contents contents' Hwf Ec) as Hsame.
  simpl. apply andb_true_iff. split.
  + apply negb_true_iff.
    rewrite <- (Hstable name attrs contents contents' Hsame).
    now apply Hkept.
  + apply forallb_Forall. revert Ec. apply prune_Forall.
    simpl in Hwf. apply andb_true_iff in Hwf as [_ Hc].
    apply forallb_Forall in Hc. pose proof (Hsub _ _ _ Hpre) as Hp.
    clear Hsame Er Hpre.
    induction IHc as [|c contents Hc1 _ IH]; [constructor |].
    apply Forall_cons_iff in Hc as [Hcw Hc].
    apply Forall_cons_iff in Hp as [Hpc Hp].
    constructor; [now apply Hc1 | now apply IH]. }
intros t t' Hwf Hpre E. apply forallb_Forall. revert E. apply prune_Forall.
apply forallb_Forall in Hwf.
induction Hwf as [|n t Hn _ IH]; [constructor |].
apply Forall_cons_iff in Hpre as [Hp Hpre].
constructor; [now apply Hnode | now apply IH].
Qed.

Lemma prune_none_self (t t' : bs4.soup) :
script_stable (removal listed doomed) ->
forallb script_is_text t = true ->
bs4.prune listed doomed t = Ok t' ->
forallb (none_doomed listed doomed) t' = true.
Proof.
intros Hstable Hwf E.
apply (prune_none_gen listed doomed (fun _ => True) Hstable) with (t := t); auto.
- intros. now apply Forall_forall.
- now apply Forall_forall.
Qed.

Lemma prune_none_other
(listed' : string -> list (string * string) -> bool)
(doomed' : string -> list (string * string) -> list bs4.node -> bool)
(t t' : bs4.soup) :
script_stable (removal listed' doomed') ->
forallb script_is_text t = true ->
forallb (none_doomed listed' doomed') t = true ->
bs4.prune listed doomed t = Ok t' ->
forallb (none_doomed listed' doomed') t' = true.
Proof.
intros Hstable Hwf Hnone E.
apply (prune_none_gen listed' doomed'
       (fun n => none_doomed listed' doomed' n = true) Hstable) with (t := t); auto.
- intros name attrs contents Hn _. simpl in Hn.
apply andb_true_iff in Hn as [Hn _]. now apply negb_true_iff in Hn.
- intros name attrs contents Hn. simpl in Hn.
apply andb_true_iff in Hn as [_ Hn]. now apply forallb_Forall.
- now apply forallb_Forall.
Qed.

End clean.

Lemma src_is_ad_stable (name : string) :
  script_stable (removal (filter_ads.tag_with_src name) filter_ads.src_is_ad).
Proof. intros tag attrs contents contents' _. reflexivity. Qed.

Lemma inline_is_tracker_stable :
  script_stable (removal filter_ads.is_script filter_ads.inline_is_tracker).
Proof.
  intros tag attrs contents contents' H. unfold removal, filter_ads.is_script.
  destruct (String.eqb tag "script"); [now rewrite (H eq_refl) | reflexivity].
Qed.

(** What the clean pass returns holds nothing that one of its loops
    removes, and its scripts still hold raw text. *)
Lemma clean_soup_result (t t' : bs4.soup) :
  forallb script_is_text t = true ->
  filter_ads.clean_soup t = Ok t' ->
  forallb script_is_text t' = true /\
  forallb (none_doomed (filter_ads.tag_with_src "script") filter_ads.src_is_ad) t'
  = true /\
  forallb (none_doomed filter_ads.is_script filter_ads.inline_is_tracker) t' = true /\
  forallb (none_doomed (filter_ads.tag_with_src "iframe") filter_ads.src_is_ad) t'
  = true.
Proof.
  unfold filter_ads.clean_soup. intros Hwf E.
  destruct (bs4.prune (filter_ads.tag_with_src "script") filter_ads.src_is_ad t)
    as [t1|e] eqn:E1; cbn [rbind] in E; [| discriminate].
  destruct (bs4.prune filter_ads.is_script filter_ads.inline_is_tracker t1)
    as [t2|e] eqn:E2; cbn [rbind] in E; [| discriminate].
  pose proof (prune_keeps_shape _ _ _ _ Hwf E1) as Hwf1.
  pose proof (prune_keeps_shape _ _ _ _ Hwf1 E2) as Hwf2.
  pose proof (prune_keeps_shape _ _ _ _ Hwf2 E) as Hwf3.
  pose proof (prune_none_self _ _ _ _ (src_is_ad_stable "script") Hwf E1) as N11.
  pose proof (prune_none_other _ _ _ _ _ _ (src_is_ad_stable "script") Hwf1 N11 E2) as N12.
  pose proof (prune_none_other _ _ _ _ _ _ (src_is_ad_stable "script") Hwf2 N12 E) as N13.
  pose proof (prune_none_self _ _ _ _ inline_is_tracker_stable Hwf1 E2) as N22.
  pose proof (prune_none_other _ _ _ _ _ _ inline_is_tracker_stable Hwf2 N22 E) as N23.
  pose proof (prune_none_self _ _ _ _ (src_is_ad_stable "iframe") Hwf2 E) as N33.
  auto.
Qed.

(** A document that holds nothing that the loops remove is left alone. *)
Lemma clean_soup_fixed (t : bs4.soup) :
  forallb (none_doomed (filter_ads.tag_with_src "script") filter_ads.src_is_ad) t
  = true ->
  forallb (none_doomed filter_ads.is_script filter_ads.inline_is_tracker) t = true ->
  forallb (none_doomed (filter_ads.tag_with_src "iframe") filter_ads.src_is_ad) t
  = true ->
  filter_ads.clean_soup t = Ok t.
Proof.
  intros N1 N2 N3. unfold filter_ads.clean_soup.
  rewrite (prune_fixed _ _ _ N1). cbn [rbind].
  rewrite (prune_fixed _ _ _ N2). cbn [rbind].
  now rewrite (prune_fixed _ _ _ N3).
Qed.

(** The clean pass on a parsed document: what it returns, it leaves
    alone. *)
Lemma clean_soup_idempotent (t t' : bs4.soup) :
  forallb script_is_text t = true ->
  filter_ads.clean_soup t = Ok t' ->
  filter_ads.clean_soup t' = Ok t' /\ forallb script_is_text t' = true.
Proof.
  intros Hwf E.
  destruct (clean_soup_result t t' Hwf E) as (Hwf' & N1 & N2 & N3).
  split; [now apply clean_soup_fixed | exact Hwf'].
Qed.

Section joined.
Variable listed : string -> list (string * string) -> bool.
Variable doomed : string -> list (string * string) -> list bs4.node -> bool.
Hypothesis Hstable : script_stable (removal listed doomed).

Lemma none_doomed_glue (n : bs4.node) (rest : list bs4.node) :
forallb (none_doomed listed doomed) (glue_text n rest)
= none_doomed listed doomed n && forallb (none_doomed listed doomed) rest.
Proof.
destruct n as [a | name attrs contents]; [| reflexivity].
destruct rest as [| [b | name attrs contents] rest]; reflexivity.
Qed.

Lemma none_doomed_join_list (l : list bs4.node) :
Forall (fun n => script_is_text n = true ->
               none_doomed listed doomed (join_texts_node n)
               = none_doomed listed doomed n) l ->
forallb script_is_text l = true ->
forallb (none_doomed listed doomed) (join_texts l)
= forallb (none_doomed listed doomed) l.
Proof.
unfold join_texts. induction 1 as [| c l Hc _ IH]; intros Hwf; [reflexivity |].
cbn [forallb fold_right] in *. apply andb_true_iff in Hwf as [Hwc Hwl].
now rewrite none_doomed_glue, (Hc Hwc), (IH Hwl).
Qed.

(** Joining the adjacent texts of a document changes nothing for a
loop that removes tags. *)
Lemma none_doomed_join_node (n : bs4.node) :
script_is_text n = true ->
none_doomed listed doomed (join_texts_node n) = none_doomed listed doomed n.
Proof.
induction n as [s | name attrs contents IH] using node_ind'; [reflexivity |].
intros Hwf. cbn [script_is_text] in Hwf. apply andb_true_iff in Hwf as [Hscript Hwf].
cbn [join_texts_node none_doomed]. fold (join_texts contents).
rewrite (none_doomed_join_list contents IH Hwf). f_equal. f_equal.
apply Hstable. intros Hname. rewrite Hname in Hscript.
destruct contents as [| [s | ? ? ?] [| ? ?]]; try discriminate Hscript; reflexivity.
Qed.

Lemma none_doomed_join (t : bs4.soup) :
forallb script_is_text t = true ->
forallb (none_doomed listed doomed) (join_texts t)
= forallb (none_doomed listed doomed) t.
Proof.
apply none_doomed_join_list. apply List.Forall_forall.
intros n _. apply none_doomed_join_node.
Qed.

(** Two documents with raw-text scripts that are the same once their
adjacent texts are joined fare the same in the loop. *)
Lemma none_doomed_same_joined (t u : bs4.soup) :
forallb script_is_text t = true ->
forallb script_is_text u = true ->
join_texts u = join_texts t ->
forallb (none_doomed listed doomed) t = true ->
forallb (none_doomed listed doomed) u = true.
Proof.
intros Ht Hu E N.
now rewrite <- (none_doomed_join u Hu), E, (none_doomed_join t Ht).
Qed.

End joined.

(** C9: let [clean_html] return [y] on [x], and let [y] come back from
    the parser as the document it was printed from, up to the joining of
    adjacent texts, and print as [y] again (the scripts of both
    documents holding raw text).  Then [clean_html] returns [y] on [y],
    for every configuration: the loops find nothing left to remove.
    And when [remove_ads] and [remove_analytics] are both false,
    [clean_html] returns its input, whatever the parser and the printer
    do. *)
Theorem clean_idempotent
    (BeautifulSoup : string -> bs4.soup) (str_soup : bs4.soup -> string)
    (cfg : config) :
  (forall x y,
      filter_ads.clean_html BeautifulSoup str_soup x cfg = Ok y ->
      forallb script_is_text (BeautifulSoup x) = true ->
      forallb script_is_text (BeautifulSoup y) = true ->
      (forall t, filter_ads.clean_soup (BeautifulSoup x) = Ok t ->
                 join_texts (BeautifulSoup y) = join_texts t) ->
      str_soup (BeautifulSoup y) = y ->
      filter_ads.clean_html BeautifulSoup str_soup y cfg = Ok y) /\
  (pyval_truthy (dict_get cfg "remove_ads" (PyBool false)) = false ->
   pyval_truthy (dict_get cfg "remove_analytics" (PyBool false)) = false ->
   forall x, filter_ads.clean_html BeautifulSoup str_soup x cfg = Ok x).
Proof.
  split.
  - intros x y. unfold filter_ads.clean_html.
    destruct (negb _ && negb _); [auto |].
    destruct (filter_ads.clean_soup (BeautifulSoup x)) as [t|e] eqn:E;
      cbn [rbind]; [| discriminate].
    intros Hy Hx Hwf Hback Hprint. injection Hy as Hy.
    destruct (clean_soup_result _ _ Hx E) as (Ht & N1 & N2 & N3).
    specialize (Hback t eq_refl).
    rewrite (clean_soup_fixed (BeautifulSoup y)). 
    + cbn [rbind]. now rewrite Hprint.
    + exact (none_doomed_same_joined _ _ (src_is_ad_stable "script") t _ Ht Hwf Hback N1).
    + exact (none_doomed_same_joined _ _ inline_is_tracker_stable t _ Ht Hwf Hback N2).
    + exact (none_doomed_same_joined _ _ (src_is_ad_stable "iframe") t _ Ht Hwf Hback N3).
  - intros Hads Han x. unfold filter_ads.clean_html. now rewrite Hads, Han.
Qed.

(** A page with an ad script, a tracker and an ad frame: the three are
    removed, the two texts around the frame are read back as one, and
    the second pass changes nothing. *)
Lemma clean_idempotent_witness :
  filter_ads.clean_html (read_known [page_with_frame; page_without_frame]) show_soup
    (show_soup page_with_frame) {[ "remove_ads" := PyBool true ]}
  = Ok (show_soup page_without_frame) /\
  filter_ads.clean_html (read_known [page_with_frame; page_without_frame]) show_soup
    (show_soup page_without_frame) {[ "remove_ads" := PyBool true ]}
  = Ok (show_soup page_without_frame).
Proof.
  split; [vm_compute; reflexivity |].
  refine (proj1 (clean_idempotent (read_known [page_with_frame; page_without_frame])
                   show_soup {[ "remove_ads" := PyBool true ]})
            (show_soup page_with_frame) (show_soup page_without_frame) _ _ _ _ _).
  - vm_compute. reflexivity.
  - vm_compute. reflexivity.
  - vm_compute. reflexivity.
  - intros t Ht. vm_compute in Ht. injection Ht as <-. vm_compute. reflexivity.
  - vm_compute. reflexivity.
Defined.

Example clean_t1 :
  filter_ads.clean_soup
    [bs4.Tag "html" []
       [bs4.Tag "head" []
          [bs4.Tag "script" [("src", "https://www.GoogleTagManager.com/gtm.js")] [];
           bs4.Tag "script" [] [bs4.NavigableString "window.dataLayer = [];"];
           bs4.Tag "script" [] [bs4.NavigableString "console.log(1)"]];
        bs4.Tag "body" []
          [bs4.NavigableString "a";
           bs4.Tag "iframe" [("src", "//ad.doubleclick.net/x")] [bs4.Tag "p" [] []];
           bs4.NavigableString "b"]]]
  = Ok [bs4.Tag "html" []
       [bs4.Tag "head" []
          [bs4.Tag "script" [] [bs4.NavigableString "console.log(1)"]];
        bs4.Tag "body" [] [bs4.NavigableString "a"; bs4.NavigableString "b"]]].
Proof. vm_compute. reflexivity. Qed.

(* ===================================================================== *)
(** ** Redirect interception                                              *)
(* ===================================================================== *)

Section redirects.
Import router.
Variable urljoin : string -> string -> result string.

Lemma truthy_nonempty (s : string) : s <> EmptyString -> Py.truthy s = true.
Proof. destruct s; [congruence | reflexivity]. Qed.

(** The answer of the redirect branch once the location is mapped. *)
Lemma redirect_response_spec request site origin_url response location
new_session_created session_id signed_session_id
absolute_location mirror_location :
normalize_redirect_location urljoin location origin_url = Ok absolute_location ->
map_origin_url_to_mirror absolute_location site
(default (mirror_root site) (request_header (request_headers request) "host"))
= Ok mirror_location ->
redirect_response urljoin request site origin_url response location
  new_session_created session_id signed_session_id
= Ok (with_session_cookie new_session_created session_id signed_session_id
      (mk_response (upstream_status response)
         ([("Location", mirror_location)]
            ++ kept_header response "cache-control"
            ++ kept_header response "expires")
         NoContent None [])).
Proof.
intros Hn Hm. unfold redirect_response. rewrite Hn. cbn [rbind]. rewrite Hm.
cbn [rbind fold_left]. unfold kept_header.
destruct (response_header (upstream_headers response) "cache-control");
destruct (response_header (upstream_headers response) "expires"); reflexivity.
Qed.


End redirects.


(** An answer with a [Location] that the URL library does not parse is
    not answered at all: the redirect branch calls the mapping outside
    any [try], and the exception leaves [proxy_request]. *)
Lemma redirect_location_unparsed :
  router.proxy_request router.default_settings unused_urljoin unused_re_sub
    text_soup text_of_soup unused_inject
    (origin_answers (router.mk_upstream 302 [("Location", "http://[x")] EmptyString))
    (fun s => s) Py.str_int "token" (get_request "mirror.com") example_site
    "https://source.com/old" example_db
  = Raise (ValueError "Invalid IPv6 URL").
Proof. vm_compute. reflexivity. Qed.



(* ===================================================================== *)
(** ** The guard on the administration host                               *)
(* ===================================================================== *)

Section guard.
Import router.
Variable settings : Settings.

Lemma guarded_is_admin_host (host : string) :
guarded_host settings host -> is_admin_host settings host = true.
Proof.
unfold guarded_host, is_admin_host. intros [-> | [H | H]].
- rewrite String.eqb_refl. reflexivity.
- rewrite H. apply orb_true_iff. left. apply orb_true_r.
- rewrite H. apply orb_true_r.
Qed.

End guard.

(** C10 as stated does not hold: the admission check runs before the
    guard, and a client over its limit is answered 429 on a guarded host
    as on any other. *)
Lemma admin_guard_as_stated_fails : ~ admin_guard_as_stated.
Proof.
  intros H.
  destruct (H router.default_settings unused_urljoin unused_re_sub text_soup
              text_of_soup unused_resolver unused_inject unused_fetch
              (fun s => s) Py.str_int "token" (Some used_limiter) 1%Q 2%Q
              (get_request "localhost:8000") EmptyString example_db)
    as (r & Hrun & Hst).
  - right. right. reflexivity.
  - vm_compute in Hrun. injection Hrun as <-. vm_compute in Hst. discriminate.
Qed.

(** C10: a request that the admission check lets through (rate limiting
    off, no limiter, or a client under its limit) and whose Host header
    equals [ADMIN_HOST] or begins with [0.0.0.0] or [localhost] is
    answered 404 [Not found]; the database is left as it was and the
    handler makes no site lookup, no SSRF check and no request to the
    origin, whatever sites the database holds. *)
Theorem admin_host_guard settings urljoin re_sub BeautifulSoup str_soup
    gethostbyname inject_ads_and_trackers fetch decode_utf8 megabytes
    random_token rate_limiter now later request path db :
  guarded_host settings
    (default EmptyString
       (router.request_header (router.request_headers request) "host")) ->
  admitted settings rate_limiter now
    (default "unknown" (router.client_host request)) ->
  router.outcome
    (router.proxy_handler settings urljoin re_sub BeautifulSoup str_soup
       gethostbyname inject_ads_and_trackers fetch decode_utf8 megabytes
       random_token rate_limiter now later request path db)
  = Ok (db, router.mk_response 404 [] (router.Text "Not found") None []) /\
  forallb is_rate_limit_check
    (router.steps
       (router.proxy_handler settings urljoin re_sub BeautifulSoup str_soup
          gethostbyname inject_ads_and_trackers fetch decode_utf8 megabytes
          random_token rate_limiter now later request path db))
  = true.
Proof.
  intros Hhost Hadm. apply guarded_is_admin_host in Hhost.
  unfold router.proxy_handler.
  destruct rate_limiter as [limiter |].
  - destruct (router.ENABLE_RATE_LIMITING settings) eqn:Hen.
    + destruct Hadm as [Hoff | Hal]; [congruence |].
      destruct (rate_limiter.is_allowed limiter now
                  (default "unknown" (router.client_host request)))
        as [limiter' [is_allowed remaining]].
      cbn in Hal. subst is_allowed. rewrite Hhost. split; reflexivity.
    + rewrite Hhost. split; reflexivity.
  - rewrite Hhost. split; reflexivity.
Qed.

(** A request to [localhost:8000], from a client that the limiter
    admits, when an enabled site is mirrored on [localhost]. *)
Lemma admin_host_guard_witness :
  router.find_site_by_host "localhost:8000" local_db = Some local_site /\
  router.outcome
    (router.proxy_handler router.default_settings unused_urljoin unused_re_sub
       text_soup text_of_soup unused_resolver unused_inject unused_fetch
       (fun s => s) Py.str_int "token" (Some (rate_limiter.init 60 60)) 0%Q 0%Q
       (get_request "localhost:8000") "index.html" local_db)
  = Ok (local_db, router.mk_response 404 [] (router.Text "Not found") None []).
Proof.
  split; [reflexivity |].
  refine (proj1 (admin_host_guard router.default_settings unused_urljoin
                   unused_re_sub text_soup text_of_soup unused_resolver
                   unused_inject unused_fetch (fun s => s) Py.str_int "token"
                   (Some (rate_limiter.init 60 60)) 0%Q 0%Q
                   (get_request "localhost:8000") "index.html" local_db _ _)).
  - right. right. reflexivity.
  - right. vm_compute. reflexivity.
Defined.

(* ===================================================================== *)
(** * Part III: further properties of the code                            *)
(* ===================================================================== *)

(** ** Host and URL mapping *)

Section mapping.

Lemma lstrip_slash_id (s b : string) :
  Py.contains_char "/" s = false -> s <> EmptyString ->
  Py.lstrip "/" (s +:+ b) = s +:+ b.
Proof.
  intros Hc Hne. destruct s as [|d s]; [congruence |].
  simpl in Hc. apply orb_false_elim in Hc as [Hd _].
  change (String d s +:+ b) with (String d (s +:+ b)).
  apply lstrip_keep. cbn [Py.contains_char].
  now rewrite Ascii.eqb_sym, Hd.
Qed.

Lemma contains_char_nonempty (c : ascii) (s : string) :
  Py.contains_char c s = true -> s <> EmptyString.
Proof. destruct s; [discriminate | discriminate]. Qed.

Lemma slashed (path : string) :
  exists rest,
    (if negb (Py.startswith path "/") then "/" +:+ path else path)
    = String "/" rest.
Proof.
  destruct (Py.startswith path "/") eqn:E.
  - apply startswith_slash_inv in E as [rest ->]. now exists rest.
  - now exists path.
Qed.

(** The forward mapping of a path that begins with an encoded host. *)
Lemma build_origin_url_encoded (h E rest S : string) (mr : option string) :
  url_utils.is_encoded_external_domain E = true ->
  Py.contains_char "/" E = false ->
  url_utils.build_origin_url h ("/" +:+ E +:+ String "/" rest) S mr
  = "https://" +:+ E +:+ String "/" rest.
Proof.
  intros Henc Hsl.
  assert (Hne : E <> EmptyString).
  { apply (contains_char_nonempty "."). unfold url_utils.is_encoded_external_domain in Henc.
    now apply andb_true_iff in Henc as [Henc _]. }
  unfold url_utils.build_origin_url.
  rewrite (startswith_append "/" (E +:+ String "/" rest)).
  cbn [negb].
  change (Py.lstrip "/" ("/" +:+ E +:+ String "/" rest))
    with (Py.lstrip "/" (E +:+ String "/" rest)).
  rewrite (lstrip_slash_id E _ Hsl Hne).
  rewrite (split1_append_sep "/" E rest Hsl). cbn [fst snd].
  rewrite (truthy_nonempty E Hne). cbn [negb]. rewrite Henc.
  destruct (String.eqb_spec ("/" +:+ rest) "/") as [Er | _]; [| reflexivity].
  cbn in Er. injection Er as ->. reflexivity.
Qed.

End mapping.

(** X1: the two host mappings are inverse to each other on the hosts of
    the two domains: a mirror host, the root or a subdomain of it, mapped
    to its origin host and back is the same host, and so is an origin
    host mapped to the mirror and back. *)
Theorem host_mapping_round_trip (M S x : string) :
  rewriter.map_origin_host_to_mirror_host
    (domain_mapping.map_mirror_host_to_origin_host M M S) S M = M /\
  rewriter.map_origin_host_to_mirror_host
    (domain_mapping.map_mirror_host_to_origin_host (x +:+ "." +:+ M) M S) S M
  = x +:+ "." +:+ M /\
  domain_mapping.map_mirror_host_to_origin_host
    (rewriter.map_origin_host_to_mirror_host S S M) M S = S /\
  domain_mapping.map_mirror_host_to_origin_host
    (rewriter.map_origin_host_to_mirror_host (x +:+ "." +:+ S) S M) M S
  = x +:+ "." +:+ S.
Proof.
  repeat split.
  - unfold domain_mapping.map_mirror_host_to_origin_host.
    rewrite String.eqb_refl. apply map_origin_host_exact.
  - rewrite map_mirror_host_subdomain. apply map_origin_host_subdomain.
  - rewrite map_origin_host_exact.
    unfold domain_mapping.map_mirror_host_to_origin_host.
    now rewrite String.eqb_refl.
  - rewrite map_origin_host_subdomain. apply map_mirror_host_subdomain.
Qed.

(** X2: decoding undoes encoding.  For an external host that has a dot,
    no space and no slash, the mirror path that
    [encode_external_url_for_mirror] builds is mapped by
    [build_origin_url] to [https://] + host + path (the path with a
    leading slash), whatever the mirror host and the site. *)
Theorem external_encoding_round_trip (h M S E path : string) (mr : option string) :
  url_utils.is_encoded_external_domain E = true ->
  Py.contains_char "/" E = false ->
  url_utils.build_origin_url h
    (url_utils.encode_external_url_for_mirror M E path) S mr
  = "https://" +:+ E
      +:+ (if Py.startswith path "/" then path else "/" +:+ path).
Proof.
  intros Henc Hsl. unfold url_utils.encode_external_url_for_mirror.
  destruct (slashed path) as [rest Hrest].
  replace (if Py.startswith path "/" then path else "/" +:+ path)
    with (String "/" rest)
    by (rewrite <- Hrest; now destruct (Py.startswith path "/")).
  rewrite Hrest. now apply build_origin_url_encoded.
Qed.

Lemma external_encoding_round_trip_witness :
  url_utils.build_origin_url "mirror.com"
    (url_utils.encode_external_url_for_mirror "mirror.com" "cdn.example.org"
       "lib/app.js") "source.com" (Some "mirror.com")
  = "https://cdn.example.org/lib/app.js".
Proof.
  apply (external_encoding_round_trip "mirror.com" "mirror.com" "source.com"
           "cdn.example.org" "lib/app.js" (Some "mirror.com")); reflexivity.
Defined.

Section external_urls.

Lemma add_query_fragment_prefix (a p q f : string) :
  rewriter.add_query_fragment (a +:+ p) q f
  = a +:+ rewriter.add_query_fragment p q f.
Proof.
  unfold rewriter.add_query_fragment.
  destruct (Py.truthy q), (Py.truthy f); now rewrite ?append_assoc.
Qed.

Lemma path_of_slashed (p1 : string) :
  Py.startswith p1 "/" = true ->
  exists rest, fst (Py.split1 "?" p1) = String "/" rest.
Proof.
  intros H. apply startswith_slash_inv in H as [p1' ->].
  cbn [Py.split1 Ascii.eqb Bool.eqb]. destruct (Py.split1 "?" p1') as [u r].
  now exists u.
Qed.

Lemma url_outside_domain (E p1 S : string) :
  hostname_ok E = true ->
  Py.startswith p1 "/" = true ->
  url_path_ok p1 = true ->
  String.eqb E S = false ->
  Py.endswith E ("." +:+ S) = false ->
  rewriter.url_belongs_to_domain ("https://" +:+ E +:+ p1) S = Ok false.
Proof.
  intros Hok Hsw Hp Hne Hsub. pose proof Hok as Hok'.
  apply andb_true_iff in Hok' as [_ Hc].
  unfold rewriter.url_belongs_to_domain.
  rewrite (urlparse_https E p1 Hc Hsw Hp). cbn [rbind].
  rewrite (hostname_plain _ _ _ _ _ _ Hok). now rewrite Hne, Hsub.
Qed.

(** The path and the query of an encoded external URL, joined again. *)
Lemma encoded_path_joined (E p1 : string) :
  Py.startswith p1 "/" = true ->
  url_path_ok p1 = true ->
  let path := fst (Py.split1 "?" p1) in
  rewriter.add_query_fragment
    ("/" +:+ E +:+ (if negb (Py.startswith path "/") then "/" +:+ path else path))
    (snd (urllib.split_or_empty "?" p1)) EmptyString
  = "/" +:+ E +:+ p1.
Proof.
  intros Hsw Hp path. pose proof (add_query_fragment_split p1 Hsw Hp) as Hj.
  cbv zeta in Hj. fold path in Hj.
  destruct (path_of_slashed p1 Hsw) as [rest Hrest]. fold path in Hrest.
  rewrite Hrest in *. cbn [Py.truthy] in Hj.
  change (Py.startswith (String "/" rest) "/") with
    (if ascii_dec "/" "/" then String.prefix EmptyString rest else false).
  destruct (ascii_dec "/" "/") as [_ | n]; [| now destruct n].
  replace (String.prefix EmptyString rest) with true by (now destruct rest).
  cbn [negb].
  replace ("/" +:+ E +:+ String "/" rest) with (("/" +:+ E) +:+ String "/" rest)
    by (now rewrite append_assoc).
  rewrite add_query_fragment_prefix, Hj. now rewrite append_assoc.
Qed.

End external_urls.

(** X3: an external URL survives the mirror.  Let [E] be a host outside
    the source domain, made of host characters, with a dot and no space,
    and [p] a path with a leading slash that the URL library reads back
    unchanged.  The redirect mapper turns [https://E] + [p] into the path
    [/E] + [p] on the mirror host of the request, [rewrite_url] into the
    same path on the mirror root (unless external domains are not
    proxied, or the media policy is [bypass] on a media path, when it
    leaves the URL as it is), and [build_origin_url] maps that path back
    to [https://E] + [p]. *)
Theorem external_url_round_trip
    (urljoin : string -> string -> result string) (cfg : config) (base : string)
    (sid : Z) (en : bool) (ov : config) (M S mh E p : string) :
  hostname_ok E = true ->
  url_utils.is_encoded_external_domain E = true ->
  String.eqb E S = false ->
  Py.endswith E ("." +:+ S) = false ->
  Py.startswith p "/" = true ->
  url_path_ok p = true ->
  let url := "https://" +:+ E +:+ p in
  router.map_origin_url_to_mirror url (mkSite sid M S en ov) mh
  = Ok ("https://" +:+ mh +:+ "/" +:+ E +:+ p) /\
  (media_bypass cfg = false \/ rewriter.is_media_url url = Ok false ->
   rewriter.rewrite_url urljoin url base mh M S cfg
   = Ok (if pyval_truthy (dict_get cfg "proxy_external_domains" (PyBool true))
         then "https://" +:+ M +:+ "/" +:+ E +:+ p
         else url)) /\
  url_utils.build_origin_url mh ("/" +:+ E +:+ p) S (Some M) = url.
Proof.
  intros Hok Henc Hne Hsub Hsw Hp url. subst url.
  pose proof Hok as Hok'. apply andb_true_iff in Hok' as [_ Hc].
  pose proof (urlparse_https E p Hc Hsw Hp) as Hparse.
  split; [| split].
  - unfold router.map_origin_url_to_mirror. rewrite Hparse. cbn [rbind].
    rewrite (hostname_plain _ _ _ _ _ _ Hok).
    cbn [default from_option id source_root mirror_root
         urllib.path urllib.query urllib.fragment].
    rewrite Hne, Hsub. cbn [orb].
    destruct (path_of_slashed p Hsw) as [rest Hrest]. rewrite Hrest.
    cbn [Py.truthy]. rewrite <- Hrest.
    unfold url_utils.encode_external_url_for_mirror.
    now rewrite (encoded_path_joined E p Hsw Hp).
  - intros Hmedia. unfold rewriter.rewrite_url.
    rewrite is_special_https, make_absolute_https. cbn [rbind].
    assert (Hrest :
      (parsed <-r urllib.urlparse ("https://" +:+ E +:+ p) ;;
       let origin_path :=
         if Py.truthy (urllib.path parsed) then urllib.path parsed else "/" in
       let query := urllib.query parsed in
       let fragment := urllib.fragment parsed in
       match urllib.hostname parsed with
       | None => Ok ("https://" +:+ E +:+ p)
       | Some origin_host =>
           is_same_domain <-r
             rewriter.url_belongs_to_domain ("https://" +:+ E +:+ p) S ;;
           if is_same_domain then
             Ok ("https" +:+ "://"
                   +:+ rewriter.map_origin_host_to_mirror_host origin_host S M
                   +:+ rewriter.add_query_fragment origin_path query fragment)
           else
             if negb (pyval_truthy
                        (dict_get cfg "proxy_external_domains" (PyBool true)))
             then Ok ("https://" +:+ E +:+ p)
             else
               Ok ("https" +:+ "://" +:+ M
                     +:+ rewriter.add_query_fragment
                           (rewriter.encode_external_url_path origin_host origin_path)
                           query fragment)
       end)
      = Ok (if pyval_truthy (dict_get cfg "proxy_external_domains" (PyBool true))
            then "https://" +:+ M +:+ "/" +:+ E +:+ p
            else "https://" +:+ E +:+ p)).
    { rewrite Hparse. cbn [rbind]. rewrite (hostname_plain _ _ _ _ _ _ Hok).
      rewrite (url_outside_domain E p S Hok Hsw Hp Hne Hsub). cbn [rbind].
      destruct (pyval_truthy _); [| reflexivity]. cbn [negb].
      cbn [urllib.path urllib.query urllib.fragment].
      destruct (path_of_slashed p Hsw) as [rest Hrest]. rewrite Hrest.
      cbn [Py.truthy]. rewrite <- Hrest.
      unfold rewriter.encode_external_url_path.
      now rewrite (encoded_path_joined E p Hsw Hp). }
    unfold rewriter.is_media_url in *. rewrite truthy_https in *.
    cbn [negb] in *. rewrite Hparse in Hmedia |- * at 1. cbn [rbind] in *.
    match goal with
    | |- context [existsb ?f ?l] => destruct (existsb f l) eqn:Em
    end.
    + destruct Hmedia as [Hb | Hb]; [| discriminate Hb].
      unfold media_bypass in Hb. rewrite Hb. cbn [andb]. exact Hrest.
    + cbn [andb]. exact Hrest.
  - destruct (startswith_slash_inv p Hsw) as [rest ->].
    apply build_origin_url_encoded; [exact Henc |].
    now apply host_chars_no.
Qed.

Lemma external_url_round_trip_witness :
  router.map_origin_url_to_mirror "https://cdn.example.org/lib/app.js?v=3"
    example_site "xyz.mirror.com"
  = Ok "https://xyz.mirror.com/cdn.example.org/lib/app.js?v=3" /\
  url_utils.build_origin_url "xyz.mirror.com" "/cdn.example.org/lib/app.js?v=3"
    "source.com" (Some "mirror.com")
  = "https://cdn.example.org/lib/app.js?v=3".
Proof.
  destruct (external_url_round_trip unused_urljoin ∅ "https://source.com/" 1 true ∅
              "mirror.com" "source.com" "xyz.mirror.com" "cdn.example.org"
              "/lib/app.js?v=3")
    as (H1 & _ & H3); try reflexivity.
  split; [exact H1 | exact H3].
Defined.

(** ** The rate limiter: reset, cleanup and retry *)

Section limiter_more.

Local Open Scope Q_scope.

Lemma filter_length_le {A : Type} (p : A -> bool) (l : list A) :
  (length (List.filter p l) <= length l)%nat.
Proof.
  induction l as [|x l IH]; simpl; [lia |]. destruct (p x); simpl; lia.
Qed.

Lemma filter_length_lt {A : Type} (p : A -> bool) (l : list A) (x : A) :
  In x l -> p x = false -> (length (List.filter p l) < length l)%nat.
Proof.
  induction l as [|y l IH]; simpl; intros Hin Hx; [contradiction |].
  destruct Hin as [-> | Hin].
  - rewrite Hx. pose proof (filter_length_le p l). lia.
  - specialize (IH Hin Hx). destruct (p y); simpl; lia.
Qed.

(** What the limiter remembers of a client after a call. *)
Lemma log_after_call (rl : rate_limiter.InMemoryRateLimiter) (now : Q)
    (ip ip' : string) :
  let kept := List.filter
                (rate_limiter.newer_than
                   (now - inject_Z (rate_limiter.window_seconds rl)))
                (log_of rl ip) in
  log_of (fst (rate_limiter.is_allowed rl now ip)) ip'
  = if String.eqb ip ip' then
      if (rate_limiter.max_requests rl <=? Z.of_nat (length kept))%Z
      then kept else kept ++ [now]
    else log_of rl ip'.
Proof.
  cbv zeta. pose proof (is_allowed_cases rl now ip) as H. cbv zeta in H.
  destruct (_ <=? _)%Z; rewrite H; cbn [fst]; rewrite log_of_insert;
    reflexivity.
Qed.

Lemma answer_of_call (rl : rate_limiter.InMemoryRateLimiter) (now : Q) (ip : string) :
  let kept := List.filter
                (rate_limiter.newer_than
                   (now - inject_Z (rate_limiter.window_seconds rl)))
                (log_of rl ip) in
  snd (rate_limiter.is_allowed rl now ip)
  = if (rate_limiter.max_requests rl <=? Z.of_nat (length kept))%Z
    then (false, 0%Z)
    else (true, (rate_limiter.max_requests rl - Z.of_nat (length kept) - 1)%Z).
Proof.
  cbv zeta. pose proof (is_allowed_cases rl now ip) as H. cbv zeta in H.
  destruct (_ <=? _)%Z; rewrite H; cbn [snd]; [reflexivity |].
  rewrite length_app, Nat2Z.inj_add. cbn [length]. f_equal. lia.
Qed.

Lemma call_keeps_settings (rl : rate_limiter.InMemoryRateLimiter) (now : Q) (ip : string) :
  rate_limiter.max_requests (fst (rate_limiter.is_allowed rl now ip))
  = rate_limiter.max_requests rl /\
  rate_limiter.window_seconds (fst (rate_limiter.is_allowed rl now ip))
  = rate_limiter.window_seconds rl.
Proof.
  pose proof (is_allowed_cases rl now ip) as H. cbv zeta in H.
  destruct (_ <=? _)%Z; rewrite H; split; reflexivity.
Qed.

Lemma call_keeps_bound (N : Z) (rl : rate_limiter.InMemoryRateLimiter)
    (now : Q) (ip : string) :
  rate_limiter.max_requests rl = N ->
  log_bounded N rl ->
  log_bounded N (fst (rate_limiter.is_allowed rl now ip)).
Proof.
  intros HN Hb ip'. rewrite log_after_call. rewrite HN.
  destruct (String.eqb ip ip'); [| apply Hb].
  set (kept := List.filter _ _).
  assert (Hk : (length kept <= Z.to_nat N)%nat).
  { unfold kept. etransitivity; [apply filter_length_le | apply Hb]. }
  destruct (Z.leb_spec N (Z.of_nat (length kept))); [exact Hk |].
  rewrite length_app. cbn [length]. lia.
Qed.

Lemma run_calls_bound (N W : Z) (calls : list (Q * string)) :
  forall rl,
    rate_limiter.max_requests rl = N ->
    rate_limiter.window_seconds rl = W ->
    log_bounded N rl ->
    rate_limiter.max_requests (fst (run_calls rl calls)) = N /\
    rate_limiter.window_seconds (fst (run_calls rl calls)) = W /\
    log_bounded N (fst (run_calls rl calls)).
Proof.
  induction calls as [|[t ip] calls IH]; intros rl HN HW Hb; [auto |].
  simpl. pose proof (call_keeps_settings rl t ip) as [HN' HW'].
  pose proof (call_keeps_bound N rl t ip HN Hb) as Hb'.
  destruct (rate_limiter.is_allowed rl t ip) as [rl' answer]. cbn [fst] in *.
  specialize (IH rl' (eq_trans HN' HN) (eq_trans HW' HW) Hb').
  destruct (run_calls rl' calls) as [rl'' answers]. exact IH.
Qed.

Lemma init_bounded (N W : Z) : log_bounded N (rate_limiter.init N W).
Proof.
  intros ip. unfold log_of. simpl. rewrite lookup_empty. simpl. lia.
Qed.

(** The whole seconds of [get_retry_after] are more than the exact wait
    less one. *)
Lemma retry_after_covers (x : Q) :
  x - 1 < inject_Z (Z.max 0 (rate_limiter.py_int x)).
Proof.
  rewrite max0_int_floor.
  pose proof (Qlt_floor x) as Hfl.
  assert (Hle : inject_Z (Qfloor x) <= inject_Z (Z.max 0 (Qfloor x))).
  { rewrite <- Zle_Qle. lia. }
  rewrite inject_Z_plus in Hfl. change (inject_Z 1) with 1 in Hfl. lra.
Qed.

Lemma log_of_cleanup (rl : rate_limiter.InMemoryRateLimiter) (t : Q) (ip : string) :
  log_of (rate_limiter.cleanup_old_entries rl t) ip
  = List.filter
      (rate_limiter.newer_than (t - inject_Z (rate_limiter.window_seconds rl)))
      (log_of rl ip).
Proof.
  unfold log_of, rate_limiter.cleanup_old_entries. cbn [rate_limiter.request_log].
  rewrite lookup_omap.
  destruct (rate_limiter.request_log rl !! ip) as [l |]; [| reflexivity].
  cbn. destruct (List.filter _ l); reflexivity.
Qed.

End limiter_more.

(** X4: [reset] with a client forgets that client and no other: its
    next call is admitted (when [max_requests] is at least 1) with
    [max_requests - 1] requests remaining.  [reset] without a client,
    or with the empty string as client, forgets every client. *)
Theorem reset_forgets (rl : rate_limiter.InMemoryRateLimiter)
    (ip other : string) (now : Q) :
  ip <> EmptyString ->
  log_of (rate_limiter.reset rl (Some ip)) ip = [] /\
  (other <> ip -> log_of (rate_limiter.reset rl (Some ip)) other = log_of rl other) /\
  snd (rate_limiter.is_allowed (rate_limiter.reset rl (Some ip)) now ip)
  = (if (rate_limiter.max_requests rl <=? 0)%Z then (false, 0%Z)
     else (true, (rate_limiter.max_requests rl - 1)%Z)) /\
  log_of (rate_limiter.reset rl None) other = [] /\
  log_of (rate_limiter.reset rl (Some EmptyString)) other = [].
Proof.
  intros Hne. destruct ip as [|c ip]; [congruence |].
  assert (H1 : log_of (rate_limiter.reset rl (Some (String c ip))) (String c ip) = []).
  { unfold log_of. cbn. now rewrite lookup_delete_eq. }
  split; [exact H1 |]. split.
  - intros Ho. unfold log_of. cbn. now rewrite lookup_delete_ne by congruence.
  - split.
    + rewrite answer_of_call, H1. cbn [List.filter length].
      change (Z.of_nat 0) with 0%Z.
      change (rate_limiter.max_requests (rate_limiter.reset rl (Some (String c ip))))
        with (rate_limiter.max_requests rl).
      destruct (rate_limiter.max_requests rl <=? 0)%Z; [reflexivity |].
      f_equal. lia.
    + split; unfold log_of; cbn; now rewrite lookup_empty.
Qed.

Lemma reset_forgets_witness :
  snd (rate_limiter.is_allowed
         (rate_limiter.reset used_limiter (Some "203.0.113.7")) 1
         "203.0.113.7")
  = (true, 0%Z).
Proof.
  exact (proj1 (proj2 (proj2
           (reset_forgets used_limiter "203.0.113.7" "198.51.100.1" 1
              ltac:(discriminate))))).
Defined.

(** X5: [cleanup_old_entries] does not change what the limiter answers.
    After a cleanup at time [t], a call at a time [t' >= t] gets the
    answer it would have got without the cleanup and leaves the same
    times for the client; and the cleanup leaves no client with an empty
    list or with a time at or before [t - window]. *)
Theorem cleanup_keeps_admission (rl : rate_limiter.InMemoryRateLimiter)
    (t t' : Q) (ip : string) :
  (t <= t')%Q ->
  snd (rate_limiter.is_allowed (rate_limiter.cleanup_old_entries rl t) t' ip)
  = snd (rate_limiter.is_allowed rl t' ip) /\
  log_of (fst (rate_limiter.is_allowed (rate_limiter.cleanup_old_entries rl t) t' ip)) ip
  = log_of (fst (rate_limiter.is_allowed rl t' ip)) ip /\
  (forall client l,
     rate_limiter.request_log (rate_limiter.cleanup_old_entries rl t) !! client
     = Some l ->
     l <> [] /\
     Forall (fun ts => (t - inject_Z (rate_limiter.window_seconds rl) < ts)%Q) l).
Proof.
  intros Ht.
  assert (Hk :
    List.filter
      (rate_limiter.newer_than (t' - inject_Z (rate_limiter.window_seconds rl))%Q)
      (log_of (rate_limiter.cleanup_old_entries rl t) ip)
    = List.filter
        (rate_limiter.newer_than (t' - inject_Z (rate_limiter.window_seconds rl))%Q)
        (log_of rl ip)).
  { rewrite log_of_cleanup. apply filter_filter_impl.
    intros x Hx. apply newer_than_spec in Hx. apply newer_than_spec. lra. }
  split; [| split].
  - rewrite !answer_of_call.
    change (rate_limiter.window_seconds (rate_limiter.cleanup_old_entries rl t))
      with (rate_limiter.window_seconds rl).
    change (rate_limiter.max_requests (rate_limiter.cleanup_old_entries rl t))
      with (rate_limiter.max_requests rl).
    now rewrite Hk.
  - rewrite !log_after_call.
    change (rate_limiter.window_seconds (rate_limiter.cleanup_old_entries rl t))
      with (rate_limiter.window_seconds rl).
    change (rate_limiter.max_requests (rate_limiter.cleanup_old_entries rl t))
      with (rate_limiter.max_requests rl).
    now rewrite !String.eqb_refl, Hk.
  - intros client l Hl. cbn in Hl. rewrite lookup_omap in Hl.
    destruct (rate_limiter.request_log rl !! client) as [l0 |]; [| discriminate].
    cbn in Hl.
    destruct (List.filter _ l0) as [|x l1] eqn:E; [discriminate |].
    injection Hl as <-. split; [discriminate |].
    rewrite <- E. apply Forall_forall. intros y Hy.
    apply list_elem_of_In, filter_In in Hy as [_ Hy].
    now apply newer_than_spec.
Qed.

Lemma cleanup_keeps_admission_witness :
  snd (rate_limiter.is_allowed (rate_limiter.cleanup_old_entries used_limiter 100) 100
         "203.0.113.7")
  = snd (rate_limiter.is_allowed used_limiter 100 "203.0.113.7").
Proof.
  apply (cleanup_keeps_admission used_limiter 100 100 "203.0.113.7").
  vm_compute. discriminate.
Defined.

(** X6: the wait that [get_retry_after] announces, plus one second, is
    enough.  On a limiter of [N >= 1] requests that has only served
    [is_allowed] calls, when a call of a client is denied and
    [get_retry_after] is read at a time [later], the next call of the
    client is admitted if it comes [get_retry_after + 1] seconds after
    [later], or at any time after that.  The whole seconds alone may be
    too few: with one request a minute, a client admitted at time 0 and
    denied at time 1/2 is told to wait 59 seconds and is denied again at
    time 59 + 1/2. *)
Theorem retry_after_suffices (N W : Z) (calls : list (Q * string))
    (ip : string) (now later t : Q) :
  (1 <= N)%Z ->
  let rl := fst (run_calls (rate_limiter.init N W) calls) in
  fst (snd (rate_limiter.is_allowed rl now ip)) = false ->
  let denied := fst (rate_limiter.is_allowed rl now ip) in
  (later + inject_Z (rate_limiter.get_retry_after denied later ip) + 1 <= t)%Q ->
  fst (snd (rate_limiter.is_allowed denied t ip)) = true /\
  (let denied60 :=
     fst (rate_limiter.is_allowed
            (fst (run_calls (rate_limiter.init 1 60) [(0%Q, "203.0.113.7")]))
            (1 # 2) "203.0.113.7") in
   rate_limiter.get_retry_after denied60 (1 # 2) "203.0.113.7" = 59%Z /\
   fst (snd (rate_limiter.is_allowed denied60 ((1 # 2) + 59) "203.0.113.7"))
   = false).
Proof.
  intros HN rl Hden denied Ht. split.
  - destruct (run_calls_bound N W calls (rate_limiter.init N W) eq_refl eq_refl
                (init_bounded N W)) as (HmN & HmW & Hb).
    fold rl in HmN, HmW, Hb.
    assert (Hset := call_keeps_settings rl now ip). fold denied in Hset.
    destruct Hset as [HdN HdW]. rewrite HmN in HdN. rewrite HmW in HdW.
    pose proof (answer_of_call rl now ip) as Ha. cbv zeta in Ha.
    pose proof (log_after_call rl now ip ip) as Hl. cbv zeta in Hl.
    fold denied in Hl. rewrite String.eqb_refl in Hl.
    rewrite HmN, HmW in Ha, Hl.
    set (kept := List.filter (rate_limiter.newer_than (now - inject_Z W)%Q)
                   (log_of rl ip)) in *.
    destruct (Z.leb_spec N (Z.of_nat (length kept))) as [Hfull | Hroom];
      [| rewrite Ha in Hden; discriminate Hden].
    assert (Hlen : length kept = Z.to_nat N).
    { pose proof (filter_length_le
                    (rate_limiter.newer_than (now - inject_Z W)%Q) (log_of rl ip)).
      fold kept in H. specialize (Hb ip). lia. }
    (* the oldest time of the client is out of the window at [t] *)
    unfold rate_limiter.get_retry_after in Ht. fold (log_of denied ip) in Ht.
    rewrite Hl, HdW in Ht.
    destruct kept as [|first rest] eqn:Ek; [cbn in Hlen; lia |].
    set (oldest := rate_limiter.py_min first rest) in *.
    pose proof (retry_after_covers (inject_Z W - (later - oldest))) as Hcov.
    assert (Hout : rate_limiter.newer_than (t - inject_Z W)%Q oldest = false).
    { destruct (rate_limiter.newer_than (t - inject_Z W)%Q oldest) eqn:E;
        [| reflexivity].
      apply newer_than_spec in E. lra. }
    rewrite (answer_of_call denied t ip). rewrite HdN, HdW, Hl.
    pose proof (filter_length_lt
                  (rate_limiter.newer_than (t - inject_Z W)%Q) (first :: rest)
                  oldest (py_min_in first rest) Hout) as Hlt.
    destruct (Z.leb_spec N
                (Z.of_nat (length (List.filter
                   (rate_limiter.newer_than (t - inject_Z W)%Q) (first :: rest)))));
      [lia | reflexivity].
  - cbv zeta. split.
    + vm_compute. reflexivity.
    + vm_compute. reflexivity.
Qed.

Lemma retry_after_suffices_witness :
  fst (snd (rate_limiter.is_allowed
              (fst (rate_limiter.is_allowed
                      (fst (run_calls (rate_limiter.init 1 60) [(0%Q, "203.0.113.7")]))
                      (1 # 2) "203.0.113.7"))
              ((1 # 2) + 60) "203.0.113.7"))
  = true.
Proof.
  apply (retry_after_suffices 1 60 [(0%Q, "203.0.113.7")] "203.0.113.7"
           (1 # 2) (1 # 2) ((1 # 2) + 60)).
  - lia.
  - vm_compute. reflexivity.
  - vm_compute. discriminate.
Defined.

(** ** Cookies: the header and the jar *)

Section cookie_header.

Import cookie_manager.

Lemma lstrip_space_length (s : string) :
  Py.lstrip_space s = s \/
  (String.length (Py.lstrip_space s) < String.length s)%nat.
Proof.
  induction s as [|c s IH]; [now left |]. simpl.
  destruct (Py.isspace c); [| now left].
  right. destruct IH as [-> | IH]; simpl; lia.
Qed.

Lemma rstrip_space_length (s : string) :
  (String.length (Py.rstrip_space s) <= String.length s)%nat.
Proof.
  induction s as [|c s IH]; simpl; [lia |].
  destruct (Py.rstrip_space s); [destruct (Py.isspace c) |]; simpl in *; lia.
Qed.

Lemma trimmed_inv (s : string) :
  trimmed s = true -> Py.lstrip_space s = s /\ Py.rstrip_space s = s.
Proof.
  unfold trimmed, Py.strip. intros H. apply String.eqb_eq in H.
  destruct (lstrip_space_length s) as [Hl | Hl].
  - rewrite Hl in H. now split.
  - pose proof (rstrip_space_length (Py.lstrip_space s)) as Hr.
    rewrite H in Hr. lia.
Qed.

Lemma lstrip_space_pair (n v : string) :
  Py.lstrip_space n = n ->
  Py.lstrip_space (n +:+ String "=" v) = n +:+ String "=" v.
Proof.
  destruct n as [|c n]; [reflexivity |]. intros H.
  change (String c n +:+ String "=" v) with (String c (n +:+ String "=" v)).
  simpl in *. destruct (Py.isspace c); [| reflexivity].
  destruct (lstrip_space_length n) as [Hl | Hl].
  - rewrite Hl in H. apply (f_equal String.length) in H. simpl in H. lia.
  - rewrite H in Hl. simpl in Hl. lia.
Qed.

Lemma rstrip_space_pair (a v : string) :
  Py.rstrip_space v = v ->
  Py.rstrip_space (a +:+ String "=" v) = a +:+ String "=" v.
Proof.
  intros Hv. induction a as [|c a IH].
  - change (EmptyString +:+ String "=" v) with (String "=" v).
    simpl. rewrite Hv. now destruct v.
  - change (String c a +:+ String "=" v) with (String c (a +:+ String "=" v)).
    simpl. rewrite IH. now destruct a.
Qed.

Lemma strip_pair (n v : string) :
  trimmed n = true -> trimmed v = true ->
  Py.strip (n +:+ String "=" v) = n +:+ String "=" v.
Proof.
  intros Hn Hv. apply trimmed_inv in Hn as [Hn _]. apply trimmed_inv in Hv as [_ Hv].
  unfold Py.strip. rewrite (lstrip_space_pair n v Hn). now apply rstrip_space_pair.
Qed.

Lemma strip_blank (s : string) : Py.strip (String " " s) = Py.strip s.
Proof. reflexivity. Qed.

Lemma split_no_sep (sep : ascii) (s : string) :
  Py.contains_char sep s = false -> Py.split sep s = [s].
Proof.
  induction s as [|c s IH]; simpl; [reflexivity |]. intros H.
  apply orb_false_elim in H as [Hc Hs]. now rewrite Hc, (IH Hs).
Qed.

Lemma split_append_sep (sep : ascii) (a b : string) :
  Py.contains_char sep a = false ->
  Py.split sep (a +:+ String sep b) = a :: Py.split sep b.
Proof.
  induction a as [|c a IH]; intros H.
  - change (EmptyString +:+ String sep b) with (String sep b).
    simpl. now rewrite Ascii.eqb_refl.
  - change (String c a +:+ String sep b) with (String c (a +:+ String sep b)).
    simpl in *. apply orb_false_elim in H as [Hc Ha]. now rewrite Hc, (IH Ha).
Qed.

(** One piece of the header: a name, [=], a value. *)
Lemma cookie_ok_inv (kv : string * string) :
  cookie_ok kv = true ->
  trimmed (fst kv) = true /\ Py.contains_char ";" (fst kv) = false /\
  Py.contains_char "=" (fst kv) = false /\
  trimmed (snd kv) = true /\ Py.contains_char ";" (snd kv) = false.
Proof.
  unfold cookie_ok. intros H.
  apply andb_true_iff in H as [H He]. apply andb_true_iff in H as [H Hd].
  apply andb_true_iff in H as [H Hc]. apply andb_true_iff in H as [Ha Hb].
  rewrite negb_true_iff in *. auto.
Qed.

Lemma piece_no_sep (kv : string * string) :
  cookie_ok kv = true ->
  Py.contains_char ";" (fst kv +:+ "=" +:+ snd kv) = false.
Proof.
  intros H. apply cookie_ok_inv in H as (_ & Hb & _ & _ & He).
  rewrite !contains_char_append. cbn [Py.contains_char].
  now rewrite Hb, He.
Qed.

End cookie_header.

Section cookie_round_trip.

Import cookie_manager.

Lemma split_joined (p : string) (ps : list string) :
  Forall (fun q => Py.contains_char ";" q = false) (p :: ps) ->
  Py.split ";" (Py.join "; " (p :: ps)) = p :: List.map (String " ") ps.
Proof.
  revert p. induction ps as [|q qs IH]; intros p H.
  - apply Forall_cons_iff in H as [Hp _]. now apply split_no_sep.
  - apply Forall_cons_iff in H as [Hp Hq].
    change (Py.join "; " (p :: q :: qs))
      with (p +:+ String ";" (String " " (Py.join "; " (q :: qs)))).
    rewrite (split_append_sep ";" p _ Hp). f_equal.
    change (Py.split ";" (String " " (Py.join "; " (q :: qs))))
      with (match Py.split ";" (Py.join "; " (q :: qs)) with
            | h :: t => String " " h :: t
            | [] => [String " " EmptyString]
            end).
    now rewrite (IH q Hq).
Qed.

Lemma add_cookie_piece (acc : dict) (kv : string * string) :
  cookie_ok kv = true ->
  add_cookie acc (fst kv +:+ "=" +:+ snd kv) = assign acc (fst kv) (snd kv).
Proof.
  intros H. apply cookie_ok_inv in H as (Ha & _ & Hc & Hd & _).
  unfold add_cookie.
  change (fst kv +:+ "=" +:+ snd kv) with (fst kv +:+ String "=" (snd kv)).
  rewrite (strip_pair _ _ Ha Hd).
  rewrite contains_char_append. cbn [Py.contains_char Ascii.eqb Bool.eqb].
  rewrite orb_true_r.
  rewrite (split1_append_sep "=" _ _ Hc).
  apply String.eqb_eq in Ha, Hd. now rewrite Ha, Hd.
Qed.

Lemma add_cookie_blank (acc : dict) (s : string) :
  add_cookie acc (String " " s) = add_cookie acc s.
Proof. reflexivity. Qed.

Lemma fold_add_cookie (cookies acc : dict) (blank : bool) :
  forallb cookie_ok cookies = true ->
  fold_left add_cookie
    (List.map (fun kv => if blank then String " " (fst kv +:+ "=" +:+ snd kv)
                         else fst kv +:+ "=" +:+ snd kv) cookies) acc
  = update acc cookies.
Proof.
  revert acc. induction cookies as [|kv cookies IH]; intros acc H; [reflexivity |].
  simpl in H. apply andb_true_iff in H as [Hkv H]. cbn [List.map fold_left].
  replace (add_cookie acc
             (if blank then String " " (fst kv +:+ "=" +:+ snd kv)
              else fst kv +:+ "=" +:+ snd kv))
    with (assign acc (fst kv) (snd kv))
    by (destruct blank; [rewrite add_cookie_blank |];
        now rewrite add_cookie_piece).
  now rewrite (IH _ H).
Qed.

End cookie_round_trip.

(** X7: parsing undoes building.  For a map of cookies whose names and
    values are trimmed and hold no [;], the names no [=] either,
    [parse_cookie_header] applied to the header that
    [build_cookie_header] makes of the map gives the map back, in the
    same order. *)
Theorem cookie_header_round_trip (cookies : cookie_manager.dict) :
  distinct_keys cookies ->
  forallb cookie_ok cookies = true ->
  cookie_manager.parse_cookie_header (cookie_manager.build_cookie_header cookies)
  = cookies.
Proof.
  intros Hd Hok. destruct cookies as [|kv cookies]; [reflexivity |].
  unfold cookie_manager.parse_cookie_header, cookie_manager.build_cookie_header.
  cbn [List.map].
  assert (Hsep : Forall (fun q => Py.contains_char ";" q = false)
                   (List.map (fun kv => fst kv +:+ "=" +:+ snd kv) (kv :: cookies))).
  { apply Forall_forall. intros q Hq. apply list_elem_of_In, in_map_iff in Hq
      as (kv' & <- & Hin).
    apply piece_no_sep. rewrite forallb_forall in Hok. now apply Hok. }
  cbn [List.map] in Hsep.
  assert (Hne : Py.truthy
                  (Py.join "; "
                     ((fst kv +:+ "=" +:+ snd kv)
                        :: List.map (fun kv => fst kv +:+ "=" +:+ snd kv) cookies))
                = true).
  { destruct cookies; cbn; destruct (fst kv); reflexivity. }
  rewrite Hne. cbn [negb]. rewrite (split_joined _ _ Hsep).
  cbn [fold_left]. simpl in Hok. apply andb_true_iff in Hok as [Hkv Hok].
  rewrite (add_cookie_piece [] kv Hkv). rewrite List.map_map.
  rewrite (fold_add_cookie cookies _ true Hok).
  change (cookie_manager.update (cookie_manager.assign [] (fst kv) (snd kv)) cookies)
    with (cookie_manager.update [] ((fst kv, snd kv) :: cookies)).
  rewrite update_distinct.
  - now destruct kv.
  - now destruct kv.
  - reflexivity.
Qed.

Lemma cookie_header_round_trip_witness :
  cookie_manager.parse_cookie_header
    (cookie_manager.build_cookie_header [("sid", "a b=c"); ("theme", "dark")])
  = [("sid", "a b=c"); ("theme", "dark")].
Proof.
  apply cookie_header_round_trip.
  - simpl. split; [reflexivity | split; [reflexivity | exact I]].
  - reflexivity.
Defined.

Section jar.

Import cookie_manager.

Lemma selected_apart (s1 s2 : Z) (x1 x2 h1 h2 : string) (row : CookieJar) :
  s1 <> s2 \/ x1 <> x2 \/ h1 <> h2 ->
  selected s1 x1 h1 row = true -> selected s2 x2 h2 row = false.
Proof.
  unfold selected. intros Hd H.
  apply andb_true_iff in H as [H Hh]. apply andb_true_iff in H as [Hs Hx].
  apply Z.eqb_eq in Hs. apply String.eqb_eq in Hx, Hh. rewrite Hs, Hx, Hh.
  destruct Hd as [Hd | [Hd | Hd]].
  - apply Z.eqb_neq in Hd. now rewrite Hd.
  - apply String.eqb_neq in Hd. rewrite Hd. now rewrite andb_false_r.
  - apply String.eqb_neq in Hd. rewrite Hd. now rewrite andb_false_r.
Qed.

(** The rows of another triple after a store. *)
Lemma store_keeps_other_rows (db db' : list CookieJar)
    (s1 s2 : Z) (x1 x2 h1 h2 : string) (headers : list string) :
  s1 <> s2 \/ x1 <> x2 \/ h1 <> h2 ->
  store_cookies db s1 x1 h1 headers = Ok db' ->
  List.filter (selected s2 x2 h2) db' = List.filter (selected s2 x2 h2) db.
Proof.
  intros Hd Hs.
  destruct (parse_set_cookies headers) as [|kv cookies] eqn:Ep.
  - rewrite (store_cookies_noop s1 x1 h1 db headers Ep) in Hs. now injection Hs as <-.
  - rewrite (store_cookies_cases s1 x1 h1 db headers) in Hs
      by (rewrite Ep; discriminate).
    destruct (List.filter (selected s1 x1 h1) db) as [|row [|row' rest]] eqn:Ef;
      [| | discriminate Hs]; injection Hs as <-.
    + rewrite List.filter_app. cbn [List.filter].
      rewrite (selected_apart s1 s2 x1 x2 h1 h2 _ Hd (selected_refl s1 x1 h1 _)).
      apply app_nil_r.
    + rewrite filter_map_selected.
      2:{ intros r. destruct (selected s1 x1 h1 r); reflexivity. }
      rewrite <- (List.map_id (List.filter (selected s2 x2 h2) db)) at 2.
      apply List.map_ext_in. intros r Hr. apply filter_In in Hr as [_ Hr].
      destruct (selected s1 x1 h1 r) eqn:E; [| reflexivity].
      rewrite (selected_apart s1 s2 x1 x2 h1 h2 r Hd E) in Hr. discriminate Hr.
Qed.

End jar.

(** X8: the jars do not leak into each other.  A store for one site,
    session and origin host leaves what [get_cookies] returns for any
    other site, session or origin host as it was. *)
Theorem cookie_jar_isolation (db db' : list cookie_manager.CookieJar)
    (site_id site_id' : Z) (session_id session_id' origin_host origin_host' : string)
    (headers : list string) :
  site_id <> site_id' \/ session_id <> session_id' \/ origin_host <> origin_host' ->
  cookie_manager.store_cookies db site_id session_id origin_host headers = Ok db' ->
  cookie_manager.get_cookies db' site_id' session_id' origin_host'
  = cookie_manager.get_cookies db site_id' session_id' origin_host'.
Proof.
  intros Hd Hs. rewrite !get_cookies_cases.
  now rewrite (store_keeps_other_rows db db' site_id site_id' session_id session_id'
                 origin_host origin_host' headers Hd Hs).
Qed.

Lemma cookie_jar_isolation_witness :
  cookie_manager.get_cookies
    [cookie_manager.mk_row 1 "alice" "source.com"
       (cookie_manager.Dumped [("sid", "1")]);
     cookie_manager.mk_row 1 "bob" "source.com"
       (cookie_manager.Dumped [("sid", "2")])]
    1 "alice" "source.com"
  = cookie_manager.get_cookies
      [cookie_manager.mk_row 1 "alice" "source.com"
         (cookie_manager.Dumped [("sid", "1")])]
      1 "alice" "source.com".
Proof.
  apply (cookie_jar_isolation
           [cookie_manager.mk_row 1 "alice" "source.com"
              (cookie_manager.Dumped [("sid", "1")])]
           _ 1 1 "bob" "alice" "source.com" "source.com" ["sid=2; Path=/"]).
  - right. left. discriminate.
  - reflexivity.
Defined.

(** ** The proxy handler *)

Section handler.

Import router.

Lemma host_without_port (host : string) :
  (if Py.contains_char ":" host then fst (Py.split1 ":" host) else host)
  = fst (Py.split1 ":" host).
Proof.
  destruct (Py.contains_char ":" host) eqn:E; [reflexivity |].
  now rewrite (split1_none ":" host E).
Qed.

Lemma find_site_by_host_eq (host : string) (db : Database) :
  find_site_by_host host db
  = List.find
      (fun site =>
         String.eqb (fst (Py.split1 ":" host)) (mirror_root site) ||
         Py.endswith (fst (Py.split1 ":" host)) ("." +:+ mirror_root site))
      (List.filter enabled (sites db)).
Proof. unfold find_site_by_host. now rewrite host_without_port. Qed.

End handler.

(** X9: the site lookup.  [find_site_by_host] returns a site only if the
    site is in the table and enabled and the host, without its port, is
    the mirror root of the site or a subdomain of it; it returns nothing
    exactly when no enabled site of the table matches; and the port of
    the host plays no part. *)
Theorem find_site_by_host_spec (host : string) (db : router.Database) :
  (forall site,
     router.find_site_by_host host db = Some site ->
     In site (router.sites db) /\ enabled site = true /\
     (fst (Py.split1 ":" host) = mirror_root site \/
      exists x, fst (Py.split1 ":" host) = x +:+ "." +:+ mirror_root site)) /\
  (router.find_site_by_host host db = None <->
   forall site,
     In site (router.sites db) -> enabled site = true ->
     fst (Py.split1 ":" host) <> mirror_root site /\
     Py.endswith (fst (Py.split1 ":" host)) ("." +:+ mirror_root site) = false) /\
  (forall port,
     Py.contains_char ":" host = false ->
     router.find_site_by_host (host +:+ ":" +:+ port) db
     = router.find_site_by_host host db).
Proof.
  split; [| split].
  - intros site H. rewrite find_site_by_host_eq in H.
    apply List.find_some in H as [Hin Hm]. apply filter_In in Hin as [Hin Hen].
    split; [exact Hin |]. split; [exact Hen |].
    apply orb_true_iff in Hm as [Hm | Hm].
    + left. now apply String.eqb_eq.
    + right. apply endswith_inv in Hm as [x Hx]. now exists x.
  - rewrite find_site_by_host_eq. split.
    + intros H site Hin Hen.
      pose proof (List.find_none _ _ H site) as Hn. cbv beta in Hn.
      rewrite filter_In in Hn. specialize (Hn (conj Hin Hen)).
      apply orb_false_elim in Hn as [Hn1 Hn2].
      split; [now apply String.eqb_neq | exact Hn2].
    + intros H.
      destruct (List.find _ _) as [site |] eqn:E; [| reflexivity].
      apply List.find_some in E as [Hin Hm]. apply filter_In in Hin as [Hin Hen].
      destruct (H site Hin Hen) as [Hne Hsub].
      apply String.eqb_neq in Hne. now rewrite Hne, Hsub in Hm.
  - intros port Hc. rewrite !find_site_by_host_eq.
    change (host +:+ ":" +:+ port) with (host +:+ String ":" port).
    rewrite (split1_append_sep ":" host port Hc).
    now rewrite (split1_none ":" host Hc).
Qed.

Lemma find_site_by_host_spec_witness :
  router.find_site_by_host "xyz.mirror.com:8000" example_db
  = router.find_site_by_host "xyz.mirror.com" example_db.
Proof.
  apply (proj2 (proj2 (find_site_by_host_spec "xyz.mirror.com" example_db)) "8000").
  reflexivity.
Defined.

(** X10: nothing is fetched that has not passed every check.  When
    [proxy_handler] hands a URL to [proxy_request], the admission check
    has let the request through, the host is not a guarded host, the URL
    is the origin URL that [build_origin_url] gives for the host and the
    path on an enabled site found for the host, and the SSRF guard has
    accepted that URL; the answer is then the answer of
    [proxy_request].  In every other case the database is returned as it
    was. *)
Theorem proxied_only_when_safe settings urljoin re_sub BeautifulSoup str_soup
    gethostbyname inject_ads_and_trackers fetch decode_utf8 megabytes
    random_token rate_limiter now later request path db :
  let host :=
    default EmptyString
      (router.request_header (router.request_headers request) "host") in
  let handled :=
    router.proxy_handler settings urljoin re_sub BeautifulSoup str_soup
      gethostbyname inject_ads_and_trackers fetch decode_utf8 megabytes
      random_token rate_limiter now later request path db in
  (forall u,
     In (router.ProxyRequest u) (router.steps handled) ->
     admitted settings rate_limiter now
       (default "unknown" (router.client_host request)) /\
     router.is_admin_host settings host = false /\
     (exists site,
        router.find_site_by_host host db = Some site /\
        u = url_utils.build_origin_url (fst (Py.split1 ":" host))
              (router.request_mirror_path path (router.url_query request))
              (source_root site) (Some (mirror_root site)) /\
        router.outcome handled
        = router.proxy_request settings urljoin re_sub BeautifulSoup str_soup
            inject_ads_and_trackers fetch decode_utf8 megabytes random_token
            request site u db) /\
     fst (security.is_safe_origin_url gethostbyname u) = true) /\
  ((forall u, ~ In (router.ProxyRequest u) (router.steps handled)) ->
   exists r, router.outcome handled = Ok (db, r) /\
             In (router.status_code r) [429; 404; 403]%Z).
Proof.
  cbv zeta. unfold router.proxy_handler, admitted.
  set (host := default EmptyString
                 (router.request_header (router.request_headers request) "host")).
  set (client_ip := default "unknown" (router.client_host request)).
  assert (Hmain :
    forall (rl' : option rate_limiter.InMemoryRateLimiter) (trace : list router.step),
      (forall u, ~ In (router.ProxyRequest u) trace) ->
      let handled :=
        if router.is_admin_host settings host then
          router.mk_handled rl' trace
            (Ok (db, router.mk_response 404 [] (router.Text "Not found") None []))
        else
          let trace := trace ++ [router.SiteLookup host] in
          match router.find_site_by_host host db with
          | None =>
              router.mk_handled rl' trace
                (Ok (db,
                     router.mk_response 404 []
                       (router.Text ("No site configured for host: " +:+ host))
                       None []))
          | Some site =>
              let origin_url :=
                url_utils.build_origin_url (fst (Py.split1 ":" host))
                  (router.request_mirror_path path (router.url_query request))
                  (source_root site) (Some (mirror_root site)) in
              let trace := trace ++ [router.SsrfCheck origin_url] in
              let '(is_safe, reason) :=
                security.is_safe_origin_url gethostbyname origin_url in
              if negb is_safe then
                router.mk_handled rl' trace
                  (Ok (db, router.mk_response 403 []
                             (router.Text ("Blocked: " +:+ reason))
                             None []))
              else
                router.mk_handled rl' (trace ++ [router.ProxyRequest origin_url])
                  (router.proxy_request settings urljoin re_sub BeautifulSoup
                     str_soup inject_ads_and_trackers fetch decode_utf8
                     megabytes random_token request site origin_url db)
          end in
      (forall u,
         In (router.ProxyRequest u) (router.steps handled) ->
         router.is_admin_host settings host = false /\
         (exists site,
            router.find_site_by_host host db = Some site /\
            u = url_utils.build_origin_url (fst (Py.split1 ":" host))
                  (router.request_mirror_path path (router.url_query request))
                  (source_root site) (Some (mirror_root site)) /\
            router.outcome handled
            = router.proxy_request settings urljoin re_sub BeautifulSoup str_soup
                inject_ads_and_trackers fetch decode_utf8 megabytes random_token
                request site u db) /\
         fst (security.is_safe_origin_url gethostbyname u) = true) /\
      ((forall u, ~ In (router.ProxyRequest u) (router.steps handled)) ->
       exists r, router.outcome handled = Ok (db, r) /\
                 In (router.status_code r) [429; 404; 403]%Z)).
  { intros rl' trace Htr. cbv zeta.
    destruct (router.is_admin_host settings host) eqn:Eadm.
    - split; [intros u Hu; now apply Htr in Hu |].
      intros _. eexists. split; [reflexivity |]. cbn. auto.
    - destruct (router.find_site_by_host host db) as [site |] eqn:Esite.
      + destruct (security.is_safe_origin_url gethostbyname _) as [is_safe reason]
          eqn:Esafe.
        destruct is_safe; cbn [negb].
        * split.
          -- intros u Hu. cbn [router.steps] in Hu.
             rewrite !in_app_iff in Hu. cbn [In] in Hu.
             destruct Hu as [[[Hu | [Hu | []]] | [Hu | []]] | [Hu | []]];
               try discriminate Hu; [now apply Htr in Hu |].
             injection Hu as <-. split; [reflexivity |].
             split; [| now rewrite Esafe].
             exists site. auto.
          -- intros Hno. exfalso. eapply Hno. cbn [router.steps].
             apply in_app_iff. right. left. reflexivity.
        * split.
          -- intros u Hu. cbn [router.steps] in Hu.
             rewrite !in_app_iff in Hu. cbn [In] in Hu.
             destruct Hu as [[Hu | [Hu | []]] | [Hu | []]];
               try discriminate Hu. now apply Htr in Hu.
          -- intros _. eexists. split; [reflexivity |]. cbn. auto.
      + split.
        * intros u Hu. cbn [router.steps] in Hu.
          rewrite in_app_iff in Hu. cbn [In] in Hu.
          destruct Hu as [Hu | [Hu | []]]; try discriminate Hu.
          now apply Htr in Hu.
        * intros _. eexists. split; [reflexivity |]. cbn. auto. }
  destruct rate_limiter as [limiter |].
  - destruct (router.ENABLE_RATE_LIMITING settings) eqn:Een.
    + destruct (rate_limiter.is_allowed limiter now client_ip)
        as [limiter' [is_allowed remaining]] eqn:Ecall.
      destruct is_allowed.
      * specialize (Hmain (Some limiter') [router.RateLimitCheck client_ip]).
        cbv zeta in Hmain. destruct Hmain as [H1 H2].
        { intros u [Hu | []]. discriminate Hu. }
        split; [| exact H2].
        intros u Hu. destruct (H1 u Hu) as (Ha & Hb & Hc).
        split; [right; reflexivity |]. auto.
      * split.
        -- intros u [Hu | []]. discriminate Hu.
        -- intros _. eexists. split; [reflexivity |]. cbn. auto.
    + specialize (Hmain (Some limiter) []). cbv zeta in Hmain.
      destruct Hmain as [H1 H2]; [intros u [] |].
      split; [| exact H2].
      intros u Hu. destruct (H1 u Hu) as (Ha & Hb & Hc). auto.
  - specialize (Hmain None []). cbv zeta in Hmain.
    destruct Hmain as [H1 H2]; [intros u [] |].
    split; [| exact H2].
    intros u Hu. destruct (H1 u Hu) as (Ha & Hb & Hc). auto.
Qed.

Lemma proxied_only_when_safe_witness :
  fst (security.is_safe_origin_url public_resolver "https://source.com/docs/intro")
  = true.
Proof.
  refine (proj2 (proj2 (proj2
    (proj1 (proxied_only_when_safe router.default_settings unused_urljoin
              unused_re_sub text_soup text_of_soup public_resolver unused_inject
              unused_fetch (fun s => s) Py.str_int "token"
              (Some (rate_limiter.init 60 60)) 0%Q 0%Q
              (get_request "mirror.com") "docs/intro" example_db)
       "https://source.com/docs/intro" _)))).
  vm_compute. right. right. right. left. reflexivity.
Defined.

(** ** What the client receives *)

Section responses.

Import router.

Lemma with_session_cookie_headers new_session_created session_id signed r :
  headers (with_session_cookie new_session_created session_id signed r) = headers r.
Proof.
  unfold with_session_cookie. now destruct (_ && _).
Qed.

Lemma with_session_cookie_cookies new_session_created session_id signed r :
  cookies_set r = [] ->
  Forall (fun c => c = session_cookie (default EmptyString signed))
    (cookies_set (with_session_cookie new_session_created session_id signed r)).
Proof.
  intros Hr. unfold with_session_cookie. destruct (_ && _); cbn.
  - rewrite Hr. cbn. now constructor.
  - rewrite Hr. constructor.
Qed.

Lemma content_response_passable urljoin re_sub BeautifulSoup str_soup
    inject_ads_and_trackers decode_utf8 request site origin_url effective_config
    response new_session_created session_id signed r :
  content_response urljoin re_sub BeautifulSoup str_soup inject_ads_and_trackers
    decode_utf8 request site origin_url effective_config response
    new_session_created session_id signed = Ok r ->
  forallb passable (headers r) = true /\
  Forall (fun c => c = session_cookie (default EmptyString signed)) (cookies_set r) /\
  status_code r = upstream_status response.
Proof.
  unfold content_response.
  set (kept := List.filter _ (response_items (upstream_headers response))).
  assert (Hk : forallb passable kept = true).
  { apply forallb_forall. intros e He. apply filter_In in He as [_ He]. exact He. }
  destruct (Py.contains "text/html" _).
  - destruct (filter_ads.clean_html _ _ _ _) as [cleaned | e]; [| discriminate].
    cbn [rbind].
    destruct (html_rewriter.rewrite_html _ _ _ _ _ _ _ _ _ _) as [rewritten | e];
      [| discriminate].
    cbn [rbind]. destruct (inject_ads_and_trackers _ _) as [final | e];
      [| discriminate].
    cbn [rbind]. intros H. injection H as <-.
    rewrite with_session_cookie_headers. split; [exact Hk |].
    split; [now apply with_session_cookie_cookies |].
    unfold with_session_cookie. now destruct (_ && _).
  - intros H. injection H as <-.
    rewrite with_session_cookie_headers. split; [exact Hk |].
    split; [now apply with_session_cookie_cookies |].
    unfold with_session_cookie. now destruct (_ && _).
Qed.

Lemma redirect_response_passable urljoin request site origin_url response location
    new_session_created session_id signed r :
  redirect_response urljoin request site origin_url response location
    new_session_created session_id signed = Ok r ->
  forallb passable (headers r) = true /\
  Forall (fun c => c = session_cookie (default EmptyString signed)) (cookies_set r) /\
  status_code r = upstream_status response.
Proof.
  intros H.
  destruct (normalize_redirect_location urljoin location origin_url)
    as [absolute_location | e] eqn:Hn;
    [| unfold redirect_response in H; rewrite Hn in H; discriminate H].
  destruct (map_origin_url_to_mirror absolute_location site
              (default (mirror_root site)
                 (request_header (request_headers request) "host")))
    as [mirror_location | e] eqn:Hm;
    [| unfold redirect_response in H; rewrite Hn in H; cbn [rbind] in H;
       rewrite Hm in H; discriminate H].
  rewrite (redirect_response_spec urljoin request site origin_url response
             location new_session_created session_id signed absolute_location
             mirror_location Hn Hm) in H.
  injection H as <-. rewrite with_session_cookie_headers.
  split; [| split].
  - cbn [headers]. unfold kept_header.
    destruct (response_header (upstream_headers response) "cache-control");
      destruct (response_header (upstream_headers response) "expires");
      reflexivity.
  - now apply with_session_cookie_cookies.
  - unfold with_session_cookie. now destruct (_ && _).
Qed.

Lemma lower_char_twice (c : ascii) :
  Py.lower_char (Py.lower_char c) = Py.lower_char c.
Proof.
  destruct c as [[] [] [] [] [] [] [] []]; vm_compute; reflexivity.
Qed.

Lemma lower_twice (s : string) : Py.lower (Py.lower s) = Py.lower s.
Proof.
  induction s as [|c s IH]; [reflexivity |].
  cbn [Py.lower]. now rewrite lower_char_twice, IH.
Qed.

(** Of the headers of a response, the ones with a stripped name are the
    length that the framework computes and the cookies that were set. *)
Lemma raw_headers_stripped (cookie_header : Cookie -> string) (r : Response)
    (name value : string) :
  forallb passable (headers r) = true ->
  In (name, value) (raw_headers cookie_header r) ->
  passable (name, value) = false ->
  (name = "content-length" /\
   value = Py.str_int (Z.of_nat (length (render (content r))))) \/
  (name = "set-cookie" /\
   exists cookie, In cookie (cookies_set r) /\ value = cookie_header cookie).
Proof.
  intros Hp Hin Hno. unfold raw_headers in Hin. apply in_app_or in Hin as [Hin | Hin].
  - assert (Hgiven :
      ~ In (name, value)
          (List.map (fun entry => (Py.lower (fst entry), snd entry)) (headers r))).
    { intros Hg. apply in_map_iff in Hg as ([k v] & E & Hk).
      injection E as <- <-.
      rewrite forallb_forall in Hp. specialize (Hp (k, v) Hk).
      unfold passable in *. cbn [fst] in *. rewrite lower_twice in Hno.
      congruence. }
    assert (Htype : forall content_type, ("content-type", content_type) <> (name, value)).
    { intros content_type E. injection E as <- _. discriminate Hno. }
    unfold init_headers in Hin.
    destruct (media_type r) as [content_type |];
      repeat match type of Hin with
             | context [if ?c then _ else _] => destruct c
             end;
      repeat (apply in_app_or in Hin as [Hin | Hin]);
      try contradiction;
      destruct Hin as [E | []];
      try (now apply Htype in E);
      injection E as <- <-; left; split; reflexivity.
  - right. apply in_map_iff in Hin as (cookie & E & Hc).
    injection E as <- <-. eauto.
Qed.

End responses.

Section client_side.

Import router.

(** What every answer built after the origin has answered satisfies. *)
Lemma answer_upstream_cases settings urljoin re_sub BeautifulSoup str_soup
    inject_ads_and_trackers decode_utf8 megabytes request site origin_url
    origin_hostname effective_config new_session_created session_id signed
    db response db' r (P : Database -> Response -> Prop) :
  answer_upstream settings urljoin re_sub BeautifulSoup str_soup
    inject_ads_and_trackers decode_utf8 megabytes request site origin_url
    origin_hostname effective_config new_session_created session_id signed
    db response = Ok (db', r) ->
  (forall n, P db (mk_response 413 []
                     (Text ("Response too large: " +:+ megabytes n +:+ "MB exceeds "
                              +:+ Py.str_int (MAX_RESPONSE_SIZE_MB settings)
                              +:+ "MB limit"))
                     (Some "text/plain") [])) ->
  (forall db2 location r2,
     persist_cookies site origin_hostname effective_config session_id db response
       = Ok db2 ->
     redirect_response urljoin request site origin_url response location
       new_session_created session_id signed = Ok r2 ->
     P db2 r2) ->
  (forall db2 r2,
     persist_cookies site origin_hostname effective_config session_id db response
       = Ok db2 ->
     content_response urljoin re_sub BeautifulSoup str_soup inject_ads_and_trackers
       decode_utf8 request site origin_url effective_config response
       new_session_created session_id signed = Ok r2 ->
     P db2 r2) ->
  P db' r.
Proof.
  intros H H413 Hred Hcont. unfold answer_upstream in H.
  destruct (too_large settings response) as [[n |] | e]; cbn [rbind] in H;
    [| | discriminate H].
  - injection H as <- <-. apply H413.
  - destruct (persist_cookies _ _ _ _ _ _) as [db2 | e] eqn:Ep; cbn [rbind] in H;
      [| discriminate H].
    match type of H with
    | match ?loc with _ => _ end = _ => destruct loc as [location |]
    end.
    + destruct (redirect_response _ _ _ _ _ _ _ _ _) as [r2 | e] eqn:Er;
        cbn [rbind] in H; [| discriminate H].
      injection H as <- <-. now apply (Hred db2 location r2).
    + destruct (content_response _ _ _ _ _ _ _ _ _ _ _ _ _ _) as [r2 | e] eqn:Er;
        cbn [rbind] in H; [| discriminate H].
      injection H as <- <-. now apply (Hcont db2 r2).
Qed.

(** [proxy_request] either answers 502 or goes on with the answer of the
    origin. *)
Lemma proxy_request_cases settings urljoin re_sub BeautifulSoup str_soup
    inject_ads_and_trackers fetch decode_utf8 megabytes random_token
    request site origin_url db db' r (P : Database -> Response -> Prop) :
  proxy_request settings urljoin re_sub BeautifulSoup str_soup
    inject_ads_and_trackers fetch decode_utf8 megabytes random_token
    request site origin_url db = Ok (db', r) ->
  let db0 :=
    match global_config db with
    | Some _ => db
    | None => mk_db (sites db) (Some config_helper.default_global_config)
                (cookie_jars db)
    end in
  let effective_config :=
    config_helper.get_effective_config site
      (default config_helper.default_global_config (global_config db)) in
  (forall e, P db0 (mk_response 502 [] (Text ("Error fetching origin: " +:+ exn_str e))
                      (Some "text/plain") [])) ->
  (forall origin_hostname response,
     answer_upstream settings urljoin re_sub BeautifulSoup str_soup
       inject_ads_and_trackers decode_utf8 megabytes request site origin_url
       origin_hostname effective_config
       (snd (fst (acquire_session settings random_token request effective_config)))
       (fst (fst (acquire_session settings random_token request effective_config)))
       (snd (acquire_session settings random_token request effective_config))
       db0 response = Ok (db', r) ->
     P db' r) ->
  P db' r.
Proof.
  intros H db0 effective_config H502 Hans. unfold proxy_request in H.
  destruct (global_config db) as [g |]; cbn [default from_option id] in *;
    subst db0 effective_config;
    (destruct (acquire_session settings random_token request _)
       as [[session_id new_session_created] signed] eqn:Eacq;
     cbn [fst snd] in *;
     destruct (urllib.urlparse origin_url) as [origin_parsed | e];
       cbn [rbind] in H; [| discriminate H];
     destruct (rewrite_referer _ origin_url) as [fh | e];
       cbn [rbind] in H; [| discriminate H];
     match type of H with
     | rbind ?c _ = _ => destruct c as [fh2 | e]; cbn [rbind] in H;
                         [| discriminate H]
     end;
     destruct (urllib.hostname origin_parsed) as [origin_host |];
       [| discriminate H];
     destruct (fetch _ _ _ _) as [response | e];
       [ now apply (Hans origin_host response)
       | injection H as <- <-; apply H502 ]).
Qed.

End client_side.

(** The headers and the cookies that [proxy_request] gives to the
    response it returns. *)
Lemma returned_headers_passable settings urljoin re_sub BeautifulSoup
    str_soup inject_ads_and_trackers fetch decode_utf8 megabytes random_token
    request site origin_url db db' r :
  router.proxy_request settings urljoin re_sub BeautifulSoup str_soup
    inject_ads_and_trackers fetch decode_utf8 megabytes random_token
    request site origin_url db = Ok (db', r) ->
  forallb passable (router.headers r) = true /\
  Forall (fun c => exists value, c = router.session_cookie value)
    (router.cookies_set r).
Proof.
  intros H.
  apply (proxy_request_cases _ _ _ _ _ _ _ _ _ _ _ _ _ _ _ _
           (fun _ r => forallb passable (router.headers r) = true /\
                       Forall (fun c => exists value, c = router.session_cookie value)
                         (router.cookies_set r)) H).
  - intros e. split; [reflexivity | constructor].
  - intros origin_hostname response Ha.
    apply (answer_upstream_cases _ _ _ _ _ _ _ _ _ _ _ _ _ _ _ _ _ _ _ _
             (fun _ r => forallb passable (router.headers r) = true /\
                         Forall (fun c => exists value, c = router.session_cookie value)
                           (router.cookies_set r)) Ha).
    + intros n. split; [reflexivity | constructor].
    + intros db2 location r2 _ Hr.
      apply redirect_response_passable in Hr as (Hp & Hc & _).
      split; [exact Hp |]. eapply List.Forall_impl; [| exact Hc].
      intros c ->. eauto.
    + intros db2 r2 _ Hr.
      apply content_response_passable in Hr as (Hp & Hc & _).
      split; [exact Hp |]. eapply List.Forall_impl; [| exact Hc].
      intros c ->. eauto.
Qed.

(** X11: the headers of the origin that the proxy strips never reach the
    client.  In the header list ([raw_headers]) of a response that
    [proxy_request] returns, a header with a stripped name
    ([set-cookie], [content-security-policy],
    [strict-transport-security], [x-frame-options],
    [access-control-allow-origin], [content-encoding],
    [transfer-encoding] or [content-length], in any letter case) is
    either the [content-length] that the framework computes from the
    body that is returned, or the [set-cookie] of the session cookie of
    the proxy. *)
Theorem stripped_headers_never_returned settings urljoin re_sub BeautifulSoup
    str_soup inject_ads_and_trackers fetch decode_utf8 megabytes random_token
    (cookie_header : router.Cookie -> string)
    request site origin_url db db' r (name value : string) :
  router.proxy_request settings urljoin re_sub BeautifulSoup str_soup
    inject_ads_and_trackers fetch decode_utf8 megabytes random_token
    request site origin_url db = Ok (db', r) ->
  In (name, value) (router.raw_headers cookie_header r) ->
  passable (name, value) = false ->
  (name = "content-length" /\
   value = Py.str_int (Z.of_nat (length (router.render (router.content r))))) \/
  (name = "set-cookie" /\
   exists signed_session_id,
     value = cookie_header (router.session_cookie signed_session_id)).
Proof.
  intros H Hin Hno.
  apply returned_headers_passable in H as [Hp Hc].
  destruct (raw_headers_stripped cookie_header r name value Hp Hin Hno)
    as [Hlen | (Hname & cookie & Hcookie & Hvalue)]; [now left | right].
  split; [exact Hname |].
  rewrite List.Forall_forall in Hc. destruct (Hc cookie Hcookie) as [signed ->].
  eauto.
Qed.

(** ** What the origin receives *)

Section origin_side.

Import router.

Lemma lookup_absent (d : cookie_manager.dict) (k : string) :
  Forall (fun entry => fst entry <> k) d -> cookie_manager.lookup d k = None.
Proof.
  induction 1 as [|[k0 v0] d Hk _ IH]; [reflexivity |]. simpl in *.
  destruct (String.eqb_spec k0 k); [contradiction | exact IH].
Qed.

Lemma assign_names (N : string -> Prop) (d : cookie_manager.dict) (k v : string) :
  N k -> Forall (fun entry => N (fst entry)) d ->
  Forall (fun entry => N (fst entry)) (cookie_manager.assign d k v).
Proof.
  intros Hk. induction 1 as [|[k0 v0] d H0 Hd IH]; simpl.
  - now repeat constructor.
  - destruct (String.eqb k0 k); constructor; auto.
Qed.

Lemma copied_names (request : Request) :
  Forall (fun entry => In (fst entry) FORWARD_HEADERS) (copied_headers request).
Proof.
  unfold copied_headers. apply Forall_forall. intros entry He.
  apply list_elem_of_In, in_flat_map in He as (name & Hname & He).
  destruct (request_header (request_headers request) name) as [value |];
    [| contradiction].
  destruct (Py.truthy value); [| contradiction].
  destruct He as [<- | []]. exact Hname.
Qed.

Lemma lookup_copied (request : Request) (name value : string) :
  cookie_manager.lookup (copied_headers request) name = Some value ->
  request_header (request_headers request) name = Some value.
Proof.
  unfold copied_headers.
  assert (H : forall names,
    cookie_manager.lookup
      (flat_map
         (fun header_name =>
            match request_header (request_headers request) header_name with
            | Some header_value =>
                if Py.truthy header_value then [(header_name, header_value)] else []
            | None => []
            end) names) name = Some value ->
    request_header (request_headers request) name = Some value).
  { induction names as [|n names IH]; [discriminate |]. cbn [flat_map].
    rewrite lookup_app.
    destruct (request_header (request_headers request) n) as [v |] eqn:En;
      [| exact IH].
    destruct (Py.truthy v); [| exact IH]. cbn [cookie_manager.lookup].
    destruct (String.eqb_spec n name) as [<- | _]; [| exact IH].
    intros H. now injection H as <-. }
  apply H.
Qed.

Lemma rewrite_referer_keeps (d d' : header_list) (origin_url : string) :
  rewrite_referer d origin_url = Ok d' ->
  (forall N : string -> Prop,
     N "referer" -> Forall (fun entry => N (fst entry)) d ->
     Forall (fun entry => N (fst entry)) d') /\
  (forall k, k <> "referer" ->
     cookie_manager.lookup d' k = cookie_manager.lookup d k).
Proof.
  unfold rewrite_referer. intros H.
  destruct (cookie_manager.lookup d "referer") as [referer |];
    [| injection H as <-; auto].
  destruct (urllib.urlparse referer) as [parsed | e]; [| discriminate H].
  cbn [rbind] in H.
  destruct (urllib.hostname parsed) as [[|c h] |]; injection H as <-; auto.
  split.
  - intros N Hn Hd. now apply (assign_names N).
  - intros k Hk. rewrite lookup_assign.
    destruct (String.eqb_spec "referer" k); [congruence | reflexivity].
Qed.

End origin_side.

(** X12: what the origin is sent.  The answer of [proxy_request] depends
    on the HTTP client only through what it answers to a request with
    the method of the client and the origin URL that carries no header
    but [user-agent], [accept], [accept-language], [accept-encoding],
    [content-type], [referer], [Host] and [Cookie], with the host name
    of the origin URL as [Host], the first five as the client sent them,
    no [Cookie] when the site keeps no cookie jar, and the body of the
    client on POST, PUT and PATCH only: two clients that agree on such
    requests give the same answer. *)
Theorem origin_request_whitelist settings urljoin re_sub BeautifulSoup str_soup
    inject_ads_and_trackers fetch1 fetch2 decode_utf8 megabytes random_token
    request site origin_url db :
  (forall m u sent b,
     origin_request_ok request site origin_url db m u sent b ->
     fetch1 m u sent b = fetch2 m u sent b) ->
  router.proxy_request settings urljoin re_sub BeautifulSoup str_soup
    inject_ads_and_trackers fetch1 decode_utf8 megabytes random_token
    request site origin_url db
  = router.proxy_request settings urljoin re_sub BeautifulSoup str_soup
      inject_ads_and_trackers fetch2 decode_utf8 megabytes random_token
      request site origin_url db.
Proof.
  intros Hagree. unfold router.proxy_request.
  set (cfg := config_helper.get_effective_config site
                (default config_helper.default_global_config
                   (router.global_config db))).
  assert (Hfetch :
    forall session_id parsed fh fh2 host,
      urllib.urlparse origin_url = Ok parsed ->
      urllib.hostname parsed = Some host ->
      router.rewrite_referer
        (cookie_manager.assign (router.copied_headers request) "Host" host)
        origin_url = Ok fh ->
      (if router.session_truthy session_id && router.is_cookie_jar cfg then
         stored_cookies <-r
           cookie_manager.get_cookies (router.cookie_jars db) (site_id site)
             (default EmptyString session_id) host ;;
         match stored_cookies with
         | [] => Ok fh
         | _ =>
             let cookie_header := cookie_manager.build_cookie_header stored_cookies in
             if Py.truthy cookie_header
             then Ok (cookie_manager.assign fh "Cookie" cookie_header)
             else Ok fh
         end
       else Ok fh) = Ok fh2 ->
      origin_request_ok request site origin_url db (router.method request)
        origin_url fh2
        (if existsb (String.eqb (router.method request)) ["POST"; "PUT"; "PATCH"]
         then Some (router.body request) else None)).
  { intros session_id parsed fh fh2 host Hparse Hhost Href Hck.
    apply rewrite_referer_keeps in Href as [Hnames Hlook].
    set (N := fun name => In name (router.FORWARD_HEADERS ++ ["Host"; "Cookie"])).
    assert (Hfh : Forall (fun entry => N (fst entry)) fh).
    { apply Hnames; [unfold N; cbn; tauto |].
      apply (assign_names N); [unfold N; cbn; tauto |].
      eapply List.Forall_impl; [| apply copied_names].
      intros entry He. unfold N. apply in_app_iff. now left. }
    assert (Hfh2 : fh2 = fh \/
                   exists c, router.is_cookie_jar cfg = true /\
                             fh2 = cookie_manager.assign fh "Cookie" c).
    { destruct (router.session_truthy session_id && router.is_cookie_jar cfg) eqn:E;
        [| injection Hck as <-; now left].
      apply andb_true_iff in E as [_ E].
      destruct (cookie_manager.get_cookies _ _ _ _) as [stored | e];
        [| discriminate Hck].
      cbn [rbind] in Hck. destruct stored as [|kv stored];
        [injection Hck as <-; now left |].
      destruct (Py.truthy _); injection Hck as <-; [right; eauto | now left]. }
    assert (Hsame : forall k, k <> "Cookie" ->
              cookie_manager.lookup fh2 k = cookie_manager.lookup fh k).
    { intros k Hk. destruct Hfh2 as [-> | (c & _ & ->)]; [reflexivity |].
      rewrite lookup_assign.
      destruct (String.eqb_spec "Cookie" k); [congruence | reflexivity]. }
    repeat split.
    - destruct Hfh2 as [-> | (c & _ & ->)]; [exact Hfh |].
      apply (assign_names N); [unfold N; cbn; tauto | exact Hfh].
    - exists parsed. split; [exact Hparse |].
      rewrite Hsame by discriminate. rewrite Hlook by discriminate.
      rewrite lookup_assign, String.eqb_refl. now rewrite Hhost.
    - intros name value Hname Hl.
      assert (Hn : name <> "Cookie" /\ name <> "referer" /\ name <> "Host").
      { cbn [In] in Hname.
        destruct Hname as [<- | [<- | [<- | [<- | [<- | []]]]]];
          repeat split; discriminate. }
      destruct Hn as (Hn1 & Hn2 & Hn3).
      rewrite Hsame in Hl by exact Hn1. rewrite Hlook in Hl by exact Hn2.
      rewrite lookup_assign in Hl.
      destruct (String.eqb_spec "Host" name); [congruence |].
      now apply lookup_copied.
    - intros Hstateless.
      destruct Hfh2 as [-> | (c & Hjar & _)]; [| unfold cfg in Hjar; congruence].
      rewrite Hlook by discriminate. rewrite lookup_assign.
      change (String.eqb "Host" "Cookie") with false. cbv iota.
      apply lookup_absent.
      eapply List.Forall_impl; [| apply copied_names].
      intros [k v] He Heq. cbn in He, Heq. subst k.
      intuition discriminate. }
  destruct (router.global_config db) as [g |]; cbn [default from_option id] in *;
    (destruct (router.acquire_session settings random_token request _)
       as [[session_id new_session_created] signed];
     destruct (urllib.urlparse origin_url) as [parsed | e] eqn:Hparse;
       cbn [rbind]; [| reflexivity];
     destruct (urllib.hostname parsed) as [host |] eqn:Hhost;
       [| destruct (router.rewrite_referer _ origin_url); cbn [rbind];
          [| reflexivity];
          match goal with
          | |- rbind ?c _ = _ => destruct c; reflexivity
          end];
     destruct (router.rewrite_referer _ origin_url) as [fh | e] eqn:Href;
       cbn [rbind]; [| reflexivity];
     match goal with
     | |- rbind ?c _ = _ => destruct c as [fh2 | e] eqn:Hck; cbn [rbind];
                            [| reflexivity]
     end;
     rewrite (Hagree _ _ _ _
                (Hfetch session_id parsed fh fh2 host eq_refl Hhost Href Hck));
     reflexivity).
Qed.

Lemma origin_request_whitelist_witness :
  router.proxy_request router.default_settings unused_urljoin unused_re_sub
    text_soup text_of_soup unused_inject
    (origin_answers (router.mk_upstream 204 [] EmptyString))
    (fun s => s) Py.str_int "token" (get_request "mirror.com") example_site
    "https://source.com/ping" example_db
  = router.proxy_request router.default_settings unused_urljoin unused_re_sub
      text_soup text_of_soup unused_inject
      (fun m u sent b =>
         if String.eqb m "GET" then Ok (router.mk_upstream 204 [] EmptyString)
         else Raise (OtherError "method"))
      (fun s => s) Py.str_int "token" (get_request "mirror.com") example_site
      "https://source.com/ping" example_db.
Proof.
  apply origin_request_whitelist.
  intros m u sent b H. destruct H as [Hm _]. rewrite Hm. reflexivity.
Defined.

(** ** Sessions and the cookie jar in the proxy *)

Section proxy_sessions.

Import router.

Lemma acquire_session_stateless settings random_token request cfg :
  is_cookie_jar cfg = false ->
  acquire_session settings random_token request cfg = (None, false, None).
Proof. intros H. unfold acquire_session. now rewrite H. Qed.

Lemma persist_cookies_stateless site origin_hostname cfg session_id db response :
  is_cookie_jar cfg = false ->
  persist_cookies site origin_hostname cfg session_id db response = Ok db.
Proof.
  intros H. unfold persist_cookies. now rewrite H, andb_false_r.
Qed.

Lemma content_response_old_session urljoin re_sub BeautifulSoup str_soup
    inject_ads_and_trackers decode_utf8 request site origin_url effective_config
    response session_id signed r :
  content_response urljoin re_sub BeautifulSoup str_soup inject_ads_and_trackers
    decode_utf8 request site origin_url effective_config response
    false session_id signed = Ok r ->
  cookies_set r = [].
Proof.
  unfold content_response. unfold with_session_cookie. cbn [andb].
  destruct (Py.contains "text/html" _).
  - destruct (filter_ads.clean_html _ _ _ _); [| discriminate]. cbn [rbind].
    destruct (html_rewriter.rewrite_html _ _ _ _ _ _ _ _ _ _); [| discriminate].
    cbn [rbind]. destruct (inject_ads_and_trackers _ _); [| discriminate].
    cbn [rbind]. intros H. now injection H as <-.
  - intros H. now injection H as <-.
Qed.

Lemma redirect_response_old_session urljoin request site origin_url response
    location session_id signed r :
  redirect_response urljoin request site origin_url response location
    false session_id signed = Ok r ->
  cookies_set r = [].
Proof.
  unfold redirect_response, with_session_cookie. cbn [andb].
  destruct (normalize_redirect_location _ _ _); [| discriminate]. cbn [rbind].
  destruct (map_origin_url_to_mirror _ _ _); [| discriminate]. cbn [rbind].
  intros H. now injection H as <-.
Qed.

End proxy_sessions.

(** X13: a site without a cookie jar keeps nothing about the client.
    When the effective session mode is not [cookie_jar], a response of
    [proxy_request] sets no cookie, and the table of cookie jars and the
    table of sites are left as they were. *)
Theorem stateless_keeps_no_state settings urljoin re_sub BeautifulSoup
    str_soup inject_ads_and_trackers fetch decode_utf8 megabytes random_token
    request site origin_url db db' r :
  router.is_cookie_jar
    (config_helper.get_effective_config site
       (default config_helper.default_global_config (router.global_config db)))
  = false ->
  router.proxy_request settings urljoin re_sub BeautifulSoup str_soup
    inject_ads_and_trackers fetch decode_utf8 megabytes random_token
    request site origin_url db = Ok (db', r) ->
  router.cookies_set r = [] /\
  router.cookie_jars db' = router.cookie_jars db /\
  router.sites db' = router.sites db.
Proof.
  intros Hmode H.
  apply (proxy_request_cases _ _ _ _ _ _ _ _ _ _ _ _ _ _ _ _
           (fun db' r => router.cookies_set r = [] /\
                         router.cookie_jars db' = router.cookie_jars db /\
                         router.sites db' = router.sites db) H).
  - intros e. cbn. now destruct (router.global_config db).
  - intros origin_hostname response Ha.
    rewrite (acquire_session_stateless _ _ _ _ Hmode) in Ha. cbn [fst snd] in Ha.
    apply (answer_upstream_cases _ _ _ _ _ _ _ _ _ _ _ _ _ _ _ _ _ _ _ _
             (fun db' r => router.cookies_set r = [] /\
                           router.cookie_jars db' = router.cookie_jars db /\
                           router.sites db' = router.sites db) Ha).
    + intros n. cbn. now destruct (router.global_config db).
    + intros db2 location r2 Hp Hr.
      rewrite (persist_cookies_stateless _ _ _ _ _ _ Hmode) in Hp.
      injection Hp as <-.
      apply redirect_response_old_session in Hr.
      now destruct (router.global_config db).
    + intros db2 r2 Hp Hr.
      rewrite (persist_cookies_stateless _ _ _ _ _ _ Hmode) in Hp.
      injection Hp as <-.
      apply content_response_old_session in Hr.
      now destruct (router.global_config db).
Qed.

(** X14: the session cookie that the proxy hands out is honoured.  On a
    site with a cookie jar, let a request end with a session, minted
    from a non-empty token or read from its cookie.  A later request
    that carries the signed value of that session continues the same
    session and no new session is minted; and a session that was minted
    has the token drawn as its identifier and the signed token as its
    cookie value. *)
Theorem session_continuity settings random_token random_token' request request'
    cfg :
  router.is_cookie_jar cfg = true ->
  random_token <> EmptyString ->
  let session := router.acquire_session settings random_token request cfg in
  (snd (fst session) = true ->
   session
   = (Some random_token, true,
      Some (session_manager.create_signed_session_cookie
              (router.SECRET_KEY settings) random_token))) /\
  (exists signed_value, snd session = Some signed_value) /\
  (forall signed_value,
     snd session = Some signed_value ->
     cookie_manager.lookup (router.request_cookies request')
       session_manager.SESSION_COOKIE_NAME = Some signed_value ->
     router.acquire_session settings random_token' request' cfg
     = (fst (fst session), false, Some signed_value)).
Proof.
  intros Hjar Htok. cbv zeta.
  pose proof (verify_signed (router.SECRET_KEY settings) random_token) as Hv.
  assert (Hsigned : Py.truthy
                      (session_manager.create_signed_session_cookie
                         (router.SECRET_KEY settings) random_token) = true).
  { unfold session_manager.create_signed_session_cookie,
      session_manager.sign_session_id.
    destruct random_token; [congruence | reflexivity]. }
  assert (Hnext : forall signed_value t,
    Py.truthy signed_value = true ->
    session_manager.verify_session_id (router.SECRET_KEY settings) signed_value
      = Some t ->
    Py.truthy t = true ->
    cookie_manager.lookup (router.request_cookies request')
      session_manager.SESSION_COOKIE_NAME = Some signed_value ->
    router.acquire_session settings random_token' request' cfg
    = (Some t, false, Some signed_value)).
  { intros signed_value t Hs Hver Ht Hl. unfold router.acquire_session.
    rewrite Hjar, Hl, Hs, Hver. cbn [router.session_truthy]. now rewrite Ht. }
  set (next := router.acquire_session settings random_token' request' cfg) in *.
  unfold router.acquire_session. rewrite Hjar.
  destruct (cookie_manager.lookup (router.request_cookies request)
              session_manager.SESSION_COOKIE_NAME) as [c |] eqn:El.
  - destruct (Py.truthy c) eqn:Ec.
    + destruct (session_manager.verify_session_id (router.SECRET_KEY settings) c)
        as [t |] eqn:Ever.
      * cbn [router.session_truthy]. destruct (Py.truthy t) eqn:Et; cbn [negb fst snd].
        -- split; [discriminate |]. split; [eauto |].
           intros signed_value Hs Hl. injection Hs as <-.
           now apply Hnext.
        -- unfold session_manager.create_signed_session_cookie in *.
           rewrite Hv. split; [reflexivity |]. split; [eauto |].
           intros signed_value Hs Hl. injection Hs as <-.
           apply Hnext; auto. now apply truthy_nonempty.
      * cbn [router.session_truthy negb fst snd].
        unfold session_manager.create_signed_session_cookie in *.
        rewrite Hv. split; [reflexivity |]. split; [eauto |].
        intros signed_value Hs Hl. injection Hs as <-.
        apply Hnext; auto. now apply truthy_nonempty.
    + cbn [router.session_truthy negb fst snd].
      unfold session_manager.create_signed_session_cookie in *.
      rewrite Hv. split; [reflexivity |]. split; [eauto |].
      intros signed_value Hs Hl. injection Hs as <-.
      apply Hnext; auto. now apply truthy_nonempty.
  - cbn [router.session_truthy negb fst snd].
    unfold session_manager.create_signed_session_cookie in *.
    rewrite Hv. split; [reflexivity |]. split; [eauto |].
    intros signed_value Hs Hl. injection Hs as <-.
    apply Hnext; auto. now apply truthy_nonempty.
Qed.

Lemma stateless_keeps_no_state_witness :
  router.cookie_jars
    (router.mk_db [example_site] (Some config_helper.default_global_config) [])
  = router.cookie_jars example_db.
Proof.
  refine (proj1 (proj2
    (stateless_keeps_no_state router.default_settings unused_urljoin
       unused_re_sub text_soup text_of_soup unused_inject
       (origin_answers
          (router.mk_upstream 200
             [("Content-Type", "image/png"); ("Set-Cookie", "a=1");
              ("X-Frame-Options", "DENY"); ("ETag", "abc")] "png"))
       (fun s => s) Py.str_int "token" (get_request "mirror.com") example_site
       "https://source.com/logo" example_db
       (router.mk_db [example_site] (Some config_helper.default_global_config) [])
       (router.mk_response 200 [("content-type", "image/png"); ("etag", "abc")]
          (router.Bytes "png") None []) _ _))).
  - vm_compute. reflexivity.
  - vm_compute. reflexivity.
Defined.

Lemma stripped_headers_never_returned_witness :
  ("content-length" = "content-length" /\
   "3" = Py.str_int (Z.of_nat (length (router.render (router.Bytes "png"))))) \/
  ("content-length" = "set-cookie" /\
   exists signed_session_id,
     "3" = router.cookie_value (router.session_cookie signed_session_id)).
Proof.
  refine (stripped_headers_never_returned router.default_settings unused_urljoin
            unused_re_sub text_soup text_of_soup unused_inject
            (origin_answers
               (router.mk_upstream 200
                  [("Content-Type", "image/png"); ("Set-Cookie", "a=1");
                   ("X-Frame-Options", "DENY"); ("Content-Length", "9999");
                   ("ETag", "abc")] "png"))
            (fun s => s) Py.str_int "token" router.cookie_value
            (get_request "mirror.com") example_site
            "https://source.com/logo" example_db
            (router.mk_db [example_site] (Some config_helper.default_global_config) [])
            (router.mk_response 200 [("content-type", "image/png"); ("etag", "abc")]
               (router.Bytes "png") None [])
            "content-length" "3" _ _ _).
  - vm_compute. reflexivity.
  - vm_compute. auto.
  - reflexivity.
Defined.

Lemma session_continuity_witness :
  router.acquire_session router.default_settings "other"
    (request_with_session
       (session_manager.create_signed_session_cookie
          (router.SECRET_KEY router.default_settings) "abc"))
    jar_config
  = (Some "abc", false,
     Some (session_manager.create_signed_session_cookie
             (router.SECRET_KEY router.default_settings) "abc")).
Proof.
  refine (proj2 (proj2
    (session_continuity router.default_settings "abc" "other"
       (get_request "mirror.com")
       (request_with_session
          (session_manager.create_signed_session_cookie
             (router.SECRET_KEY router.default_settings) "abc"))
       jar_config _ _))
    (session_manager.create_signed_session_cookie
       (router.SECRET_KEY router.default_settings) "abc") _ _).
  - reflexivity.
  - discriminate.
  - vm_compute. reflexivity.
  - reflexivity.
Defined.

(** ** The HTML rewriter *)

Section rewriter_outline.

Lemma set_blot (attrs : list (string * string)) (k v v' : string) :
  bs4.get attrs k = Some v ->
  In k SWEPT_ATTRIBUTES ->
  List.map blot (bs4.set attrs k v') = List.map blot attrs.
Proof.
  intros Hg Hk. induction attrs as [|[k0 v0] attrs IH]; [discriminate |].
  simpl in *. destruct (String.eqb_spec k0 k) as [-> | Hne].
  - cbn [List.map]. f_equal. unfold blot. cbn [fst].
    assert (E : existsb (String.eqb k) SWEPT_ATTRIBUTES = true).
    { apply existsb_exists. exists k. split; [exact Hk | apply String.eqb_refl]. }
    now rewrite E.
  - cbn [List.map]. f_equal. now apply IH.
Qed.

Lemma visit_node_tag body (name : string) (attrs : list (string * string))
    (contents : list bs4.node) :
  bs4.visit_node body (bs4.Tag name attrs contents)
  = (r <-r body name attrs contents ;;
     match snd r with
     | Some s => Ok (bs4.Tag name (fst r) [bs4.NavigableString s])
     | None =>
         contents' <-r bs4.visit body contents ;;
         Ok (bs4.Tag name (fst r) contents')
     end).
Proof. reflexivity. Qed.

Lemma visit_outline body (soup soup' : bs4.soup) :
  gentle body ->
  bs4.visit body soup = Ok soup' ->
  List.map outline soup' = List.map outline soup.
Proof.
  intros Hg. revert soup'.
  assert (Hnode : forall n n',
            bs4.visit_node body n = Ok n' -> outline n' = outline n).
  { induction n as [s | name attrs contents IH] using node_ind'; intros n' H.
    - now injection H as <-.
    - rewrite visit_node_tag in H.
      destruct (body name attrs contents) as [r | e] eqn:Eb; [| discriminate H].
      cbn [rbind] in H. destruct (Hg _ _ _ _ Eb) as [Hs Ha].
      assert (Hattrs :
        (if String.eqb name "base" then [] else List.map blot (fst r))
        = (if String.eqb name "base" then [] else List.map blot attrs)).
      { destruct (String.eqb name "base"); [reflexivity |].
        destruct Ha as [Ha | Ha]; [discriminate | exact Ha]. }
      destruct (snd r) as [s |].
      + injection H as <-. cbn [outline]. rewrite Hattrs.
        destruct Hs as [Hs | Hs]; [discriminate |]. now rewrite Hs.
      + destruct (bs4.visit body contents) as [contents' | e] eqn:Ev;
          [| discriminate H].
        cbn [rbind] in H. injection H as <-. cbn [outline]. rewrite Hattrs.
        f_equal. destruct (_ || _); [reflexivity |].
        clear Eb Hs Ha Hattrs. revert contents' Ev.
        induction IH as [|c contents Hc _ IHl]; intros contents' Ev.
        * now injection Ev as <-.
        * cbn [bs4.visit] in Ev.
          destruct (bs4.visit_node body c) as [c' | e] eqn:Ec; [| discriminate Ev].
          cbn [rbind] in Ev.
          destruct (bs4.visit body contents) as [l' | e] eqn:El; [| discriminate Ev].
          cbn [rbind] in Ev. injection Ev as <-. cbn [List.map].
          f_equal; [now apply Hc | now apply IHl]. }
  induction soup as [|c soup IH]; intros soup' H.
  - now injection H as <-.
  - cbn [bs4.visit] in H.
    destruct (bs4.visit_node body c) as [c' | e] eqn:Ec; [| discriminate H].
    cbn [rbind] in H.
    destruct (bs4.visit body soup) as [l' | e] eqn:El; [| discriminate H].
    cbn [rbind] in H. injection H as <-. cbn [List.map].
    f_equal; [now apply Hnode | now apply IH].
Qed.

End rewriter_outline.

Section sweeps.

Variable urljoin : string -> string -> result string.
Variable re_sub :
  string -> (html_rewriter.re_match -> result string) -> string -> result string.
Variables mirror_host mirror_root site_source_root : string.
Variable effective_config : config.
Variable current_page_origin_url : string.

Ltac settle :=
  cbn [fst snd];
  split;
  [ first [left; reflexivity | right; reflexivity | right; apply orb_true_r]
  | first [right; reflexivity | left; reflexivity] ].

Lemma sweep_gentle (name attr target : string) :
  (attr = target /\ In attr SWEPT_ATTRIBUTES) \/ name = "base" ->
  gentle (html_rewriter.sweep urljoin mirror_host mirror_root site_source_root
            effective_config current_page_origin_url name attr target).
Proof.
  intros Hcase tag_name attrs contents r H. unfold html_rewriter.sweep in H.
  destruct (String.eqb_spec tag_name name) as [-> | _];
    [| injection H as <-; settle].
  destruct (bs4.get attrs attr) as [url |] eqn:Eg;
    [| injection H as <-; settle].
  destruct (html_rewriter.rewrite _ _ _ _ _ _ url) as [rewritten | e];
    [| discriminate H].
  cbn [rbind] in H. injection H as <-. cbn [fst snd]. split; [now left |].
  destruct Hcase as [[<- Hin] | ->].
  - right. now apply (set_blot attrs attr url).
  - now left.
Qed.

Lemma sweep_srcset_gentle :
  gentle (html_rewriter.sweep_srcset urljoin mirror_host mirror_root
            site_source_root effective_config current_page_origin_url).
Proof.
  intros tag_name attrs contents r H. unfold html_rewriter.sweep_srcset in H.
  destruct (String.eqb tag_name "img");
    [| injection H as <-; settle].
  destruct (bs4.get attrs "srcset") as [srcset |] eqn:Eg;
    [| injection H as <-; settle].
  destruct (html_rewriter.rewrite_srcset_parts _ _ _ _ _ _ _) as [parts | e];
    [| discriminate H].
  cbn [rbind] in H. injection H as <-. cbn [fst snd]. split; [now left |].
  right. apply (set_blot attrs "srcset" srcset); [exact Eg |].
  cbn. tauto.
Qed.

Lemma sweep_scripts_gentle :
  gentle (html_rewriter.sweep_scripts urljoin re_sub mirror_host mirror_root
            site_source_root effective_config current_page_origin_url).
Proof.
  intros tag_name attrs contents r H. unfold html_rewriter.sweep_scripts in H.
  destruct (String.eqb tag_name "script") eqn:En;
    [| injection H as <-; settle].
  destruct (bs4.get attrs "src") as [[|c src] |];
    destruct (bs4.tag_string contents) as [js |];
    try (injection H as <-; settle);
    (destruct (Py.truthy js); [| injection H as <-; settle];
     destruct (html_rewriter.rewrite_js_redirects _ _ _ _ _ _ _ _) as [js' | e];
       [| discriminate H];
     cbn [rbind] in H; destruct (String.eqb js' js); injection H as <-;
     settle).
Qed.

Lemma sweep_style_tags_gentle :
  gentle (html_rewriter.sweep_style_tags urljoin re_sub mirror_host mirror_root
            site_source_root effective_config current_page_origin_url).
Proof.
  intros tag_name attrs contents r H. unfold html_rewriter.sweep_style_tags in H.
  destruct (String.eqb tag_name "style") eqn:En;
    [| injection H as <-; settle].
  destruct (bs4.tag_string contents) as [css |];
    [| injection H as <-; settle].
  destruct (Py.truthy css); [| injection H as <-; settle].
  destruct (html_rewriter.rewrite_css_urls _ _ _ _ _ _ _ _) as [css' | e];
    [| discriminate H].
  cbn [rbind] in H. destruct (String.eqb css' css); injection H as <-; settle.
Qed.

Lemma sweep_style_attrs_gentle :
  gentle (html_rewriter.sweep_style_attrs urljoin re_sub mirror_host mirror_root
            site_source_root effective_config current_page_origin_url).
Proof.
  intros tag_name attrs contents r H. unfold html_rewriter.sweep_style_attrs in H.
  destruct (bs4.get attrs "style") as [style |] eqn:Eg;
    [| injection H as <-; settle].
  destruct (Py.contains "url(" style); [| injection H as <-; settle].
  destruct (html_rewriter.rewrite_css_urls _ _ _ _ _ _ _ _) as [style' | e];
    [| discriminate H].
  cbn [rbind] in H.
  destruct (String.eqb style' style); injection H as <-;
    [settle |].
  cbn [fst snd]. split; [now left |]. right.
  apply (set_blot attrs "style" style); [exact Eg | cbn; tauto].
Qed.

End sweeps.

(** X15: the rewriter changes links and nothing else.  A document that
    [rewrite_html] has rewritten, before it is printed, has the elements
    of the parsed document, with the same names, order and nesting, the
    same text outside [script] and [style] elements, and the same
    attributes with the same values, the values of [href], [action],
    [src], [srcset] and [style] and the attributes of [base] elements
    apart. *)
Theorem rewriter_keeps_outline urljoin re_sub mirror_host mirror_root
    site_source_root effective_config current_page_origin_url
    (soup soup' : bs4.soup) :
  html_rewriter.rewrite_soup urljoin re_sub mirror_host mirror_root
    site_source_root effective_config current_page_origin_url soup = Ok soup' ->
  List.map outline soup' = List.map outline soup.
Proof.
  unfold html_rewriter.rewrite_soup. intros H.
  repeat match type of H with
  | rbind (bs4.visit ?body ?s) _ = Ok _ =>
      let s' := fresh "s" in
      let E := fresh "E" in
      destruct (bs4.visit body s) as [s' | ?] eqn:E; [| discriminate H];
      cbn [rbind] in H;
      apply visit_outline in E;
      [ rewrite <- E; clear E
      | first [ apply sweep_gentle; cbn; tauto
              | apply (sweep_srcset_gentle urljoin re_sub) ] ]
  end.
  destruct (pyval_truthy _).
  - destruct (bs4.visit _ s9) as [s10 | ?] eqn:E; [| discriminate H].
    cbn [rbind] in H. apply visit_outline in E; [| apply sweep_scripts_gentle].
    rewrite <- E. clear E.
    destruct (bs4.visit _ s10) as [s11 | ?] eqn:E; [| discriminate H].
    cbn [rbind] in H. apply visit_outline in E; [| apply sweep_style_tags_gentle].
    rewrite <- E. clear E.
    apply visit_outline in H; [exact H | apply sweep_style_attrs_gentle].
  - cbn [rbind] in H.
    destruct (bs4.visit _ s9) as [s11 | ?] eqn:E; [| discriminate H].
    cbn [rbind] in H. apply visit_outline in E; [| apply sweep_style_tags_gentle].
    rewrite <- E. clear E.
    apply visit_outline in H; [exact H | apply sweep_style_attrs_gentle].
Qed.

Lemma rewriter_keeps_outline_witness :
  List.map outline
    [bs4.Tag "html" []
       [bs4.Tag "head" []
          [bs4.Tag "base" [("href", "https://source.com/docs/");
                           ("base", "https://mirror.com/docs/")] []];
        bs4.Tag "body" []
          [bs4.Tag "a" [("href", "https://mirror.com/docs/page")]
             [bs4.NavigableString "next"]]]]
  = List.map outline page_with_base.
Proof.
  apply (rewriter_keeps_outline unused_urljoin unused_re_sub "mirror.com"
           "mirror.com" "source.com" ∅ "https://source.com/docs/").
  vm_compute. reflexivity.
Defined.

(** ** The SSRF guard: the messages *)

Section verdicts.

Local Open Scope Z_scope.

Lemma reserved_is_private (ip : Z) :
  ipaddress.is_reserved ip = true -> ipaddress.is_private ip = true.
Proof.
  unfold ipaddress.is_reserved, ipaddress.is_private. intros H.
  apply andb_true_iff. split.
  - unfold ipaddress.private_networks. cbn [existsb].
    rewrite H; rewrite ?orb_true_r; reflexivity.
  - unfold ipaddress.private_networks_exceptions. cbn [forallb].
    rewrite !in_network_32.
    destruct (Z.eqb_spec ip (ipaddress.of_octets 192 0 0 9)) as [->|_];
      [vm_compute in H; discriminate H |].
    destruct (Z.eqb_spec ip (ipaddress.of_octets 192 0 0 10)) as [->|_];
      [vm_compute in H; discriminate H |].
    reflexivity.
Qed.

End verdicts.

(** X16: of the nine messages with which the guard can turn a resolved
    address away, two occur.  Whenever [is_safe_origin_url] blocks a
    host for the address it resolves to, the address is reported as a
    loopback address or as a private address: the tests for reserved and
    link-local addresses and the five explicit ranges that follow are
    never reached with an address that [is_private] has let through. *)
Theorem resolved_verdicts (gethostbyname : string -> result string)
    (hostname : string) (verdict : bool * string) :
  security.check_resolved gethostbyname hostname = Ok (Some verdict) ->
  exists ip_str,
    gethostbyname hostname = Ok ip_str /\
    (verdict = (false, "Blocked: loopback address " +:+ ip_str) \/
     verdict = (false, "Blocked: private IP address " +:+ ip_str)).
Proof.
  unfold security.check_resolved.
  destruct (gethostbyname hostname) as [ip_str | e]; [| discriminate].
  cbn [rbind]. destruct (ipaddress.ip_address ip_str) as [ip | e]; [| discriminate].
  cbn [rbind]. intros H. exists ip_str. split; [reflexivity |].
  destruct (ipaddress.is_loopback ip) eqn:E1; [left; congruence |].
  destruct (ipaddress.is_private ip) eqn:E2; [right; congruence |].
  exfalso.
  destruct (ipaddress.is_reserved ip) eqn:E3;
    [apply reserved_is_private in E3; congruence |].
  destruct (ipaddress.is_link_local ip) eqn:E4;
    [apply link_local_is_private in E4; congruence |].
  change (ipaddress.in_network ip (ipaddress.IPv4Network 127 0 0 0 8))
    with (ipaddress.is_loopback ip) in H. rewrite E1 in H.
  assert (Hr : rfc1918 ip = false).
  { destruct (rfc1918 ip) eqn:E; [| reflexivity].
    apply rfc1918_is_private in E. congruence. }
  unfold rfc1918 in Hr. apply orb_false_elim in Hr as [Hr Hr3].
  apply orb_false_elim in Hr as [Hr1 Hr2]. rewrite Hr1, Hr2, Hr3 in H.
  change (ipaddress.in_network ip (ipaddress.IPv4Network 169 254 0 0 16))
    with (ipaddress.is_link_local ip) in H. rewrite E4 in H.
  discriminate H.
Qed.

Lemma resolved_verdicts_witness :
  exists ip_str,
    metadata_resolver "metadata.internal" = Ok ip_str /\
    ((false, "Blocked: private IP address 169.254.169.254")
     = (false, "Blocked: loopback address " +:+ ip_str) \/
     (false, "Blocked: private IP address 169.254.169.254")
     = (false, "Blocked: private IP address " +:+ ip_str)).
Proof.
  apply (resolved_verdicts metadata_resolver "metadata.internal").
  vm_compute. reflexivity.
Defined.

(** ** Injection *)

Section injection.

Variable name : string.
Variable new : list bs4.node.

Lemma find_node_tag (tag_name : string) (attrs : list (string * string))
    (contents : list bs4.node) :
  bs4.find_node name (bs4.Tag tag_name attrs contents)
  = if String.eqb tag_name name then Some (bs4.Tag tag_name attrs contents)
    else bs4.find name contents.
Proof. reflexivity. Qed.

Lemma append_in_node_tag (tag_name : string) (attrs : list (string * string))
    (contents : list bs4.node) :
  bs4.append_in_node name new (bs4.Tag tag_name attrs contents)
  = if String.eqb tag_name name
    then Some (bs4.Tag tag_name attrs (contents ++ new))
    else match bs4.append_in name new contents with
         | Some contents' => Some (bs4.Tag tag_name attrs contents')
         | None => None
         end.
Proof. reflexivity. Qed.

Lemma found_again_list (l : bs4.soup) :
  Forall (found_again name new) l ->
  (bs4.find name l = None -> bs4.append_in name new l = None) /\
  (forall t, bs4.find name l = Some t ->
     exists tag_name attrs contents,
       t = bs4.Tag tag_name attrs contents /\
       exists l', bs4.append_in name new l = Some l' /\
                  bs4.find name l'
                  = Some (bs4.Tag tag_name attrs (contents ++ new))).
Proof.
  induction 1 as [|c l [Hn Hs] _ [IHn IHs]]; [split; [reflexivity | discriminate] |].
  cbn [bs4.find bs4.append_in].
  destruct (bs4.find_node name c) as [t |] eqn:Ec.
  - split; [discriminate |]. intros t' Ht. injection Ht as <-.
    destruct (Hs t eq_refl) as (tn & a & cs & -> & c' & Hc' & Hf).
    exists tn, a, cs. split; [reflexivity |].
    exists (c' :: l). rewrite Hc'. split; [reflexivity |].
    cbn [bs4.find]. now rewrite Hf.
  - rewrite (Hn eq_refl). split.
    + intros Hl. now rewrite (IHn Hl).
    + intros t Ht. destruct (IHs t Ht) as (tn & a & cs & -> & l' & Hl' & Hf).
      exists tn, a, cs. split; [reflexivity |].
      exists (c :: l'). rewrite Hl'. split; [reflexivity |].
      cbn [bs4.find]. now rewrite Ec.
Qed.

Lemma found_again_node (n : bs4.node) : found_again name new n.
Proof.
  induction n as [s | tag_name attrs contents IH] using node_ind'.
  - split; [reflexivity | discriminate].
  - unfold found_again. rewrite find_node_tag, append_in_node_tag.
    destruct (String.eqb tag_name name) eqn:En.
    + split; [discriminate |]. intros t Ht. injection Ht as <-.
      exists tag_name, attrs, contents. split; [reflexivity |].
      eexists. split; [reflexivity |]. rewrite find_node_tag. now rewrite En.
    + destruct (found_again_list contents IH) as [Hn Hs]. split.
      * intros Hl. now rewrite (Hn Hl).
      * intros t Ht. destruct (Hs t Ht) as (tn & a & cs & -> & l' & Hl' & Hf).
        exists tn, a, cs. split; [reflexivity |].
        rewrite Hl'. eexists. split; [reflexivity |].
        rewrite find_node_tag. now rewrite En.
Qed.

Lemma find_append_to (soup : bs4.soup) (tag_name : string)
    (attrs : list (string * string)) (contents : list bs4.node) :
  bs4.find name soup = Some (bs4.Tag tag_name attrs contents) ->
  bs4.find name (bs4.append_to name new soup)
  = Some (bs4.Tag tag_name attrs (contents ++ new)).
Proof.
  intros H.
  assert (Hall : Forall (found_again name new) soup).
  { apply Forall_forall. intros n _. apply found_again_node. }
  destruct (found_again_list soup Hall) as [_ Hs].
  destruct (Hs _ H) as (tn & a & cs & Ht & l' & Hl' & Hf).
  injection Ht as <- <- <-. unfold bs4.append_to. now rewrite Hl'.
Qed.

End injection.

Lemma moved_every_other (children : list bs4.node) :
  forallb filter_ads.wanted children = true ->
  filter_ads.moved false children = every_other children /\
  filter_ads.moved true children = every_other (tail children).
Proof.
  induction children as [|a r IH]; intros H; [split; reflexivity |].
  simpl in H. apply andb_true_iff in H as [Ha Hr].
  destruct (IH Hr) as [IH1 IH2]. split.
  - cbn [filter_ads.moved]. rewrite Ha, IH2. now destruct r.
  - cbn [filter_ads.moved tail]. exact IH1.
Qed.

Section inject_steps.

Variable BeautifulSoup : string -> bs4.soup.

(** What one injection appends to the body, by the configuration. *)
Lemma inject_soup_body (cfg : config) (soup : bs4.soup) (tag_name : string)
    (attrs : list (string * string)) (contents : list bs4.node) :
  bs4.find "body" soup = Some (bs4.Tag tag_name attrs contents) ->
  text_or_none (dict_get cfg "custom_ad_html" (PyStr EmptyString)) = true ->
  text_or_none (dict_get cfg "custom_tracker_js" (PyStr EmptyString)) = true ->
  exists ads tracker soup',
    filter_ads.inject_soup BeautifulSoup soup cfg = Ok soup' /\
    bs4.find "body" soup'
    = Some (bs4.Tag tag_name attrs (contents ++ ads ++ tracker)) /\
    ads
    = (if pyval_truthy (dict_get cfg "inject_ads" (PyBool false))
          && pyval_truthy (dict_get cfg "custom_ad_html" (PyStr EmptyString))
       then
         match filter_ads.config_text
                 (dict_get cfg "custom_ad_html" (PyStr EmptyString)) with
         | Ok ad_html =>
             filter_ads.moved false
               match bs4.find "body" (BeautifulSoup ad_html) with
               | Some (bs4.Tag _ _ children) => children
               | _ => BeautifulSoup ad_html
               end
         | Raise _ => []
         end
       else []) /\
    tracker
    = match dict_get cfg "custom_tracker_js" (PyStr EmptyString) with
      | PyStr (String c js) =>
          [bs4.Tag "script" [] [bs4.NavigableString (String c js)]]
      | _ => []
      end.
Proof.
  intros Hbody Had Hjs. unfold filter_ads.inject_soup.
  set (ad := dict_get cfg "custom_ad_html" (PyStr EmptyString)) in *.
  set (tr := dict_get cfg "custom_tracker_js" (PyStr EmptyString)) in *.
  set (stage1 := if pyval_truthy (dict_get cfg "inject_ads" (PyBool false))
                    && pyval_truthy ad
                 then _ else _).
  assert (H1 : exists ads soup1,
             stage1 = Ok soup1 /\
             bs4.find "body" soup1
             = Some (bs4.Tag tag_name attrs (contents ++ ads)) /\
             ads = (if pyval_truthy (dict_get cfg "inject_ads" (PyBool false))
                       && pyval_truthy ad
                    then
                      match filter_ads.config_text ad with
                      | Ok ad_html =>
                          filter_ads.moved false
                            match bs4.find "body" (BeautifulSoup ad_html) with
                            | Some (bs4.Tag _ _ children) => children
                            | _ => BeautifulSoup ad_html
                            end
                      | Raise _ => []
                      end
                    else [])).
  { subst stage1.
    destruct (pyval_truthy (dict_get cfg "inject_ads" (PyBool false))
              && pyval_truthy ad) eqn:E.
    - rewrite Hbody. destruct ad as [| b | ad_html]; try discriminate Had.
      + apply andb_true_iff in E as [_ E]. discriminate E.
      + cbn [filter_ads.config_text rbind]. eexists _, _.
        split; [reflexivity |]. split; [| reflexivity].
        now apply find_append_to.
    - exists [], soup. rewrite app_nil_r. auto. }
  destruct H1 as (ads & soup1 & -> & Hf1 & Hads). cbn [rbind].
  exists ads.
  destruct tr as [| b | [|c js]]; try discriminate Hjs; cbn [pyval_truthy Py.truthy].
  - exists [], soup1. rewrite app_nil_r. auto.
  - exists [], soup1. rewrite app_nil_r. auto.
  - cbn [filter_ads.config_text rbind]. rewrite Hf1.
    eexists _, _. split; [reflexivity |]. split; [| auto].
    rewrite (find_append_to "body" _ soup1 tag_name attrs (contents ++ ads) Hf1).
    now rewrite <- app_assoc.
Qed.

End inject_steps.

(** X17: injection appends to the body and is not idempotent.  On a
    document with a [body], with a tracker script configured,
    [inject_ads_and_trackers] puts the selected ad elements and then
    [<script>tracker</script>] at the end of the first [body], whether
    or not [inject_ads] is set; applied to its own result it puts the
    same elements there once more. *)
Theorem inject_appends_again (BeautifulSoup : string -> bs4.soup) (cfg : config)
    (soup : bs4.soup) (tag_name : string) (attrs : list (string * string))
    (contents : list bs4.node) (js : string) :
  bs4.find "body" soup = Some (bs4.Tag tag_name attrs contents) ->
  dict_get cfg "custom_tracker_js" (PyStr EmptyString) = PyStr js ->
  Py.truthy js = true ->
  text_or_none (dict_get cfg "custom_ad_html" (PyStr EmptyString)) = true ->
  exists ads soup1 soup2,
    filter_ads.inject_soup BeautifulSoup soup cfg = Ok soup1 /\
    bs4.find "body" soup1
    = Some (bs4.Tag tag_name attrs
              (contents ++ ads
                 ++ [bs4.Tag "script" [] [bs4.NavigableString js]])) /\
    filter_ads.inject_soup BeautifulSoup soup1 cfg = Ok soup2 /\
    bs4.find "body" soup2
    = Some (bs4.Tag tag_name attrs
              ((contents ++ ads
                  ++ [bs4.Tag "script" [] [bs4.NavigableString js]])
                 ++ ads ++ [bs4.Tag "script" [] [bs4.NavigableString js]])) /\
    soup2 <> soup1.
Proof.
  intros Hbody Hjs Hne Had.
  assert (Htr : text_or_none (dict_get cfg "custom_tracker_js" (PyStr EmptyString))
                = true) by now rewrite Hjs.
  destruct (inject_soup_body BeautifulSoup cfg soup tag_name attrs contents
              Hbody Had Htr) as (ads & tracker & soup1 & H1 & Hf1 & Hads & Htracker).
  destruct (inject_soup_body BeautifulSoup cfg soup1 tag_name attrs _
              Hf1 Had Htr) as (ads' & tracker' & soup2 & H2 & Hf2 & Hads' & Htracker').
  rewrite Hjs in Htracker, Htracker'. destruct js as [|c js]; [discriminate Hne |].
  subst tracker tracker' ads'. rewrite <- Hads in Hf2.
  exists ads, soup1, soup2. repeat split; try assumption.
  intros Heq. rewrite Heq, Hf1 in Hf2. injection Hf2 as Hf2.
  apply (f_equal (@length _)) in Hf2. rewrite !length_app in Hf2.
  cbn [length] in Hf2. lia.
Qed.

Lemma inject_appends_again_witness :
  exists ads soup1 soup2,
    filter_ads.inject_soup three_banners empty_page tracker_config = Ok soup1 /\
    bs4.find "body" soup1
    = Some (bs4.Tag "body" []
              ([] ++ ads
                 ++ [bs4.Tag "script" [] [bs4.NavigableString "track()"]])) /\
    filter_ads.inject_soup three_banners soup1 tracker_config = Ok soup2 /\
    bs4.find "body" soup2
    = Some (bs4.Tag "body" []
              (([] ++ ads
                  ++ [bs4.Tag "script" [] [bs4.NavigableString "track()"]])
                 ++ ads ++ [bs4.Tag "script" [] [bs4.NavigableString "track()"]])) /\
    soup2 <> soup1.
Proof.
  apply (inject_appends_again three_banners tracker_config empty_page "body" [] []
           "track()"); reflexivity.
Defined.

(** X18: of the elements of the ad markup, every second one is lost.
    The loop that moves the children of the parsed ad markup into the
    page appends a child while it iterates over the list that holds it,
    so the child that follows a moved child is passed over: when all
    the children are elements or non-blank text, the body of the page
    receives the first, the third, the fifth and so on. *)
Theorem ads_every_other (BeautifulSoup : string -> bs4.soup) (cfg : config)
    (soup : bs4.soup) (tag_name : string) (attrs : list (string * string))
    (contents : list bs4.node) (ad_html ad_name : string)
    (ad_attrs : list (string * string)) (children : list bs4.node) :
  bs4.find "body" soup = Some (bs4.Tag tag_name attrs contents) ->
  pyval_truthy (dict_get cfg "inject_ads" (PyBool false)) = true ->
  dict_get cfg "custom_ad_html" (PyStr EmptyString) = PyStr ad_html ->
  Py.truthy ad_html = true ->
  pyval_truthy (dict_get cfg "custom_tracker_js" (PyStr EmptyString)) = false ->
  bs4.find "body" (BeautifulSoup ad_html)
  = Some (bs4.Tag ad_name ad_attrs children) ->
  forallb filter_ads.wanted children = true ->
  exists soup',
    filter_ads.inject_soup BeautifulSoup soup cfg = Ok soup' /\
    bs4.find "body" soup'
    = Some (bs4.Tag tag_name attrs (contents ++ every_other children)).
Proof.
  intros Hbody Hinj Had Hne Htr Hadbody Hall.
  unfold filter_ads.inject_soup. rewrite Hinj, Had, Htr, Hbody.
  cbn [pyval_truthy]. rewrite Hne. cbn [andb filter_ads.config_text rbind].
  rewrite Hadbody. eexists. split; [reflexivity |].
  rewrite (find_append_to "body" _ soup tag_name attrs contents Hbody).
  now rewrite (proj1 (moved_every_other children Hall)).
Qed.

Lemma ads_every_other_witness :
  exists soup',
    filter_ads.inject_soup three_banners empty_page ads_config = Ok soup' /\
    bs4.find "body" soup'
    = Some (bs4.Tag "body" [] ([] ++ [banner "one"; banner "three"])).
Proof.
  apply (ads_every_other three_banners ads_config empty_page "body" [] []
           "<div>...</div>" "body" [] [banner "one"; banner "two"; banner "three"]);
    reflexivity.
Defined.

(** ** The clean pass: what it removes and what it keeps *)

Section clean_more.

Variable listed : string -> list (string * string) -> bool.
Variable doomed : string -> list (string * string) -> list bs4.node -> bool.

Lemma prune_other_content (t t' : bs4.soup) :
  (forall name attrs,
     listed name attrs = true ->
     String.eqb name "script" || String.eqb name "iframe" = true) ->
  bs4.prune listed doomed t = Ok t' ->
  flat_map other_content t' = flat_map other_content t.
Proof.
  intros Hl.
  assert (Hnode : forall n r,
            bs4.prune_node listed doomed n = Ok r ->
            match r with Some k => other_content k | None => [] end
            = other_content n).
  { induction n as [s | name attrs contents IH] using node_ind'; intros r H.
    - now injection H as <-.
    - rewrite prune_node_tag in H. unfold removal in H.
      destruct (listed name attrs) eqn:El; cbn [andb] in H.
      + cbn [other_content]. rewrite (Hl _ _ El).
        destruct (doomed name attrs contents).
        * destruct (existsb _ contents); [discriminate H |]. now injection H as <-.
        * destruct (bs4.prune listed doomed contents); [| discriminate H].
          cbn [rbind] in H. injection H as <-. cbn [other_content].
          now rewrite (Hl _ _ El).
      + destruct (bs4.prune listed doomed contents) as [contents' |] eqn:Ec;
          [| discriminate H].
        cbn [rbind] in H. injection H as <-. cbn [other_content].
        destruct (_ || _); [reflexivity |]. do 2 f_equal.
        clear El. revert contents' Ec.
        induction IH as [|c contents Hc _ IHl]; intros contents' Ec.
        * now injection Ec as <-.
        * rewrite prune_cons in Ec.
          destruct (bs4.prune_node listed doomed c) as [r |] eqn:Er;
            [| discriminate Ec].
          cbn [rbind] in Ec.
          destruct (bs4.prune listed doomed contents) as [l' |] eqn:El';
            [| discriminate Ec].
          cbn [rbind] in Ec. injection Ec as <-.
          cbn [flat_map]. rewrite <- (Hc r eq_refl), <- (IHl l' eq_refl).
          now destruct r. }
  revert t'. induction t as [|c t IH]; intros t' H.
  - now injection H as <-.
  - rewrite prune_cons in H.
    destruct (bs4.prune_node listed doomed c) as [r |] eqn:Er; [| discriminate H].
    cbn [rbind] in H.
    destruct (bs4.prune listed doomed t) as [l' |] eqn:El'; [| discriminate H].
    cbn [rbind] in H. injection H as <-.
    cbn [flat_map]. rewrite <- (Hnode c r Er), <- (IH l' eq_refl).
    now destruct r.
Qed.

End clean_more.

(** X19: the clean pass leaves none of what it looks for.  On a parsed
    document (the content of a [script] is raw text), a document that
    the three loops of [clean_html] return holds no [script] and no
    [iframe] whose [src] contains one of the ad patterns, and no inline
    script whose text contains one of the tracker patterns, at any
    depth. *)
Theorem clean_leaves_no_ads (t t' : bs4.soup) :
  forallb script_is_text t = true ->
  filter_ads.clean_soup t = Ok t' ->
  forallb (none_doomed (filter_ads.tag_with_src "script") filter_ads.src_is_ad) t'
  = true /\
  forallb (none_doomed filter_ads.is_script filter_ads.inline_is_tracker) t'
  = true /\
  forallb (none_doomed (filter_ads.tag_with_src "iframe") filter_ads.src_is_ad) t'
  = true.
Proof.
  unfold filter_ads.clean_soup. intros Hwf E.
  destruct (bs4.prune (filter_ads.tag_with_src "script") filter_ads.src_is_ad t)
    as [t1|e] eqn:E1; cbn [rbind] in E; [| discriminate].
  destruct (bs4.prune filter_ads.is_script filter_ads.inline_is_tracker t1)
    as [t2|e] eqn:E2; cbn [rbind] in E; [| discriminate].
  pose proof (prune_keeps_shape _ _ _ _ Hwf E1) as Hwf1.
  pose proof (prune_keeps_shape _ _ _ _ Hwf1 E2) as Hwf2.
  pose proof (prune_none_self _ _ _ _ (src_is_ad_stable "script") Hwf E1) as N11.
  pose proof (prune_none_other _ _ _ _ _ _ (src_is_ad_stable "script") Hwf1 N11 E2)
    as N12.
  pose proof (prune_none_other _ _ _ _ _ _ (src_is_ad_stable "script") Hwf2 N12 E)
    as N13.
  pose proof (prune_none_self _ _ _ _ inline_is_tracker_stable Hwf1 E2) as N22.
  pose proof (prune_none_other _ _ _ _ _ _ inline_is_tracker_stable Hwf2 N22 E)
    as N23.
  pose proof (prune_none_self _ _ _ _ (src_is_ad_stable "iframe") Hwf2 E) as N33.
  auto.
Qed.

Lemma clean_leaves_no_ads_witness :
  forallb (none_doomed filter_ads.is_script filter_ads.inline_is_tracker)
    [bs4.Tag "html" []
       [bs4.Tag "head" [] [];
        bs4.Tag "body" [] [bs4.Tag "p" [] [bs4.NavigableString "text"]]]]
  = true.
Proof.
  apply (proj1 (proj2 (clean_leaves_no_ads page_with_ads _ eq_refl eq_refl))).
Defined.

(** X20: the clean pass touches nothing but [script] and [iframe]
    elements.  What a document holds besides its [script] and [iframe]
    elements (every other element with its attributes, and all text
    outside them) is the same before and after the three loops of
    [clean_html]. *)
Theorem clean_keeps_other_content (t t' : bs4.soup) :
  filter_ads.clean_soup t = Ok t' ->
  flat_map other_content t' = flat_map other_content t.
Proof.
  unfold filter_ads.clean_soup. intros E.
  destruct (bs4.prune (filter_ads.tag_with_src "script") filter_ads.src_is_ad t)
    as [t1|e] eqn:E1; cbn [rbind] in E; [| discriminate].
  destruct (bs4.prune filter_ads.is_script filter_ads.inline_is_tracker t1)
    as [t2|e] eqn:E2; cbn [rbind] in E; [| discriminate].
  apply prune_other_content in E1, E2, E.
  - congruence.
  - intros name attrs H. unfold filter_ads.tag_with_src in H.
    apply andb_true_iff in H as [H _]. apply String.eqb_eq in H as ->. reflexivity.
  - intros name attrs H. unfold filter_ads.is_script in H.
    apply String.eqb_eq in H as ->. reflexivity.
  - intros name attrs H. unfold filter_ads.tag_with_src in H.
    apply andb_true_iff in H as [H _]. apply String.eqb_eq in H as ->. reflexivity.
Qed.

Lemma clean_keeps_other_content_witness :
  flat_map other_content
    [bs4.Tag "html" []
       [bs4.Tag "head" [] [];
        bs4.Tag "body" [] [bs4.Tag "p" [] [bs4.NavigableString "text"]]]]
  = flat_map other_content page_with_ads.
Proof.
  apply clean_keeps_other_content. reflexivity.
Defined.
